(** * reactdomproject: theme store, hook effects and the scaffolding script

    A shallow embedding of [src/App.js], [src/context/ThemeContext.jsx],
    [src/components/ThemeToggle.jsx] and [src/test.sh].

    - JavaScript strings are [string]; the counter is a JavaScript number
      holding an integer (a [Z], with the rounding of [c + 1] written out).
    - The page is an explicit state: the hook state of every mounted
      component, and the host document (title, timers, scripts of
      [document.head], focus, committed layout) with the record of the
      host calls the components make.
    - The shell script is a state-passing program over the regular
      files ([gmap string string]) and the directories of its working
      directory, its standard output, the failures its commands report
      and the exit status of the last command. *)

From Stdlib Require Import ZArith List String Ascii Bool Lia DecimalString.
From stdpp Require Import gmap strings list.
Import ListNotations.

Local Open Scope string_scope.
Local Open Scope list_scope.
Local Open Scope Z_scope.

(** ** JavaScript values *)

Module JS.

(** [String(n)] for a number holding an integer below 1e21: its decimal
    digits, with a minus sign in front of a negative one. *)
Definition number_to_string (n : Z) : string :=
  NilZero.string_of_int (Z.to_int n).

(** Every integer up to [2^53] is a double. *)
Definition MAX_EXACT : Z := 2 ^ 53.

(** [c + 1] on a number holding an integer [0 <= c < 2^54].  Below [2^53]
    the sum is exact.  From [2^53] on only even integers are doubles and
    [c + 1] lies half way between [c] and [c + 2]: the tie goes to the one
    whose significand [c / 2] is even. *)
Definition add1 (c : Z) : Z :=
  if c <? MAX_EXACT then c + 1
  else if Z.even (c / 2) then c else c + 2.

(** [a === b] on strings. *)
Definition strict_eq (a b : string) : bool := String.eqb a b.

End JS.

(** ** The theme store *)

(** The provider of [App.js] (lines 12-29). *)
Module AppJs.

(** [useState('light')] *)
Definition initial_theme : string := "light".

(** [prevTheme => (prevTheme === 'light' ? 'dark' : 'light')] *)
Definition toggleTheme_updater (prevTheme : string) : string :=
  if JS.strict_eq prevTheme "light" then "dark" else "light".

(** [toggleTheme] of a render whose [theme] was [captured_theme]: the
    updater it hands to [setTheme] and the lines it logs.  The body reads
    nothing of the render that created it. *)
Definition toggleTheme (captured_theme : string)
  : (string -> string) * list string :=
  (toggleTheme_updater, []).

End AppJs.

(** The provider of [context/ThemeContext.jsx] (lines 7-27). *)
Module ContextJsx.

Definition initial_theme : string := "light".

Definition toggleTheme_updater (prevTheme : string) : string :=
  if JS.strict_eq prevTheme "light" then "dark" else "light".

(** Here [toggleTheme] also logs the theme it expects, computed from the
    [theme] of the render that created it. *)
Definition toggleTheme (captured_theme : string)
  : (string -> string) * list string :=
  (toggleTheme_updater,
   ["Theme toggled to: " +:+
    (if JS.strict_eq captured_theme "light" then "dark" else "light")]).

End ContextJsx.

(** ** The host document *)

(** The two DOM nodes the components hold a ref to. *)
Inductive element := ToggleThemeButton | TrackedBox.

(** What a component does to its host, and the component functions React
    invokes. *)
Inductive call :=
| Render (component : string)
| ConsoleLog (line : string)
| SetTitle (text : string)
| SetInterval (id : nat)
| ClearInterval (id : nat)
| AppendScript (src : string)
| RemoveScript (src : string)
| FocusElement (el : element).

Record Host := mkHost {
  title : string;                  (* document.title *)
  intervals : list nat;            (* ids of the running intervals *)
  next_interval : nat;             (* the id the next setInterval returns *)
  head_scripts : list string;      (* script elements of document.head *)
  activeElement : option element;  (* document.activeElement *)
  wrapper_class : option string;   (* width class of the committed wrapper
                                      div of DocumentTitleUpdater *)
  box_width : string -> Z;         (* layout: offsetWidth of the tracked box
                                      under a wrapper of that width class *)
  calls : list call                (* the calls made so far, latest first *)
}.

(** The calls in the order they were made. *)
Definition trace (h : Host) : list call := rev (calls h).

Definition fresh_host (layout : string -> Z) : Host :=
  mkHost EmptyString [] 1 [] None None layout [].

Definition record (c : call) (h : Host) : Host :=
  mkHost (title h) (intervals h) (next_interval h) (head_scripts h)
         (activeElement h) (wrapper_class h) (box_width h) (c :: calls h).

Definition console_log (line : string) (h : Host) : Host :=
  record (ConsoleLog line) h.

Definition set_title (text : string) (h : Host) : Host :=
  record (SetTitle text)
    (mkHost text (intervals h) (next_interval h) (head_scripts h)
            (activeElement h) (wrapper_class h) (box_width h) (calls h)).

Definition setInterval (h : Host) : nat * Host :=
  let id := next_interval h in
  (id, record (SetInterval id)
         (mkHost (title h) (id :: intervals h) (S id) (head_scripts h)
                 (activeElement h) (wrapper_class h) (box_width h) (calls h))).

Definition clearInterval (id : nat) (h : Host) : Host :=
  record (ClearInterval id)
    (mkHost (title h) (List.filter (fun i => negb (Nat.eqb i id)) (intervals h))
            (next_interval h) (head_scripts h)
            (activeElement h) (wrapper_class h) (box_width h) (calls h)).

Definition appendChild_head (src : string) (h : Host) : Host :=
  record (AppendScript src)
    (mkHost (title h) (intervals h) (next_interval h) (head_scripts h ++ [src])
            (activeElement h) (wrapper_class h) (box_width h) (calls h)).

Fixpoint remove_first (src : string) (l : list string) : list string :=
  match l with
  | [] => []
  | x :: r => if String.eqb x src then r else x :: remove_first src r
  end.

Definition removeChild_head (src : string) (h : Host) : Host :=
  record (RemoveScript src)
    (mkHost (title h) (intervals h) (next_interval h)
            (remove_first src (head_scripts h))
            (activeElement h) (wrapper_class h) (box_width h) (calls h)).

Definition focus (el : element) (h : Host) : Host :=
  record (FocusElement el)
    (mkHost (title h) (intervals h) (next_interval h) (head_scripts h)
            (Some el) (wrapper_class h) (box_width h) (calls h)).

(** A commit writes the wrapper's width class into the DOM ([None] once
    the subtree is removed, which also drops the focus it held). *)
Definition commit_wrapper (cls : option string) (h : Host) : Host :=
  mkHost (title h) (intervals h) (next_interval h) (head_scripts h)
         (match cls with Some _ => activeElement h | None => None end)
         cls (box_width h) (calls h).

(** [boxRef.current.offsetWidth]: the layout of what is committed.  The
    layout is taken as instantaneous: the 500ms CSS transition of the
    wrapper is not modelled. *)
Definition offsetWidth (h : Host) : Z :=
  match wrapper_class h with
  | Some cls => box_width h cls
  | None => 0
  end.

(** ** The components of App.js *)

(** Function and object values carry the identity they were allocated
    with; a function created in a render also carries the [theme] of that
    render, the only render-scoped variable in reach of [toggleTheme]. *)
Record closure := mkClosure { fn_id : nat; captured_theme : string }.

(** [contextValue = { theme, toggleTheme }] *)
Record ThemeContextValue := mkContext {
  ctx_id : nat;
  ctx_theme : string;
  ctx_toggleTheme : closure
}.

Record ThemeToggleState := mkThemeToggle {
  buttonRef : option element;     (* buttonRef.current *)
  onClick : closure               (* the toggleTheme it rendered with *)
}.

Record DomChangeTrackerState := mkTracker {
  boxRef : option element;        (* boxRef.current *)
  width : Z;
  layout_deps : option Z          (* [boxRef.current?.offsetWidth] of the
                                     last render; None is undefined *)
}.

Record DocumentTitleUpdaterState := mkUpdater {
  count : Z;
  customWidth : string;
  title_deps : Z * string;        (* [count, theme] of the last render *)
  intervalId : nat;
  tracker : DomChangeTrackerState
}.

Record Demo := mkDemo {
  themeToggle : ThemeToggleState;
  titleUpdater : DocumentTitleUpdaterState
}.

Record AppState := mkApp {
  isTailwindLoaded : bool;
  theme : string;                 (* state of ThemeProvider *)
  contextValue : ThemeContextValue;
  demo : option Demo;             (* the subtree under the Consumer *)
  next_obj : nat                  (* next fresh identity *)
}.

Record Page := mkPage { app : option AppState; host : Host }.

(** *** ThemeProvider (lines 12-29) *)

Definition ThemeProvider (theme : string) (next_obj : nat) (h : Host)
  : ThemeContextValue * nat * Host :=
  let toggleTheme := mkClosure next_obj theme in
  let contextValue := mkContext (S next_obj) theme toggleTheme in
  (contextValue, S (S next_obj), record (Render "ThemeProvider") h).

(** *** ThemeToggle (lines 33-82) *)

Definition handleFocus (buttonRef : option element) (h : Host) : Host :=
  match buttonRef with
  | Some button => focus button h
  | None => h
  end.

Definition ThemeToggle (ctx : ThemeContextValue) (s : ThemeToggleState)
  (h : Host) : ThemeToggleState * Host :=
  (mkThemeToggle (buttonRef s) (ctx_toggleTheme ctx),
   record (Render "ThemeToggle") h).

(** *** DomChangeTracker (lines 151-190) *)

(** The dependency list, evaluated while rendering: it reads the DOM as
    the previous commit left it. *)
Definition layout_deps_of (boxRef : option element) (h : Host) : option Z :=
  match boxRef with
  | Some _ => Some (offsetWidth h)
  | None => None
  end.

(** [Object.is] on the one entry of the list. *)
Definition layout_deps_differ (new old : option Z) : bool :=
  match new, old with
  | Some a, Some b => negb (a =? b)
  | None, None => false
  | _, _ => true
  end.

(** The body of the layout effect: the argument of [setWidth] when it is
    called. *)
Definition layout_effect (boxRef : option element) (h : Host)
  : option Z * Host :=
  match boxRef with
  | Some _ =>
      let currentWidth := offsetWidth h in
      (Some currentWidth,
       console_log ("[LAYOUT EFFECT]: Measured new width: " +:+
                    JS.number_to_string currentWidth +:+ "px") h)
  | None => (None, h)
  end.

(** The layout phase of a commit of DomChangeTracker rendered with [deps]. *)
Definition tracker_commit (run_effect : bool) (deps : option Z)
  (t : DomChangeTrackerState) (h : Host) : DomChangeTrackerState * Host :=
  if run_effect then
    let '(w, h1) := layout_effect (boxRef t) h in
    (mkTracker (boxRef t) (default (width t) w) deps, h1)
  else (mkTracker (boxRef t) (width t) deps, h).

(** A re-render of DomChangeTracker alone. *)
Definition tracker_rerender (t : DomChangeTrackerState) (h : Host)
  : DomChangeTrackerState * Host :=
  let h := record (Render "DomChangeTracker") h in
  let deps := layout_deps_of (boxRef t) h in
  tracker_commit (layout_deps_differ deps (layout_deps t)) deps t h.

(** React gives up after this many updates nested in commits. *)
Definition NESTED_UPDATE_LIMIT : nat := 50.

(** The synchronous re-renders that [setWidth] in the layout effect asks
    for: none when the width it stored is the one it had. *)
Fixpoint flush_sync (fuel : nat) (prev_width : Z)
  (t : DomChangeTrackerState) (h : Host) : DomChangeTrackerState * Host :=
  match fuel with
  | O => (t, h)
  | S fuel' =>
      if width t =? prev_width then (t, h)
      else
        let '(t', h') := tracker_rerender t h in
        flush_sync fuel' (width t) t' h'
  end.

(** *** DocumentTitleUpdater (lines 87-146) *)

Definition title_effect (count : Z) (theme : string) (h : Host) : Host :=
  console_log ("[EFFECT]: Document title updated for count " +:+
               JS.number_to_string count)
    (set_title ("Count: " +:+ JS.number_to_string count +:+
                " | Theme: " +:+ theme) h).

Definition title_deps_differ (new old : Z * string) : bool :=
  negb ((fst new =? fst old) && String.eqb (snd new) (snd old)).

Definition interval_effect (h : Host) : nat * Host :=
  setInterval
    (console_log "[EFFECT]: Component Mounted. Setting up interval..." h).

Definition interval_cleanup (intervalId : nat) (h : Host) : Host :=
  clearInterval intervalId (console_log "[CLEANUP]: Clearing interval." h).

(** [prevWidth => prevWidth === 'w-full' ? 'w-1/2' : 'w-full'] *)
Definition toggleWidth_updater (prevWidth : string) : string :=
  if JS.strict_eq prevWidth "w-full" then "w-1/2" else "w-full".

(** A re-render of DocumentTitleUpdater, with its child, for the given
    prop and state, and the commit that follows. *)
Definition rerender_DocumentTitleUpdater (theme : string) (count : Z)
  (customWidth : string) (s : DocumentTitleUpdaterState) (h : Host)
  : DocumentTitleUpdaterState * Host :=
  (* render phase: the component, then its child *)
  let h := record (Render "DocumentTitleUpdater") h in
  let h := record (Render "DomChangeTracker") h in
  let deps := layout_deps_of (boxRef (tracker s)) h in
  (* commit phase: the DOM is mutated *)
  let h := commit_wrapper (Some customWidth) h in
  (* layout effects, before the browser paints *)
  let '(t, h) :=
    tracker_commit (layout_deps_differ deps (layout_deps (tracker s)))
                   deps (tracker s) h in
  (* passive effects *)
  let h := if title_deps_differ (count, theme) (title_deps s)
           then title_effect count theme h else h in
  (* the re-render setWidth asked for *)
  let '(t, h) := flush_sync NESTED_UPDATE_LIMIT (width (tracker s)) t h in
  (mkUpdater count customWidth (count, theme) (intervalId s) t, h).

(** The first render of the subtree under the Consumer, in the order of
    the JSX: ThemeToggle, DocumentTitleUpdater, and DomChangeTracker in it. *)
Definition mount_demo (ctx : ThemeContextValue) (h : Host) : Demo * Host :=
  (* render phase *)
  let h := record (Render "ThemeToggle") h in
  let h := record (Render "DocumentTitleUpdater") h in
  let h := record (Render "DomChangeTracker") h in
  let deps := layout_deps_of None h in
  (* commit phase: the nodes are inserted and the refs attached *)
  let h := commit_wrapper (Some "w-full") h in
  (* layout effects *)
  let '(t, h) := tracker_commit true deps (mkTracker (Some TrackedBox) 0 deps) h in
  (* passive effects, in the order of the hooks *)
  let h := title_effect 0 (ctx_theme ctx) h in
  let '(id, h) := interval_effect h in
  (* the re-render setWidth asked for *)
  let '(t, h) := flush_sync NESTED_UPDATE_LIMIT 0 t h in
  (mkDemo (mkThemeToggle (Some ToggleThemeButton) (ctx_toggleTheme ctx))
          (mkUpdater 0 "w-full" (0, ctx_theme ctx) id t), h).

(** *** App (lines 195-248) *)

Definition tailwind_src : string := "https://cdn.tailwindcss.com".

(** The first render of the root: App and ThemeProvider are rendered, the
    placeholder is committed, and App's effect injects the script. *)
Definition mount (h : Host) : Page :=
  let h := record (Render "App") h in
  let '(ctx, next, h) := ThemeProvider AppJs.initial_theme 0 h in
  let h := appendChild_head tailwind_src h in
  mkPage (Some (mkApp false AppJs.initial_theme ctx None next)) h.

(** What happens to the page. *)
Inductive event :=
| ScriptLoaded        (* the load event of the injected script *)
| ClickToggleTheme    (* "Toggle Theme (via useContext)" *)
| ClickFocus          (* "Focus Button (via useRef)" *)
| ClickIncrement      (* "Increment Count" *)
| ClickToggleWidth    (* "Toggle Width" *)
| Tick                (* 5000 ms pass *)
| Unmount.            (* the root is unmounted *)

(** [script.onload]: [setIsTailwindLoaded(true)], a log line, and then
    the re-render, which mounts the subtree under the Consumer. *)
Definition on_script_loaded (p : Page) : Page :=
  let h := console_log "Tailwind CSS script loaded successfully." (host p) in
  match app p with
  | Some a =>
      if isTailwindLoaded a then mkPage (Some a) h
      else
        let h := record (Render "App") h in
        let '(ctx, next, h) := ThemeProvider (theme a) (next_obj a) h in
        let '(d, h) := mount_demo ctx h in
        mkPage (Some (mkApp true (theme a) ctx (Some d) next)) h
  | None => mkPage None h
  end.

(** A click on the first button calls the [toggleTheme] that ThemeToggle
    rendered with.  A changed theme re-renders the provider and, through
    the context, ThemeToggle and the Consumer's children. *)
Definition on_toggle_theme (a : AppState) (d : Demo) (h : Host) : Page :=
  let '(updater, logs) :=
    AppJs.toggleTheme (captured_theme (onClick (themeToggle d))) in
  let h := fold_left (fun h line => console_log line h) logs h in
  let theme' := updater (theme a) in
  if String.eqb theme' (theme a) then mkPage (Some a) h
  else
    let '(ctx, next, h) := ThemeProvider theme' (next_obj a) h in
    let '(tg, h) := ThemeToggle ctx (themeToggle d) h in
    let u := titleUpdater d in
    let '(u', h) :=
      rerender_DocumentTitleUpdater theme' (count u) (customWidth u) u h in
    mkPage (Some (mkApp (isTailwindLoaded a) theme' ctx
                        (Some (mkDemo tg u')) next)) h.

(** [setCount(c => c + 1)] *)
Definition on_increment (a : AppState) (d : Demo) (h : Host) : Page :=
  let u := titleUpdater d in
  let count' := JS.add1 (count u) in
  if count' =? count u then mkPage (Some a) h
  else
    let '(u', h) :=
      rerender_DocumentTitleUpdater (theme a) count' (customWidth u) u h in
    mkPage (Some (mkApp (isTailwindLoaded a) (theme a) (contextValue a)
                        (Some (mkDemo (themeToggle d) u')) (next_obj a))) h.

(** [toggleWidth] *)
Definition on_toggle_width (a : AppState) (d : Demo) (h : Host) : Page :=
  let u := titleUpdater d in
  let customWidth' := toggleWidth_updater (customWidth u) in
  if String.eqb customWidth' (customWidth u) then mkPage (Some a) h
  else
    let '(u', h) :=
      rerender_DocumentTitleUpdater (theme a) (count u) customWidth' u h in
    mkPage (Some (mkApp (isTailwindLoaded a) (theme a) (contextValue a)
                        (Some (mkDemo (themeToggle d) u')) (next_obj a))) h.

(** Every running interval logs its line. *)
Definition on_tick (h : Host) : Host :=
  fold_right (fun _ h => console_log "Interval running..." h) h (intervals h).

(** Unmounting runs the cleanups of the effects (App's, then those of
    its descendants) and removes the DOM nodes. *)
Definition on_unmount (a : AppState) (h : Host) : Page :=
  let h := removeChild_head tailwind_src h in
  let h := match demo a with
           | Some d => interval_cleanup (intervalId (titleUpdater d)) h
           | None => h
           end in
  mkPage None (commit_wrapper None h).

(** The buttons exist only while the subtree under the Consumer is
    mounted: a click elsewhere reaches no handler. *)
Definition step (e : event) (p : Page) : Page :=
  match e with
  | ScriptLoaded => on_script_loaded p
  | Tick => mkPage (app p) (on_tick (host p))
  | Unmount =>
      match app p with
      | Some a => on_unmount a (host p)
      | None => p
      end
  | _ =>
      match app p with
      | Some a =>
          match demo a with
          | Some d =>
              match e with
              | ClickToggleTheme => on_toggle_theme a d (host p)
              | ClickFocus =>
                  mkPage (Some a) (handleFocus (buttonRef (themeToggle d)) (host p))
              | ClickIncrement => on_increment a d (host p)
              | ClickToggleWidth => on_toggle_width a d (host p)
              | _ => p
              end
          | None => p
          end
      | None => p
      end
  end.

Definition run (es : list event) (p : Page) : Page :=
  fold_left (fun p e => step e p) es p.

(** A container in which a full-width box is 800px wide and a half-width
    box 400px. *)
Definition layout800 (cls : string) : Z :=
  if String.eqb cls "w-full" then 800 else 400.

(** *** What is rendered *)

(** The tree of a render: component instances with their output, host
    elements, text.  Class names, styles and the explanatory paragraphs
    are left out. *)
Set Warnings "-register-all".
Inductive vnode :=
| Component (name : string) (output : list vnode)
| Tag (tag : string) (children : list vnode)
| Text (s : string).

Definition ThemeToggle_view (theme : string) : vnode :=
  Component "ThemeToggle" [
    Tag "div" [
      Tag "h2" [Text "Hook 1: useState & Hook 2: useContext in Action"];
      Tag "p" [Text "Current Global Theme: "; Tag "span" [Text theme]];
      Tag "div" [
        Tag "button" [Text "Toggle Theme (via useContext)"];
        Tag "button" [Text "Focus Button (via useRef)"]];
      Tag "p" []]].

Definition DomChangeTracker_view (width : Z) : vnode :=
  Component "DomChangeTracker" [
    Tag "div" [
      Tag "h2" [Text "Hook 5: useLayoutEffect & Detailed DOM Changes"];
      Tag "div" [
        Tag "p" [Text "Current Element Width (Measured with useLayoutEffect):"]];
      Tag "p" [Text (JS.number_to_string width +:+ ".00"); Text " px"];
      Tag "p" []]].

Definition DocumentTitleUpdater_view (count : Z) (customWidth : string)
  (width : Z) : vnode :=
  Component "DocumentTitleUpdater" [
    Tag "div" [
      Tag "div" [
        Tag "h2" [Text "Hook 3: useEffect Demonstration"];
        Tag "p" [Text "Local Count: ";
                 Tag "span" [Text (JS.number_to_string count)]];
        Tag "div" [
          Tag "button" [Text "Increment Count"];
          Tag "button" [
            Text "Toggle Width (";
            Text (if JS.strict_eq customWidth "w-full" then "Half" else "Full");
            Text ")"]];
        Tag "p" []];
      DomChangeTracker_view width]].

(** The return value of App, lines 218-247.  The hook state shown for the
    subtree is that of its instance, or the initial one in its first
    render. *)
Definition App_view (a : AppState) : vnode :=
  Component "App" [
    Component "ThemeProvider" [
      if negb (isTailwindLoaded a) then
        Tag "div" [Tag "p" [Text "Loading styles..."]]
      else
        Component "ThemeContext.Consumer" [
          Tag "div" [
            Tag "div" [
              Tag "h1" [Text "React Hooks Master Demo"];
              ThemeToggle_view (theme a);
              match demo a with
              | Some d =>
                  let u := titleUpdater d in
                  DocumentTitleUpdater_view (count u) (customWidth u)
                                            (width (tracker u))
              | None => DocumentTitleUpdater_view 0 "w-full" 0
              end;
              Tag "footer" []]]]]].

(** The component instances of a tree, parents first, in document order. *)
Fixpoint components_of (v : vnode) : list string :=
  match v with
  | Component name output => name :: flat_map components_of output
  | Tag _ children => flat_map components_of children
  | Text _ => []
  end.

Definition mounted_components (p : Page) : list string :=
  match app p with
  | Some a => components_of (App_view a)
  | None => []
  end.

(** How often a call was made. *)
Definition count_calls (f : call -> bool) (h : Host) : nat :=
  length (List.filter f (calls h)).

Definition is_SetInterval (c : call) : bool :=
  match c with SetInterval _ => true | _ => false end.
Definition is_ClearInterval (c : call) : bool :=
  match c with ClearInterval _ => true | _ => false end.
Definition is_RemoveScript (c : call) : bool :=
  match c with RemoveScript _ => true | _ => false end.
Definition is_AppendScript (c : call) : bool :=
  match c with AppendScript _ => true | _ => false end.
Definition is_Render (c : call) : bool :=
  match c with Render _ => true | _ => false end.

(** *** Observations *)

(** The title the effect of lines 92-95 writes. *)
Definition title_for (count : Z) (theme : string) : string :=
  "Count: " +:+ JS.number_to_string count +:+ " | Theme: " +:+ theme.

(** The calls that acquire or release something, latest first. *)
Definition is_resource (c : call) : bool :=
  match c with
  | SetInterval _ | ClearInterval _ | AppendScript _ | RemoveScript _ => true
  | _ => false
  end.

Definition resources (h : Host) : list call :=
  List.filter is_resource (calls h).

Definition event_eqb (e1 e2 : event) : bool :=
  match e1, e2 with
  | ScriptLoaded, ScriptLoaded | ClickToggleTheme, ClickToggleTheme
  | ClickFocus, ClickFocus | ClickIncrement, ClickIncrement
  | ClickToggleWidth, ClickToggleWidth | Tick, Tick
  | Unmount, Unmount => true
  | _, _ => false
  end.

(** How often [e] occurs in [es]. *)
Definition occurrences (e : event) (es : list event) : nat :=
  length (List.filter (event_eqb e) es).

(** The hook state of the mounted subtree. *)
Definition page_demo (p : Page) : option Demo :=
  match app p with
  | Some a => demo a
  | None => None
  end.

Definition page_theme (p : Page) : option string :=
  match app p with
  | Some a => Some (theme a)
  | None => None
  end.

Definition page_count (p : Page) : option Z :=
  match page_demo p with
  | Some d => Some (count (titleUpdater d))
  | None => None
  end.

Definition page_customWidth (p : Page) : option string :=
  match page_demo p with
  | Some d => Some (customWidth (titleUpdater d))
  | None => None
  end.

(** The width DomChangeTracker shows. *)
Definition page_width (p : Page) : option Z :=
  match page_demo p with
  | Some d => Some (width (tracker (titleUpdater d)))
  | None => None
  end.

(** The page once the root is mounted and the script has loaded. *)
Definition loaded_page (layout : string -> Z) : Page :=
  run [ScriptLoaded] (mount (fresh_host layout)).

(** More clicks than doubles can count. *)
Definition clicks_beyond_exact : nat := Z.to_nat (JS.MAX_EXACT + 1).

(** *** Invariants of the pages the events can produce *)

(** [h'] differs from [h] only by renders and log lines. *)
Definition quiet (h h' : Host) : Prop :=
  title h' = title h /\ intervals h' = intervals h /\
  next_interval h' = next_interval h /\ head_scripts h' = head_scripts h /\
  activeElement h' = activeElement h /\ wrapper_class h' = wrapper_class h /\
  box_width h' = box_width h /\
  List.filter is_resource (calls h') = List.filter is_resource (calls h).

(** The subtree under the Consumer is mounted. *)
Definition inv_ready (a : AppState) (d : Demo) (h : Host) : Prop :=
  isTailwindLoaded a = true /\
  resources h = [SetInterval 1; AppendScript tailwind_src] /\
  intervals h = [1%nat] /\
  intervalId (titleUpdater d) = 1%nat /\
  themeToggle d =
    mkThemeToggle (Some ToggleThemeButton) (ctx_toggleTheme (contextValue a)) /\
  boxRef (tracker (titleUpdater d)) = Some TrackedBox /\
  title_deps (titleUpdater d) = (count (titleUpdater d), theme a) /\
  title h = title_for (count (titleUpdater d)) (theme a) /\
  wrapper_class h = Some (customWidth (titleUpdater d)).

(** Only the placeholder is shown. *)
Definition inv_waiting (a : AppState) (h : Host) : Prop :=
  isTailwindLoaded a = false /\
  resources h = [AppendScript tailwind_src] /\
  intervals h = [] /\ next_interval h = 1%nat /\ wrapper_class h = None.

Definition inv_mounted (a : AppState) (h : Host) : Prop :=
  head_scripts h = [tailwind_src] /\
  ctx_theme (contextValue a) = theme a /\
  (theme a = "light" \/ theme a = "dark") /\
  (ctx_id (contextValue a) < next_obj a)%nat /\
  (fn_id (ctx_toggleTheme (contextValue a)) < next_obj a)%nat /\
  match demo a with
  | Some d => inv_ready a d h
  | None => inv_waiting a h
  end.

(** The root was unmounted, before or after the subtree was mounted. *)
Definition inv_gone (h : Host) : Prop :=
  head_scripts h = [] /\ intervals h = [] /\ wrapper_class h = None /\
  (resources h = [RemoveScript tailwind_src; AppendScript tailwind_src] \/
   resources h = [ClearInterval 1; RemoveScript tailwind_src;
                  SetInterval 1; AppendScript tailwind_src]).

Definition inv (p : Page) : Prop :=
  match app p with
  | Some a => inv_mounted a (host p)
  | None => inv_gone (host p)
  end.

(** ** The scaffolding script, test.sh *)

Module Sh.

Definition nl : ascii := "010"%char.
Definition dq : string := String "034"%char EmptyString.

(** Whether [pat] occurs in [s]. *)
Fixpoint contains (pat s : string) : bool :=
  String.prefix pat s ||
  match s with
  | EmptyString => false
  | String _ r => contains pat r
  end.

(** The lines of a text, as grep and sed count them: what each newline
    ends, and what follows the last newline if anything does.  An empty
    file has no line. *)
Fixpoint lines (s : string) : list string :=
  match s with
  | EmptyString => []
  | String c r =>
      if Ascii.eqb c nl then EmptyString :: lines r
      else match lines r with
           | l :: ls => String c l :: ls
           | [] => [String c EmptyString]
           end
  end.

(** The text a here-document feeds to its command: each line with its
    newline.  The delimiters are unquoted, so a dollar sign, a backquote
    or a backslash in a line would be expanded by the shell. *)
Definition heredoc (body : list string) : string :=
  fold_right (fun l rest => l +:+ String nl rest) EmptyString body.


(** The part of a path before its last slash. *)
Fixpoint dirname (path : string) : option string :=
  match path with
  | EmptyString => None
  | String c r =>
      match dirname r with
      | Some d => Some (String c d)
      | None => if Ascii.eqb c "/"%char then Some EmptyString else None
      end
  end.

(** A command that wrote to the standard error and returned a status
    other than 0. *)
Inductive failure : Type :=
| Mkdir_failed (dir : string)
| Redirect_failed (path : string)
| Grep_failed (path : string)
| Sed_failed (code : nat).

(** The working directory and the three things a run leaves behind it:
    the standard output, the failures reported on the standard error, and
    the exit status of the last command.  A path names a directory when
    [dirs] holds it, a regular file when [dirs] does not hold it and
    [files] does, and nothing otherwise.  Permissions and a full disk are
    not part of the state: a command fails here when the kind of a path
    is in its way. *)
Record state := mkState {
  files : gmap string string;
  dirs : gset string;
  stdout : list string;
  stderr : list failure;
  status : nat
}.

Definition is_dir (path : string) (st : state) : bool :=
  bool_decide (path ∈ dirs st).

(** The content of a regular file. *)
Definition regular (path : string) (st : state) : option string :=
  if is_dir path st then None else files st !! path.

Definition succeeded (st : state) : bool := Nat.eqb (status st) 0.

Definition cmd : Type := state -> state.

Definition seq (c1 c2 : cmd) : cmd := fun st => c2 (c1 st).
Declare Scope cmd_scope.
Delimit Scope cmd_scope with cmd.
Bind Scope cmd_scope with cmd.
Notation "c1 ;; c2" := (seq c1 c2)
  (at level 100, c2 at level 200, right associativity) : cmd_scope.
Local Open Scope cmd_scope.

(** [if test; then ...; else ...; fi]: the branch is chosen by the exit
    status of the test. *)
Definition if_ (test c_then c_else : cmd) : cmd :=
  fun st => let st' := test st in
            if succeeded st' then c_then st' else c_else st'.

(** [c1 || c2]: the second command runs when the first one fails. *)
Definition or_ (c1 c2 : cmd) : cmd :=
  fun st => let st' := c1 st in if succeeded st' then st' else c2 st'.

Definition echo (line : string) : cmd :=
  fun st => mkState (files st) (dirs st) (stdout st ++ [line]) (stderr st) 0.

(** [mkdir -p d] for a name without a slash: nothing to do when the
    directory is there, an error when a regular file has the name, and a
    new directory otherwise.  The script goes on in each case: it has no
    [set -e]. *)
Definition mkdir_p (d : string) : cmd :=
  fun st =>
    if is_dir d st
    then mkState (files st) (dirs st) (stdout st) (stderr st) 0
    else match files st !! d with
         | Some _ =>
             mkState (files st) (dirs st) (stdout st)
                     (stderr st ++ [Mkdir_failed d]) 1
         | None =>
             mkState (files st) ({[d]} ∪ dirs st) (stdout st) (stderr st) 0
         end.

(** Whether the shell can open [path] for writing: it is not a
    directory, and the part before its last slash, if it has one, is a
    directory. *)
Definition can_create (path : string) (st : state) : bool :=
  negb (is_dir path st) &&
  match dirname path with
  | Some d => is_dir d st
  | None => true
  end.

(** [cat > path << EOF]: the redirection creates or truncates the file
    and cat copies the here-document into it; when the file cannot be
    opened the shell reports it and does not run cat. *)
Definition cat_heredoc (path : string) (body : list string) : cmd :=
  fun st =>
    if can_create path st
    then mkState (<[path := heredoc body]> (files st)) (dirs st) (stdout st)
                 (stderr st) 0
    else mkState (files st) (dirs st) (stdout st)
                 (stderr st ++ [Redirect_failed path]) 1.

(** The two patterns the script hands to grep.  Each character of them
    stands for itself in a basic regular expression, parentheses
    included, so that a line matches when the text occurs in it. *)
Inductive entry_pattern : Type := Function_App | Const_App.

Definition pattern_text (p : entry_pattern) : string :=
  match p with
  | Function_App => "function App()"
  | Const_App => "const App ="
  end.

(** [grep -q pattern path]: status 0 when a line of the file matches, 1
    when none does, and 2 with an error message when there is no regular
    file to read. *)
Definition grep_q (p : entry_pattern) (path : string) : cmd :=
  fun st =>
    match regular path st with
    | Some content =>
        mkState (files st) (dirs st) (stdout st) (stderr st)
                (if existsb (contains (pattern_text p)) (lines content)
                 then 0 else 1)
    | None =>
        mkState (files st) (dirs st) (stdout st)
                (stderr st ++ [Grep_failed path]) 2
    end.

Definition CONTEXT_FILE : string := "context/ThemeContext.jsx".
Definition COMPONENT_FILE : string := "components/ThemeToggle.jsx".
Definition APP_FILE : string := "App.jsx".

(** The here-document of lines 12-43. *)
Definition context_heredoc : list string := [
  "import React, { createContext, useState, useContext } from 'react';";
  EmptyString;
  "// 1. Create the Context";
  "export const ThemeContext = createContext();";
  EmptyString;
  "// 2. Create the Provider Component";
  "export const ThemeProvider = ({ children }) => {";
  "  // Use useState to manage the global theme state";
  "  const [theme, setTheme] = useState('light');";
  EmptyString;
  "  const toggleTheme = () => {";
  "    setTheme(prevTheme => (prevTheme === 'light' ? 'dark' : 'light'));";
  "    console.log('Theme toggled to:', theme === 'light' ? 'dark' : 'light');";
  "  };";
  EmptyString;
  "  // The value object holds the state and the setter/toggle function";
  "  const contextValue = {";
  "    theme,";
  "    toggleTheme,";
  "  };";
  EmptyString;
  "  return (";
  "    <ThemeContext.Provider value={contextValue}>";
  "      {children}";
  "    </ThemeContext.Provider>";
  "  );";
  "};";
  EmptyString;
  "// 3. Create a Custom Hook for easy consumption";
  "export const useTheme = () => {";
  "  return useContext(ThemeContext);";
  "};"
].

(** The here-document of lines 50-75. *)
Definition component_heredoc : list string := [
  "import React from 'react';";
  "// Import the custom hook from the context file";
  "import { useTheme } from '../context/ThemeContext';";
  EmptyString;
  "function ThemeToggle() {";
  "  // Use the custom hook to access context values";
  "  const { theme, toggleTheme } = useTheme();";
  EmptyString;
  "  return (";
  "    <div style={{ padding: '20px', border: '1px solid #ccc', margin: '20px', backgroundColor: theme === 'dark' ? '#333' : '#f0f0f0', color: theme === 'dark' ? 'white' : 'black' }}>";
  "      <h2>Theme Consumer Component</h2>";
  "      <p>Current Theme: <strong>{theme}</strong></p>";
  "      ";
  "      {/* Button calls the function provided by the context */}";
  "      <button onClick={toggleTheme} style={{ padding: '10px', backgroundColor: theme === 'dark' ? '#fff' : '#333', color: theme === 'dark' ? '#333' : '#fff', cursor: 'pointer' }}>";
  "        Toggle to {theme === 'light' ? 'Dark' : 'Light'} Mode";
  "      </button>";
  EmptyString;
  "      <p style={{ marginTop: '15px', fontSize: 'small' }}>";
  "        **Context Demonstration:** This component automatically re-renders whenever the global 'theme' value changes in the Provider.";
  "      </p>";
  "    </div>";
  "  );";
  "}";
  EmptyString;
  "export default ThemeToggle;"
].

(** The two lines between the quotes of the [1i] command, lines 89-90. *)
Definition import_lines : list string := [
  "import { ThemeProvider } from " +:+ dq +:+ "./context/ThemeContext" +:+ dq +:+ ";";
  "import ThemeToggle from " +:+ dq +:+ "./components/ThemeToggle" +:+ dq +:+ ";"
].

(** The here-document of lines 101-123. *)
Definition app_heredoc : list string := [
  "import React from 'react';";
  "import './App.css';";
  "import { ThemeProvider } from " +:+ dq +:+ "./context/ThemeContext" +:+ dq +:+ ";";
  "import ThemeToggle from " +:+ dq +:+ "./components/ThemeToggle" +:+ dq +:+ ";";
  EmptyString;
  "function App() {";
  "  return (";
  "    // Wrap the entire application with the ThemeProvider";
  "    <ThemeProvider>";
  "      <div className=" +:+ dq +:+ "App" +:+ dq +:+ " style={{ minHeight: '100vh', padding: '50px' }}>";
  "        <h1>Global Theme Context Demo</h1>";
  "        {/* The component that consumes the context */}";
  "        <ThemeToggle />";
  "        ";
  "        <p style={{ marginTop: '30px' }}>";
  "          Any component wrapped by ThemeProvider can use the useTheme() hook.";
  "        </p>";
  "      </div>";
  "    </ThemeProvider>";
  "  );";
  "}";
  EmptyString;
  "export default App;"
].

(** The text of the [1i] command as sed reads it: the two lines, and the
    empty line that the last backslash opens. *)
Definition sed_text : list string := import_lines ++ [EmptyString].

Definition warning : string :=
  "Warning: Could not automatically update " +:+ APP_FILE +:+
  ". Please manually add ThemeProvider and ThemeToggle.".

(** The test of line 86. *)
Definition entry_test : cmd :=
  or_ (grep_q Function_App APP_FILE) (grep_q Const_App APP_FILE).

Definition has_app_pattern (st : state) : bool := succeeded (entry_test st).

Section Script.

(** [sed -i '' '1i\ ...' file]: what the sed at hand leaves in the file,
    given what the file holds ([None]: no regular file of that name), and
    its exit status; see [sed_bsd] and [sed_gnu]. *)
Variable sed_1i : list string -> option string -> option string * nat.

Definition sed_i (text : list string) (path : string) : cmd :=
  fun st =>
    let '(out, code) := sed_1i text (regular path st) in
    mkState (match out with
             | Some content => <[path := content]> (files st)
             | None => files st
             end)
            (dirs st) (stdout st)
            (stderr st ++ (if Nat.eqb code 0 then [] else [Sed_failed code]))
            code.

(** The four numbered parts of the script (lines 3-6, 8-44, 46-76 and
    78-128) and its closing lines (130-135). *)
Definition create_directories : cmd :=
  echo "Creating directories: context and components..." ;;
  mkdir_p "context" ;;
  mkdir_p "components".

Definition create_context_file : cmd :=
  echo ("Creating " +:+ CONTEXT_FILE +:+ "...") ;;
  cat_heredoc CONTEXT_FILE context_heredoc.

Definition create_component_file : cmd :=
  echo ("Creating " +:+ COMPONENT_FILE +:+ "...") ;;
  cat_heredoc COMPONENT_FILE component_heredoc.

Definition update_app_file : cmd :=
  echo ("Updating " +:+ APP_FILE +:+ " to wrap the App with ThemeProvider...") ;;
  if_ entry_test
    (sed_i sed_text APP_FILE ;;
     cat_heredoc APP_FILE app_heredoc ;;
     echo ("Successfully updated " +:+ APP_FILE +:+ "."))
    (echo warning).

Definition setup_complete : cmd :=
  echo "--- Setup Complete! ---" ;;
  echo "Files created/updated:" ;;
  echo ("- " +:+ CONTEXT_FILE +:+ " (Defines Context, Provider, and useTheme hook)") ;;
  echo ("- " +:+ COMPONENT_FILE +:+ " (Uses useTheme() hook)") ;;
  echo ("- " +:+ APP_FILE +:+ " (Wraps application with ThemeProvider)") ;;
  echo "Next steps: Run 'npm start' or 'yarn start' to see the demo.".

Definition script : cmd :=
  create_directories ;;
  create_context_file ;;
  create_component_file ;;
  update_app_file ;;
  setup_complete.

(** Running the script in a directory holding the regular files [fs] and
    the directories [ds]. *)
Definition run_script (fs : gmap string string) (ds : gset string) : state :=
  script (mkState fs ds [] [] 0).

End Script.

(** BSD sed takes [''] as the backup suffix and inserts the text before
    the first line; a file without any line is left as it is. *)
Definition sed_bsd (text : list string) (file : option string)
  : option string * nat :=
  match file with
  | Some EmptyString => (Some EmptyString, 0%nat)
  | Some content => (Some (heredoc text +:+ content), 0%nat)
  | None => (None, 1%nat)
  end.

(** GNU sed takes [''] as the program and the insert command as the name
    of a file, which it cannot read: the entry file is rewritten
    unchanged and the exit status is 2. *)
Definition sed_gnu (text : list string) (file : option string)
  : option string * nat := (file, 2%nat).

(** The directories after [mkdir -p d]. *)
Definition mkdir_dirs (d : string) (fs : gmap string string)
  (ds : gset string) : gset string :=
  if bool_decide (d ∈ ds) then ds
  else match fs !! d with
       | Some _ => ds
       | None => {[d]} ∪ ds
       end.

(** The directories after part 1. *)
Definition dirs_after (fs : gmap string string) (ds : gset string)
  : gset string :=
  mkdir_dirs "components" fs (mkdir_dirs "context" fs ds).

(** Whether the script can write to [path] after part 1. *)
Definition writable (path : string) (fs : gmap string string)
  (ds : gset string) : bool :=
  can_create path (mkState ∅ (dirs_after fs ds) [] [] 0).

(** The regular files after parts 2 and 3. *)
Definition files_created (fs : gmap string string) (ds : gset string)
  : gmap string string :=
  let f1 := if writable CONTEXT_FILE fs ds
            then <[CONTEXT_FILE := heredoc context_heredoc]> fs else fs in
  if writable COMPONENT_FILE fs ds
  then <[COMPONENT_FILE := heredoc component_heredoc]> f1 else f1.

(** What parts 1 to 3 report on the standard error. *)
Definition mkdir_failures (d : string) (fs : gmap string string)
  (ds : gset string) : list failure :=
  if bool_decide (d ∈ ds) then []
  else match fs !! d with
       | Some _ => [Mkdir_failed d]
       | None => []
       end.

Definition redirect_failures (path : string) (fs : gmap string string)
  (ds : gset string) : list failure :=
  if writable path fs ds then [] else [Redirect_failed path].

Definition failures_created (fs : gmap string string) (ds : gset string)
  : list failure :=
  mkdir_failures "context" fs ds ++
  mkdir_failures "components" fs (mkdir_dirs "context" fs ds) ++
  redirect_failures CONTEXT_FILE fs ds ++
  redirect_failures COMPONENT_FILE fs ds.

(** What part 4 reports on the standard error: grep twice when there is
    no entry file to read, sed when its status is not 0. *)
Definition failures_update
  (sed_1i : list string -> option string -> option string * nat)
  (fs : gmap string string) (ds : gset string) : list failure :=
  match regular APP_FILE (mkState fs ds [] [] 0) with
  | None => [Grep_failed APP_FILE; Grep_failed APP_FILE]
  | Some content =>
      if has_app_pattern (mkState fs ds [] [] 0)
      then (let code := snd (sed_1i sed_text (Some content)) in
            if Nat.eqb code 0 then [] else [Sed_failed code])
      else []
  end.

(** The lines printed before the test of [App.jsx], and after it. *)
Definition opening_lines : list string :=
  ["Creating directories: context and components...";
   "Creating context/ThemeContext.jsx...";
   "Creating components/ThemeToggle.jsx...";
   "Updating App.jsx to wrap the App with ThemeProvider..."].

Definition closing_lines : list string :=
  ["--- Setup Complete! ---";
   "Files created/updated:";
   "- context/ThemeContext.jsx (Defines Context, Provider, and useTheme hook)";
   "- components/ThemeToggle.jsx (Uses useTheme() hook)";
   "- App.jsx (Wraps application with ThemeProvider)";
   "Next steps: Run 'npm start' or 'yarn start' to see the demo."].






(** A directory in which a regular file has the name [context], next to
    an entry file of the expected form. *)
Definition name_taken : gmap string string :=
  <["context" := "notes"]>
    {[APP_FILE := "function App() { return null; }"]}.

End Sh.


(** ** More of App.js: what each event adds to the record of calls *)

Definition is_SetTitle (c : call) : bool :=
  match c with SetTitle _ => true | _ => false end.

Definition is_FocusElement (c : call) : bool :=
  match c with FocusElement _ => true | _ => false end.

(** The log line of the interval callback, lines 100-103. *)
Definition is_interval_log (c : call) : bool :=
  match c with
  | ConsoleLog line => String.eqb line "Interval running..."
  | _ => false
  end.

(** A render of the component called [name]. *)
Definition is_render_of (name : string) (c : call) : bool :=
  match c with
  | Render component => String.eqb component name
  | _ => false
  end.

(** The calls of the title effect, latest first. *)
Definition title_effect_calls (count : Z) (theme : string) : list call :=
  [ConsoleLog ("[EFFECT]: Document title updated for count " +:+
               JS.number_to_string count);
   SetTitle (title_for count theme)].

(** The calls of the first render of the subtree, latest first, but for
    the renders of DomChangeTracker and the log lines of its layout
    effect, whose number depends on the layout. *)
Definition mount_demo_calls (theme : string) (id : nat) : list call :=
  [SetInterval id;
   ConsoleLog "[EFFECT]: Component Mounted. Setting up interval..."] ++
  title_effect_calls 0 theme ++
  [Render "DocumentTitleUpdater"; Render "ThemeToggle"].

(** The calls an event adds while the subtree is mounted, latest first,
    with the same omissions. *)
Definition event_calls (e : event) (a : AppState) (d : Demo) : list call :=
  let u := titleUpdater d in
  match e with
  | ScriptLoaded => [ConsoleLog "Tailwind CSS script loaded successfully."]
  | ClickToggleTheme =>
      title_effect_calls (count u) (AppJs.toggleTheme_updater (theme a)) ++
      [Render "DocumentTitleUpdater"; Render "ThemeToggle";
       Render "ThemeProvider"]
  | ClickFocus => [FocusElement ToggleThemeButton]
  | ClickIncrement =>
      if JS.add1 (count u) =? count u then []
      else title_effect_calls (JS.add1 (count u)) (theme a) ++
           [Render "DocumentTitleUpdater"]
  | ClickToggleWidth => [Render "DocumentTitleUpdater"]
  | Tick => [ConsoleLog "Interval running..."]
  | Unmount =>
      [ClearInterval 1; ConsoleLog "[CLEANUP]: Clearing interval.";
       RemoveScript tailwind_src]
  end.

(** The stored width is that of the committed box, or the dependency
    list of the layout effect differs from the one the next render will
    compute, so that the effect will run then. *)
Definition tracker_settles (t : DomChangeTrackerState) (h : Host) : Prop :=
  width t = offsetWidth h \/ layout_deps t <> Some (offsetWidth h).

Definition inv_tracker (p : Page) : Prop :=
  match page_demo p with
  | Some d => tracker_settles (tracker (titleUpdater d)) (host p)
  | None => True
  end.

(** ** More of test.sh and of the files it generates *)

Module ShExtra.
Import Sh.

(** Whether a pattern is free of newlines, as those of the script are. *)
Fixpoint newline_free (s : string) : bool :=
  match s with
  | EmptyString => true
  | String c r => negb (Ascii.eqb c nl) && newline_free r
  end.

(** The failures that sed itself reports. *)
Definition by_sed (f : failure) : bool :=
  match f with
  | Sed_failed _ => true
  | _ => false
  end.

(** The standard error without the reports of sed. *)
Definition stderr_but_sed (st : state) : list failure :=
  List.filter (fun f => negb (by_sed f)) (stderr st).

End ShExtra.

(** ** The generated application: context/ThemeContext.jsx,
    components/ThemeToggle.jsx and the App.jsx of the script *)

Module Scaffold.

(** What [components/ThemeToggle.jsx] (lines 5-24) shows for a theme. *)
Record ThemeToggleView := mkView {
  panel_backgroundColor : string;
  panel_color : string;
  shown_theme : string;             (* <strong>{theme}</strong> *)
  button_backgroundColor : string;
  button_color : string;
  button_label : string
}.

Definition ThemeToggle (theme : string) : ThemeToggleView :=
  mkView (if JS.strict_eq theme "dark" then "#333" else "#f0f0f0")
         (if JS.strict_eq theme "dark" then "white" else "black")
         theme
         (if JS.strict_eq theme "dark" then "#fff" else "#333")
         (if JS.strict_eq theme "dark" then "#333" else "#fff")
         ("Toggle to " +:+
          (if JS.strict_eq theme "light" then "Dark" else "Light") +:+
          " Mode").

(** The page of the generated App.jsx (test.sh, lines 106-121): the
    provider of [context/ThemeContext.jsx] around one ThemeToggle. *)
Record Page := mkPage {
  theme : string;          (* state of ThemeProvider *)
  captured : string;       (* the [theme] of the render that made the
                              [toggleTheme] the button holds *)
  console : list string    (* log lines, latest first *)
}.

Definition mount : Page :=
  mkPage ContextJsx.initial_theme ContextJsx.initial_theme [].

(** The view of the page. *)
Definition view (p : Page) : ThemeToggleView := ThemeToggle (theme p).

(** A call of a [toggleTheme] whose render had the theme [closure_theme]:
    the updater is queued, the line is logged, and a changed theme
    re-renders provider and consumer, which hands the button the
    [toggleTheme] of the new render. *)
Definition call_toggleTheme (closure_theme : string) (p : Page) : Page :=
  let '(updater, logs) := ContextJsx.toggleTheme closure_theme in
  let console' := rev logs ++ console p in
  let theme' := updater (theme p) in
  if String.eqb theme' (theme p) then mkPage (theme p) (captured p) console'
  else mkPage theme' theme' console'.

(** A click on the button. *)
Definition click (p : Page) : Page := call_toggleTheme (captured p) p.

End Scaffold.

(** * Properties *)

(** ** The theme store *)

Lemma toggleTheme_updater_cases (prevTheme : string) :
  AppJs.toggleTheme_updater prevTheme =
  if String.eqb prevTheme "light" then "dark" else "light".
Proof. reflexivity. Qed.

Lemma toggleTheme_updater_moves (t : string) :
  String.eqb (AppJs.toggleTheme_updater t) t = false.
Proof.
  unfold AppJs.toggleTheme_updater, JS.strict_eq.
  destruct (String.eqb t "light") eqn:E.
  - apply String.eqb_eq in E. subst t. reflexivity.
  - rewrite String.eqb_sym. exact E.
Qed.

Lemma toggleWidth_updater_moves (w : string) :
  String.eqb (toggleWidth_updater w) w = false.
Proof.
  unfold toggleWidth_updater, JS.strict_eq.
  destruct (String.eqb w "w-full") eqn:E.
  - apply String.eqb_eq in E. subst w. reflexivity.
  - rewrite String.eqb_sym. exact E.
Qed.

Lemma toggle_iter_from_light (N : nat) :
  Nat.iter N AppJs.toggleTheme_updater "light" =
  if Nat.even N then "light" else "dark".
Proof.
  induction N as [|N IH]; [reflexivity|].
  rewrite Nat.even_succ, <- Nat.negb_even. simpl Nat.iter. rewrite IH.
  destruct (Nat.even N); reflexivity.
Qed.

(** ** Frame properties of the renders *)

Lemma quiet_refl h : quiet h h.
Proof. repeat split. Qed.

Lemma quiet_trans h1 h2 h3 : quiet h1 h2 -> quiet h2 h3 -> quiet h1 h3.
Proof.
  unfold quiet. intros (?&?&?&?&?&?&?&?) (?&?&?&?&?&?&?&?).
  repeat split; congruence.
Qed.

Lemma quiet_render name h : quiet h (record (Render name) h).
Proof. repeat split. Qed.

Lemma quiet_console_log line h : quiet h (console_log line h).
Proof. repeat split. Qed.

Lemma quiet_layout_effect r h : quiet h (snd (layout_effect r h)).
Proof. destruct r; simpl; [apply quiet_console_log | apply quiet_refl]. Qed.

Lemma quiet_tracker_commit b deps t h :
  quiet h (snd (tracker_commit b deps t h)).
Proof.
  unfold tracker_commit. destruct b; [|apply quiet_refl].
  pose proof (quiet_layout_effect (boxRef t) h) as Q.
  destruct (layout_effect (boxRef t) h). exact Q.
Qed.

Lemma boxRef_tracker_commit b deps t h :
  boxRef (fst (tracker_commit b deps t h)) = boxRef t.
Proof.
  unfold tracker_commit. destruct b; [|reflexivity].
  destruct (layout_effect (boxRef t) h). reflexivity.
Qed.

Lemma quiet_tracker_rerender t h : quiet h (snd (tracker_rerender t h)).
Proof.
  unfold tracker_rerender.
  eapply quiet_trans; [apply (quiet_render "DomChangeTracker")|].
  apply quiet_tracker_commit.
Qed.

Lemma boxRef_tracker_rerender t h :
  boxRef (fst (tracker_rerender t h)) = boxRef t.
Proof. unfold tracker_rerender. apply boxRef_tracker_commit. Qed.

Lemma flush_sync_frame fuel : forall w t h,
  quiet h (snd (flush_sync fuel w t h)) /\
  boxRef (fst (flush_sync fuel w t h)) = boxRef t.
Proof.
  induction fuel as [|fuel IH]; intros w t h; simpl.
  - split; [apply quiet_refl | reflexivity].
  - destruct (width t =? w); [split; [apply quiet_refl | reflexivity]|].
    pose proof (quiet_tracker_rerender t h) as Q.
    pose proof (boxRef_tracker_rerender t h) as B.
    destruct (tracker_rerender t h) as [t' h']. simpl in Q, B.
    destruct (IH (width t) t' h') as [Q' B'].
    split; [eapply quiet_trans; eassumption | congruence].
Qed.

(** What a re-render of DocumentTitleUpdater leaves behind. *)
Lemma rerender_spec theme c cw s h :
  let r := rerender_DocumentTitleUpdater theme c cw s h in
  (count (fst r) = c /\ customWidth (fst r) = cw /\
   title_deps (fst r) = (c, theme) /\ intervalId (fst r) = intervalId s /\
   boxRef (tracker (fst r)) = boxRef (tracker s)) /\
  (intervals (snd r) = intervals h /\
   next_interval (snd r) = next_interval h /\
   head_scripts (snd r) = head_scripts h /\
   activeElement (snd r) = activeElement h /\
   box_width (snd r) = box_width h /\
   List.filter is_resource (calls (snd r)) = List.filter is_resource (calls h)) /\
  wrapper_class (snd r) = Some cw /\
  title (snd r) =
    (if title_deps_differ (c, theme) (title_deps s)
     then title_for c theme else title h).
Proof.
  unfold rerender_DocumentTitleUpdater.
  set (h1 := record (Render "DomChangeTracker")
               (record (Render "DocumentTitleUpdater") h)).
  set (deps := layout_deps_of (boxRef (tracker s)) h1).
  set (h2 := commit_wrapper (Some cw) h1).
  pose proof (quiet_tracker_commit
                (layout_deps_differ deps (layout_deps (tracker s)))
                deps (tracker s) h2) as Q3.
  pose proof (boxRef_tracker_commit
                (layout_deps_differ deps (layout_deps (tracker s)))
                deps (tracker s) h2) as B3.
  destruct (tracker_commit _ deps (tracker s) h2) as [t3 h3].
  simpl in Q3, B3.
  set (h4 := if title_deps_differ (c, theme) (title_deps s)
             then title_effect c theme h3 else h3).
  destruct (flush_sync_frame NESTED_UPDATE_LIMIT (width (tracker s)) t3 h4)
    as [Q5 B5].
  destruct (flush_sync NESTED_UPDATE_LIMIT (width (tracker s)) t3 h4)
    as [t5 h5].
  simpl in Q5, B5. cbv zeta. simpl fst. simpl snd.
  destruct Q3 as (Q3a & Q3b & Q3c & Q3d & Q3e & Q3f & Q3g & Q3h).
  destruct Q5 as (Q5a & Q5b & Q5c & Q5d & Q5e & Q5f & Q5g & Q5h).
  assert (H4 : intervals h4 = intervals h3 /\
               next_interval h4 = next_interval h3 /\
               head_scripts h4 = head_scripts h3 /\
               activeElement h4 = activeElement h3 /\
               wrapper_class h4 = wrapper_class h3 /\
               box_width h4 = box_width h3 /\
               List.filter is_resource (calls h4) = List.filter is_resource (calls h3) /\
               title h4 = (if title_deps_differ (c, theme) (title_deps s)
                           then title_for c theme else title h3)).
  { unfold h4. destruct (title_deps_differ (c, theme) (title_deps s));
      repeat split. }
  destruct H4 as (H4a & H4b & H4c & H4d & H4e & H4f & H4g & H4h).
  unfold h2, h1 in *. simpl in *.
  repeat split; try congruence.
  rewrite Q5a, H4h.
  destruct (title_deps_differ (c, theme) (title_deps s)); congruence.
Qed.

(** What the first render of the subtree leaves behind. *)
Lemma mount_demo_spec ctx h :
  let r := mount_demo ctx h in
  (themeToggle (fst r) =
     mkThemeToggle (Some ToggleThemeButton) (ctx_toggleTheme ctx) /\
   count (titleUpdater (fst r)) = 0 /\
   customWidth (titleUpdater (fst r)) = "w-full" /\
   title_deps (titleUpdater (fst r)) = (0, ctx_theme ctx) /\
   intervalId (titleUpdater (fst r)) = next_interval h /\
   boxRef (tracker (titleUpdater (fst r))) = Some TrackedBox) /\
  (intervals (snd r) = next_interval h :: intervals h /\
   next_interval (snd r) = S (next_interval h) /\
   head_scripts (snd r) = head_scripts h /\
   activeElement (snd r) = activeElement h /\
   box_width (snd r) = box_width h /\
   List.filter is_resource (calls (snd r)) =
     SetInterval (next_interval h) :: List.filter is_resource (calls h)) /\
  wrapper_class (snd r) = Some "w-full" /\
  title (snd r) = title_for 0 (ctx_theme ctx).
Proof.
  unfold mount_demo.
  set (h1 := record (Render "DomChangeTracker")
               (record (Render "DocumentTitleUpdater")
                  (record (Render "ThemeToggle") h))).
  set (deps := layout_deps_of None h1).
  set (h2 := commit_wrapper (Some "w-full") h1).
  pose proof (quiet_tracker_commit true deps
                (mkTracker (Some TrackedBox) 0 deps) h2) as Q3.
  pose proof (boxRef_tracker_commit true deps
                (mkTracker (Some TrackedBox) 0 deps) h2) as B3.
  destruct (tracker_commit true deps _ h2) as [t3 h3].
  simpl in Q3, B3.
  set (h4 := title_effect 0 (ctx_theme ctx) h3).
  unfold interval_effect, setInterval. cbv zeta.
  match goal with
  | |- context [flush_sync ?f ?w ?t ?hh] =>
      destruct (flush_sync_frame f w t hh) as [Q5 B5];
      destruct (flush_sync f w t hh) as [t5 h5]
  end.
  simpl in Q5, B5. simpl fst. simpl snd.
  destruct Q3 as (Q3a & Q3b & Q3c & Q3d & Q3e & Q3f & Q3g & Q3h).
  destruct Q5 as (Q5a & Q5b & Q5c & Q5d & Q5e & Q5f & Q5g & Q5h).
  unfold h4, h2, h1 in *. simpl in *.
  repeat split; try congruence.
  exact Q5a.
Qed.

(** ** The handlers, with their conditionals resolved *)

Lemma on_toggle_theme_eq a d h :
  on_toggle_theme a d h =
  let theme' := AppJs.toggleTheme_updater (theme a) in
  let toggleTheme := mkClosure (next_obj a) theme' in
  let u := titleUpdater d in
  let r := rerender_DocumentTitleUpdater theme' (count u) (customWidth u) u
             (record (Render "ThemeToggle")
                (record (Render "ThemeProvider") h)) in
  mkPage (Some (mkApp (isTailwindLoaded a) theme'
                  (mkContext (S (next_obj a)) theme' toggleTheme)
                  (Some (mkDemo
                           (mkThemeToggle (buttonRef (themeToggle d)) toggleTheme)
                           (fst r)))
                  (S (S (next_obj a))))) (snd r).
Proof.
  unfold on_toggle_theme, AppJs.toggleTheme, ThemeProvider, ThemeToggle.
  cbv zeta. simpl fold_left. rewrite toggleTheme_updater_moves.
  destruct (rerender_DocumentTitleUpdater _ _ _ _ _). reflexivity.
Qed.

Lemma on_toggle_width_eq a d h :
  on_toggle_width a d h =
  let u := titleUpdater d in
  let r := rerender_DocumentTitleUpdater (theme a) (count u)
             (toggleWidth_updater (customWidth u)) u h in
  mkPage (Some (mkApp (isTailwindLoaded a) (theme a) (contextValue a)
                  (Some (mkDemo (themeToggle d) (fst r))) (next_obj a)))
         (snd r).
Proof.
  unfold on_toggle_width. cbv zeta. rewrite toggleWidth_updater_moves.
  destruct (rerender_DocumentTitleUpdater _ _ _ _ _). reflexivity.
Qed.

Lemma on_increment_eq a d h :
  on_increment a d h =
  let u := titleUpdater d in
  if JS.add1 (count u) =? count u then mkPage (Some a) h
  else
    let r := rerender_DocumentTitleUpdater (theme a) (JS.add1 (count u))
               (customWidth u) u h in
    mkPage (Some (mkApp (isTailwindLoaded a) (theme a) (contextValue a)
                    (Some (mkDemo (themeToggle d) (fst r))) (next_obj a)))
           (snd r).
Proof.
  unfold on_increment. cbv zeta.
  destruct (JS.add1 (count (titleUpdater d)) =? count (titleUpdater d));
    [reflexivity|].
  destruct (rerender_DocumentTitleUpdater _ _ _ _ _). reflexivity.
Qed.

Lemma on_script_loaded_eq p a :
  app p = Some a -> isTailwindLoaded a = false ->
  on_script_loaded p =
  let toggleTheme := mkClosure (next_obj a) (theme a) in
  let ctx := mkContext (S (next_obj a)) (theme a) toggleTheme in
  let r := mount_demo ctx
             (record (Render "ThemeProvider")
                (record (Render "App")
                   (console_log "Tailwind CSS script loaded successfully."
                      (host p)))) in
  mkPage (Some (mkApp true (theme a) ctx (Some (fst r)) (S (S (next_obj a)))))
         (snd r).
Proof.
  intros Ha Hl. unfold on_script_loaded, ThemeProvider. rewrite Ha, Hl.
  cbv zeta. destruct (mount_demo _ _). reflexivity.
Qed.

Lemma quiet_on_tick h : quiet h (on_tick h).
Proof.
  unfold on_tick. generalize (intervals h) at 1. intros l.
  induction l as [|i l IH]; simpl; [apply quiet_refl|].
  eapply quiet_trans; [exact IH | apply quiet_console_log].
Qed.

(** ** What holds of every page the events can produce *)

Lemma inv_mount layout : inv (mount (fresh_host layout)).
Proof.
  unfold inv, inv_mounted, inv_waiting. simpl.
  repeat split; auto; lia.
Qed.

Lemma updater_two_valued t :
  AppJs.toggleTheme_updater t = "light" \/ AppJs.toggleTheme_updater t = "dark".
Proof.
  unfold AppJs.toggleTheme_updater. destruct (JS.strict_eq t "light"); auto.
Qed.

Lemma title_deps_differ_theme c t t' :
  String.eqb t' t = false -> title_deps_differ (c, t') (c, t) = true.
Proof.
  intros E. unfold title_deps_differ. simpl. rewrite E, andb_false_r.
  reflexivity.
Qed.

Lemma title_deps_differ_count c c' t :
  (c' =? c) = false -> title_deps_differ (c', t) (c, t) = true.
Proof. intros E. unfold title_deps_differ. simpl. rewrite E. reflexivity. Qed.

Lemma title_deps_differ_same c t : title_deps_differ (c, t) (c, t) = false.
Proof.
  unfold title_deps_differ. simpl. rewrite Z.eqb_refl, String.eqb_refl.
  reflexivity.
Qed.

Lemma inv_step e p : inv p -> inv (step e p).
Proof.
  intros I. unfold inv in I.
  destruct p as [[a|] h]; simpl in I.
  - (* mounted *)
    destruct I as (Hs & Hc & Ht & Hi & Hf & I).
    destruct (demo a) as [d|] eqn:Hd.
    + (* the subtree is there *)
      destruct I as (Il & Ir & Ii & Iid & Itg & Ib & Itd & Iti & Iw).
      destruct e; unfold step; simpl app; simpl host; cbv beta iota;
        rewrite ?Hd; cbv beta iota.
      * (* ScriptLoaded *)
        unfold on_script_loaded. simpl. rewrite Il. unfold inv, inv_mounted.
        simpl. rewrite Hd. repeat split; auto.
      * (* ClickToggleTheme *)
        rewrite on_toggle_theme_eq. cbv zeta.
        match goal with
        | |- context [rerender_DocumentTitleUpdater ?t ?c ?w ?s ?hh] =>
            pose proof (rerender_spec t c w s hh) as R; cbv zeta in R;
            set (r := rerender_DocumentTitleUpdater t c w s hh) in *;
            clearbody r;
            destruct R
              as ((R1 & R2 & R3 & R4 & R5) & (F1 & F2 & F3 & F4 & F5 & F6) & W & T);
            simpl in F1, F2, F3, F4, F5, F6
        end.
        unfold inv, inv_mounted, inv_ready. simpl.
        rewrite Itd, title_deps_differ_theme in T
          by apply toggleTheme_updater_moves.
        rewrite Itg. simpl.
        repeat split; auto using updater_two_valued; try lia; try congruence.
        unfold resources. rewrite F6. exact Ir.
      * (* ClickFocus *)
        unfold inv, inv_mounted, inv_ready. simpl. rewrite Hd, Itg. simpl.
        repeat split; auto.
      * (* ClickIncrement *)
        rewrite on_increment_eq. cbv zeta.
        destruct (JS.add1 (count (titleUpdater d)) =? count (titleUpdater d))
          eqn:E.
        -- unfold inv, inv_mounted, inv_ready. simpl. rewrite Hd.
           repeat split; auto.
        -- match goal with
           | |- context [rerender_DocumentTitleUpdater ?t ?c ?w ?s ?hh] =>
               pose proof (rerender_spec t c w s hh) as R; cbv zeta in R;
               set (r := rerender_DocumentTitleUpdater t c w s hh) in *;
               clearbody r;
               destruct R
                 as ((R1 & R2 & R3 & R4 & R5) & (F1 & F2 & F3 & F4 & F5 & F6) & W & T);
            simpl in F1, F2, F3, F4, F5, F6
           end.
           unfold inv, inv_mounted, inv_ready. simpl.
           rewrite Itd, title_deps_differ_count in T by exact E.
           repeat split; auto; try congruence.
           unfold resources. rewrite F6. exact Ir.
      * (* ClickToggleWidth *)
        rewrite on_toggle_width_eq. cbv zeta.
        match goal with
        | |- context [rerender_DocumentTitleUpdater ?t ?c ?w ?s ?hh] =>
            pose proof (rerender_spec t c w s hh) as R; cbv zeta in R;
            set (r := rerender_DocumentTitleUpdater t c w s hh) in *;
            clearbody r;
            destruct R
              as ((R1 & R2 & R3 & R4 & R5) & (F1 & F2 & F3 & F4 & F5 & F6) & W & T);
            simpl in F1, F2, F3, F4, F5, F6
        end.
        unfold inv, inv_mounted, inv_ready. simpl.
        rewrite Itd, title_deps_differ_same in T.
        repeat split; auto; try congruence.
        unfold resources. rewrite F6. exact Ir.
      * (* Tick *)
        destruct (quiet_on_tick h) as (Q1 & Q2 & Q3 & Q4 & Q5 & Q6 & Q7 & Q8).
        unfold inv, inv_mounted, inv_ready. simpl. rewrite Hd.
        unfold resources in *.
        repeat split; auto; congruence.
      * (* Unmount *)
        unfold on_unmount, inv, inv_gone. rewrite Hd. simpl.
        unfold resources in *. simpl. rewrite Hs, Ii, Iid, Ir. simpl.
        repeat split; auto.
    + (* only the placeholder *)
      destruct I as (Il & Ir & Ii & In1 & Iw).
      destruct e; unfold step; simpl app; simpl host; cbv beta iota;
        rewrite ?Hd; cbv beta iota;
        try (unfold inv, inv_mounted, inv_waiting; simpl; rewrite Hd;
             repeat split; auto; fail).
      * (* ScriptLoaded *)
        rewrite (on_script_loaded_eq _ a) by (auto; reflexivity). cbv zeta.
        match goal with
        | |- context [mount_demo ?c ?hh] =>
            pose proof (mount_demo_spec c hh) as R; cbv zeta in R;
            set (r := mount_demo c hh) in *; clearbody r;
            destruct R
              as ((M1 & M2 & M3 & M4 & M5 & M6) & (F1 & F2 & F3 & F4 & F5 & F6) & W & T)
        end.
        simpl in *.
        unfold inv, inv_mounted, inv_ready. simpl.
        unfold resources in *. rewrite F6, Ir, In1 in *.
        repeat split; auto; try lia; try congruence.
      * (* Tick *)
        destruct (quiet_on_tick h) as (Q1 & Q2 & Q3 & Q4 & Q5 & Q6 & Q7 & Q8).
        unfold inv, inv_mounted, inv_waiting. simpl. rewrite Hd.
        unfold resources in *.
        repeat split; auto; congruence.
      * (* Unmount *)
        unfold on_unmount, inv, inv_gone. rewrite Hd. simpl.
        unfold resources in *. simpl. rewrite Hs, Ii, Ir. simpl.
        repeat split; auto.
  - (* unmounted *)
    destruct I as (Hs & Ii & Iw & Ir).
    destruct e; unfold step; simpl; try (repeat split; auto; fail).
    destruct (quiet_on_tick h) as (Q1 & Q2 & Q3 & Q4 & Q5 & Q6 & Q7 & Q8).
    unfold inv, inv_gone, resources in *. simpl.
    repeat split; congruence.
Qed.

Lemma run_nil p : run [] p = p.
Proof. reflexivity. Qed.

Lemma run_snoc es e p : run (es ++ [e]) p = step e (run es p).
Proof. unfold run. rewrite fold_left_app. reflexivity. Qed.

Lemma run_app es1 es2 p : run (es1 ++ es2) p = run es2 (run es1 p).
Proof. unfold run. apply fold_left_app. Qed.

Lemma inv_run es : forall p, inv p -> inv (run es p).
Proof.
  induction es as [|e es IH]; intros p I; [exact I|].
  simpl. apply IH, inv_step, I.
Qed.

(** ** How the hook state moves *)

(** While the subtree is mounted, an event other than the unmount keeps
    it mounted; the theme moves on a click on "Toggle Theme" only, the
    count on "Increment Count" only, the width class on "Toggle Width"
    only. *)
Lemma step_ready e p a d :
  inv p -> app p = Some a -> demo a = Some d -> e <> Unmount ->
  exists a' d',
    app (step e p) = Some a' /\ demo a' = Some d' /\
    theme a' = (if event_eqb e ClickToggleTheme
                then AppJs.toggleTheme_updater (theme a) else theme a) /\
    count (titleUpdater d') =
      (if event_eqb e ClickIncrement
       then JS.add1 (count (titleUpdater d)) else count (titleUpdater d)) /\
    customWidth (titleUpdater d') =
      (if event_eqb e ClickToggleWidth
       then toggleWidth_updater (customWidth (titleUpdater d))
       else customWidth (titleUpdater d)).
Proof.
  intros I Ha Hd He. destruct p as [oa h]. simpl in Ha. subst oa.
  unfold inv, inv_mounted in I. simpl in I. rewrite Hd in I.
  destruct I as (_ & _ & _ & _ & _ & Il & _).
  destruct e; try congruence; unfold step; simpl app; simpl host;
    cbv beta iota; rewrite ?Hd; cbv beta iota.
  - unfold on_script_loaded. simpl. rewrite Il. exists a, d. auto.
  - rewrite on_toggle_theme_eq. cbv zeta.
    match goal with
    | |- context [rerender_DocumentTitleUpdater ?t ?c ?w ?s ?hh] =>
        destruct (rerender_spec t c w s hh) as ((R1 & R2 & _) & _)
    end.
    eexists _, _. simpl. repeat split; eauto.
  - exists a, d. auto.
  - rewrite on_increment_eq. cbv zeta.
    destruct (JS.add1 (count (titleUpdater d)) =? count (titleUpdater d))
      eqn:E.
    + exists a, d. simpl. apply Z.eqb_eq in E. auto.
    + match goal with
      | |- context [rerender_DocumentTitleUpdater ?t ?c ?w ?s ?hh] =>
          destruct (rerender_spec t c w s hh) as ((R1 & R2 & _) & _)
      end.
      eexists _, _. simpl. repeat split; eauto.
  - rewrite on_toggle_width_eq. cbv zeta.
    match goal with
    | |- context [rerender_DocumentTitleUpdater ?t ?c ?w ?s ?hh] =>
        destruct (rerender_spec t c w s hh) as ((R1 & R2 & _) & _)
    end.
    eexists _, _. simpl. repeat split; eauto.
  - exists a, d. auto.
Qed.

Lemma occurrences_snoc e es e' :
  occurrences e (es ++ [e']) =
  (if event_eqb e' e then S (occurrences e es) else occurrences e es).
Proof.
  unfold occurrences. rewrite List.filter_app, length_app. simpl.
  replace (event_eqb e e') with (event_eqb e' e) by (destruct e, e'; reflexivity).
  destruct (event_eqb e' e); simpl; lia.
Qed.

(** From the loaded page on, the hook state counts the clicks. *)
Lemma run_ready layout es :
  ~ In Unmount es ->
  exists a d,
    app (run es (loaded_page layout)) = Some a /\ demo a = Some d /\
    theme a = Nat.iter (occurrences ClickToggleTheme es)
                AppJs.toggleTheme_updater AppJs.initial_theme /\
    count (titleUpdater d) =
      Nat.iter (occurrences ClickIncrement es) JS.add1 0 /\
    customWidth (titleUpdater d) =
      Nat.iter (occurrences ClickToggleWidth es) toggleWidth_updater "w-full".
Proof.
  induction es as [|e es IH] using rev_ind; intros Hn.
  - unfold loaded_page. simpl run.
    rewrite (on_script_loaded_eq (mount (fresh_host layout)) _ eq_refl eq_refl).
    cbv zeta.
    match goal with
    | |- context [mount_demo ?c ?hh] =>
        destruct (mount_demo_spec c hh) as ((M1 & M2 & M3 & _) & _)
    end.
    eexists _, _. simpl. repeat split; eauto.
  - rewrite run_snoc.
    assert (He : e <> Unmount).
    { intros ->. apply Hn, in_or_app. right. left. reflexivity. }
    destruct IH as (a & d & Ha & Hd & Ht & Hc & Hw).
    { intros Hin. apply Hn, in_or_app. left. exact Hin. }
    assert (I : inv (run es (loaded_page layout))).
    { apply inv_run. unfold loaded_page. apply inv_run, inv_mount. }
    destruct (step_ready e _ a d I Ha Hd He)
      as (a' & d' & Ha' & Hd' & Ht' & Hc' & Hw').
    exists a', d'. rewrite !occurrences_snoc.
    repeat split; auto.
    + rewrite Ht'. destruct (event_eqb e ClickToggleTheme); simpl; congruence.
    + rewrite Hc'. destruct (event_eqb e ClickIncrement); simpl; congruence.
    + rewrite Hw'. destruct (event_eqb e ClickToggleWidth); simpl; congruence.
Qed.

(** The counter follows the number of increments as long as doubles are
    exact, and stays at [2^53] from there on. *)
Lemma add1_iter (K : nat) :
  Nat.iter K JS.add1 0 = Z.min (Z.of_nat K) JS.MAX_EXACT.
Proof.
  assert (HM : JS.MAX_EXACT = 9007199254740992) by reflexivity.
  induction K as [|K IH]; [reflexivity|].
  simpl Nat.iter. rewrite IH. unfold JS.add1.
  destruct (Z.min (Z.of_nat K) JS.MAX_EXACT <? JS.MAX_EXACT) eqn:E.
  - apply Z.ltb_lt in E. lia.
  - apply Z.ltb_ge in E.
    assert (Hm : Z.min (Z.of_nat K) JS.MAX_EXACT = JS.MAX_EXACT) by lia.
    rewrite Hm.
    replace (Z.even (JS.MAX_EXACT / 2)) with true by reflexivity.
    lia.
Qed.

Lemma occurrences_repeat e n : occurrences e (repeat e n) = n.
Proof.
  unfold occurrences. induction n as [|n IH]; [reflexivity|].
  simpl. replace (event_eqb e e) with true by (destruct e; reflexivity).
  simpl. congruence.
Qed.

Lemma occurrences_repeat_other e e' n :
  event_eqb e e' = false -> occurrences e (repeat e' n) = 0%nat.
Proof.
  intros E. unfold occurrences. induction n as [|n IH]; [reflexivity|].
  simpl. rewrite E. exact IH.
Qed.

Lemma not_in_repeat (e e' : event) n : e <> e' -> ~ In e (repeat e' n).
Proof. intros Hne Hin. apply repeat_spec in Hin. congruence. Qed.

(** ** The lifetime of the subtree *)

Lemma step_alive e p :
  inv p -> e <> Unmount -> app p <> None -> app (step e p) <> None.
Proof.
  intros I He Ha. destruct p as [[a|] h]; [|simpl in Ha; congruence]. clear Ha.
  destruct (demo a) as [d|] eqn:Hd.
  - destruct (step_ready e _ a d I eq_refl Hd He) as (a' & d' & Ha' & _).
    rewrite Ha'. discriminate.
  - unfold inv, inv_mounted in I. simpl in I. rewrite Hd in I.
    destruct I as (_ & _ & _ & _ & _ & Il & _).
    destruct e; try congruence; unfold step; simpl app; simpl host;
      cbv beta iota; rewrite ?Hd; cbv beta iota; simpl; try congruence.
    rewrite (on_script_loaded_eq (mkPage (Some a) h) a eq_refl Il).
    simpl. congruence.
Qed.

Lemma run_alive es : forall p,
  inv p -> ~ In Unmount es -> app p <> None -> app (run es p) <> None.
Proof.
  induction es as [|e es IH]; intros p I Hn Ha; [exact Ha|].
  simpl. apply IH.
  - apply inv_step, I.
  - intros Hin. apply Hn. right. exact Hin.
  - apply step_alive; auto. intros ->. apply Hn. left. reflexivity.
Qed.

Lemma load_ready p :
  inv p -> app p <> None -> page_demo (step ScriptLoaded p) <> None.
Proof.
  intros I Ha. destruct p as [[a|] h]; [|simpl in Ha; congruence]. clear Ha.
  unfold inv, inv_mounted in I. simpl in I.
  destruct (demo a) as [d|] eqn:Hd.
  - destruct I as (_ & _ & _ & _ & _ & Il & _).
    unfold step, on_script_loaded, page_demo. simpl. rewrite Il. simpl.
    congruence.
  - destruct I as (_ & _ & _ & _ & _ & Il & _).
    unfold step. rewrite (on_script_loaded_eq (mkPage (Some a) h) a eq_refl Il).
    unfold page_demo. simpl. congruence.
Qed.

Lemma run_stays_ready es : forall p,
  inv p -> ~ In Unmount es -> page_demo p <> None ->
  page_demo (run es p) <> None.
Proof.
  induction es as [|e es IH]; intros p I Hn Hr; [exact Hr|].
  simpl. apply IH.
  - apply inv_step, I.
  - intros Hin. apply Hn. right. exact Hin.
  - unfold page_demo in Hr.
    destruct (app p) as [a|] eqn:Ha; [|congruence].
    destruct (demo a) as [d|] eqn:Hd; [|congruence].
    assert (He : e <> Unmount) by (intros ->; apply Hn; left; reflexivity).
    destruct (step_ready e p a d I Ha Hd He) as (a' & d' & Ha' & Hd' & _).
    unfold page_demo. rewrite Ha'. congruence.
Qed.

(** What the invariant says of a page whose subtree is mounted. *)
Lemma ready_resources p :
  inv p -> page_demo p <> None ->
  resources (host p) = [SetInterval 1; AppendScript tailwind_src] /\
  intervals (host p) = [1%nat] /\ head_scripts (host p) = [tailwind_src].
Proof.
  intros I Hr. unfold page_demo in Hr. unfold inv in I.
  destruct (app p) as [a|]; [|congruence].
  unfold inv_mounted in I.
  destruct (demo a) as [d|]; [|congruence].
  destruct I as (Hs & _ & _ & _ & _ & _ & Ir & Ii & _). auto.
Qed.

Lemma waiting_resources p :
  inv p -> app p <> None -> page_demo p = None ->
  resources (host p) = [AppendScript tailwind_src] /\
  intervals (host p) = [] /\ head_scripts (host p) = [tailwind_src].
Proof.
  intros I Ha Hr. unfold page_demo in Hr. unfold inv in I.
  destruct (app p) as [a|]; [|congruence].
  unfold inv_mounted in I. rewrite Hr in I.
  destruct I as (Hs & _ & _ & _ & _ & _ & Ir & Ii & _). auto.
Qed.

Lemma unmount_ready p :
  inv p -> page_demo p <> None ->
  app (step Unmount p) = None /\
  resources (host (step Unmount p)) =
    [ClearInterval 1; RemoveScript tailwind_src;
     SetInterval 1; AppendScript tailwind_src] /\
  intervals (host (step Unmount p)) = [] /\
  head_scripts (host (step Unmount p)) = [].
Proof.
  intros I Hr. destruct (ready_resources p I Hr) as (Ir & Ii & Hs).
  unfold page_demo in Hr. unfold inv in I.
  destruct p as [[a|] h]; simpl in Hr, I, Ir, Ii, Hs; [|congruence].
  unfold inv_mounted in I.
  destruct (demo a) as [d|] eqn:Hd; [|congruence].
  destruct I as (_ & _ & _ & _ & _ & _ & _ & _ & Iid & _).
  unfold step, on_unmount. simpl app. simpl host. cbv beta iota.
  rewrite Hd. unfold resources in *. simpl.
  rewrite Ir, Ii, Iid, Hs. simpl. auto.
Qed.

Lemma unmount_waiting p :
  inv p -> app p <> None -> page_demo p = None ->
  app (step Unmount p) = None /\
  resources (host (step Unmount p)) =
    [RemoveScript tailwind_src; AppendScript tailwind_src] /\
  intervals (host (step Unmount p)) = [] /\
  head_scripts (host (step Unmount p)) = [].
Proof.
  intros I Ha Hr. destruct (waiting_resources p I Ha Hr) as (Ir & Ii & Hs).
  unfold page_demo in Hr.
  destruct p as [[a|] h]; simpl in Hr, Ha, Ir, Ii, Hs; [|congruence].
  unfold step, on_unmount. simpl app. simpl host. cbv beta iota.
  rewrite Hr. unfold resources in *. simpl.
  rewrite Ir, Ii, Hs. simpl. auto.
Qed.

(** Once the root is unmounted nothing is acquired or released. *)
Lemma step_gone e p :
  app p = None ->
  app (step e p) = None /\ resources (host (step e p)) = resources (host p) /\
  intervals (host (step e p)) = intervals (host p) /\
  head_scripts (host (step e p)) = head_scripts (host p).
Proof.
  intros Ha. destruct p as [oa h]. simpl in Ha. subst oa.
  destruct e; unfold step; simpl; auto.
  destruct (quiet_on_tick h) as (_ & Q2 & _ & Q4 & _ & _ & _ & Q8).
  unfold resources. auto.
Qed.

Lemma run_gone es : forall p,
  app p = None ->
  app (run es p) = None /\ resources (host (run es p)) = resources (host p) /\
  intervals (host (run es p)) = intervals (host p) /\
  head_scripts (host (run es p)) = head_scripts (host p).
Proof.
  induction es as [|e es IH]; intros p Ha; [auto|].
  simpl. destruct (step_gone e p Ha) as (Ha' & R & Ii & Hs).
  destruct (IH _ Ha') as (Ha'' & R' & Ii' & Hs').
  repeat split; congruence.
Qed.

Lemma filter_calls_resources f h :
  (forall c, f c = true -> is_resource c = true) ->
  List.filter f (calls h) = List.filter f (resources h).
Proof.
  intros Hf. unfold resources.
  induction (calls h) as [|c l IH]; [reflexivity|].
  simpl. destruct (is_resource c) eqn:Er; simpl.
  - destruct (f c); congruence.
  - destruct (f c) eqn:Ef; [|exact IH]. apply Hf in Ef. congruence.
Qed.

Lemma count_calls_resources f h :
  (forall c, f c = true -> is_resource c = true) ->
  count_calls f h = length (List.filter f (resources h)).
Proof.
  intros Hf. unfold count_calls. rewrite filter_calls_resources by exact Hf.
  reflexivity.
Qed.

Lemma SetInterval_is_resource c : is_SetInterval c = true -> is_resource c = true.
Proof. destruct c; simpl; congruence. Qed.
Lemma ClearInterval_is_resource c : is_ClearInterval c = true -> is_resource c = true.
Proof. destruct c; simpl; congruence. Qed.
Lemma RemoveScript_is_resource c : is_RemoveScript c = true -> is_resource c = true.
Proof. destruct c; simpl; congruence. Qed.
Lemma AppendScript_is_resource c : is_AppendScript c = true -> is_resource c = true.
Proof. destruct c; simpl; congruence. Qed.

(** ** Theme store *)

(** C1.  Starting from mode [light], N applications of the toggle give
    [light] when N is even and [dark] when N is odd, on the page (N clicks
    on "Toggle Theme") and for the updater of either provider; the toggle
    sends [light] to [dark] and [dark] to [light], and whatever it is
    given its result is one of the two. *)
Theorem toggle_parity (layout : string -> Z) (N : nat) :
  page_theme (run (repeat ClickToggleTheme N) (loaded_page layout)) =
    Some (if Nat.even N then "light" else "dark") /\
  Nat.iter N AppJs.toggleTheme_updater AppJs.initial_theme =
    (if Nat.even N then "light" else "dark") /\
  Nat.iter N ContextJsx.toggleTheme_updater ContextJsx.initial_theme =
    (if Nat.even N then "light" else "dark") /\
  (AppJs.toggleTheme_updater "light" = "dark" /\
   AppJs.toggleTheme_updater "dark" = "light") /\
  (ContextJsx.toggleTheme_updater "light" = "dark" /\
   ContextJsx.toggleTheme_updater "dark" = "light") /\
  (forall t, AppJs.toggleTheme_updater t = "light" \/
             AppJs.toggleTheme_updater t = "dark") /\
  (forall t, ContextJsx.toggleTheme_updater t = "light" \/
             ContextJsx.toggleTheme_updater t = "dark").
Proof.
  split; [|repeat split; try reflexivity;
           try apply toggle_iter_from_light; apply updater_two_valued].
  destruct (run_ready layout (repeat ClickToggleTheme N))
    as (a & d & Ha & _ & Ht & _).
  { apply not_in_repeat. discriminate. }
  unfold page_theme. rewrite Ha, Ht, occurrences_repeat.
  f_equal. apply toggle_iter_from_light.
Qed.

(** ** Counter and document title *)

Lemma title_after_events layout es :
  ~ In Unmount es ->
  exists a d,
    app (run es (loaded_page layout)) = Some a /\ demo a = Some d /\
    count (titleUpdater d) =
      Z.min (Z.of_nat (occurrences ClickIncrement es)) JS.MAX_EXACT /\
    title (host (run es (loaded_page layout))) =
      title_for (count (titleUpdater d)) (theme a).
Proof.
  intros Hn. destruct (run_ready layout es Hn) as (a & d & Ha & Hd & _ & Hc & _).
  exists a, d. rewrite add1_iter in Hc. repeat split; auto.
  assert (I : inv (run es (loaded_page layout))).
  { apply inv_run. unfold loaded_page. apply inv_run, inv_mount. }
  unfold inv in I. rewrite Ha in I. unfold inv_mounted in I. rewrite Hd in I.
  destruct I as (_ & _ & _ & _ & _ & _ & _ & _ & _ & _ & _ & _ & It & _).
  exact It.
Qed.

(** C2, amended.  From count 0, events that hold K clicks on "Increment
    Count", with K at most 2^53, leave the count at K and the document
    title at "Count: K | Theme: mode" for the mode of that moment. *)
Theorem count_and_title (layout : string -> Z) (es : list event) :
  ~ In Unmount es ->
  Z.of_nat (occurrences ClickIncrement es) <= JS.MAX_EXACT ->
  page_count (loaded_page layout) = Some 0 /\
  page_count (run es (loaded_page layout)) =
    Some (Z.of_nat (occurrences ClickIncrement es)) /\
  exists mode,
    page_theme (run es (loaded_page layout)) = Some mode /\
    title (host (run es (loaded_page layout))) =
      "Count: " +:+
      JS.number_to_string (Z.of_nat (occurrences ClickIncrement es)) +:+
      " | Theme: " +:+ mode.
Proof.
  intros Hn HK.
  destruct (title_after_events layout es Hn) as (a & d & Ha & Hd & Hc & Ht).
  rewrite Z.min_l in Hc by exact HK.
  split; [|split].
  - destruct (title_after_events layout [] (fun F => F))
      as (a0 & d0 & Ha0 & Hd0 & Hc0 & _).
    rewrite run_nil in Ha0. unfold page_count, page_demo.
    rewrite Ha0, Hd0, Hc0. reflexivity.
  - unfold page_count, page_demo. rewrite Ha, Hd, Hc. reflexivity.
  - exists (theme a). unfold page_theme. rewrite Ha. split; [reflexivity|].
    rewrite Ht, Hc. reflexivity.
Qed.

Lemma count_and_title_witness :
  ~ In Unmount [ClickIncrement; ClickToggleTheme; ClickIncrement; ClickIncrement] /\
  page_count (run [ClickIncrement; ClickToggleTheme; ClickIncrement; ClickIncrement]
                  (loaded_page layout800)) = Some 3 /\
  title (host (run [ClickIncrement; ClickToggleTheme; ClickIncrement; ClickIncrement]
                   (loaded_page layout800))) = "Count: 3 | Theme: dark".
Proof.
  assert (Hn : ~ In Unmount
                 [ClickIncrement; ClickToggleTheme; ClickIncrement; ClickIncrement]).
  { simpl. intros [F|[F|[F|[F|[]]]]]; discriminate F. }
  assert (HK : Z.of_nat (occurrences ClickIncrement
                 [ClickIncrement; ClickToggleTheme; ClickIncrement; ClickIncrement])
               <= JS.MAX_EXACT).
  { vm_compute. discriminate. }
  destruct (count_and_title layout800 _ Hn HK) as (_ & Hc & mode & Hm & Ht).
  split; [exact Hn|]. split; [exact Hc|].
  vm_compute in Hm. injection Hm as <-. exact Ht.
Defined.

(** C2 as stated fails: after 2^53 + 1 increments the count is 2^53. *)
Lemma count_stuck_at_2_53 :
  page_count (run (repeat ClickIncrement clicks_beyond_exact)
                  (loaded_page layout800)) = Some JS.MAX_EXACT /\
  page_count (run (repeat ClickIncrement clicks_beyond_exact)
                  (loaded_page layout800)) <>
    Some (Z.of_nat clicks_beyond_exact).
Proof.
  assert (HM : 0 <= JS.MAX_EXACT) by (vm_compute; discriminate).
  assert (HK : Z.of_nat clicks_beyond_exact = JS.MAX_EXACT + 1).
  { unfold clicks_beyond_exact. apply Z2Nat.id. lia. }
  destruct (title_after_events layout800
              (repeat ClickIncrement clicks_beyond_exact))
    as (a & d & Ha & Hd & Hc & _).
  { apply not_in_repeat. discriminate. }
  rewrite occurrences_repeat, HK, Z.min_r in Hc by lia.
  unfold page_count, page_demo. rewrite Ha, Hd, Hc, HK.
  split; [reflexivity|]. intros F. injection F as F. lia.
Qed.

(** ** The periodic timer *)

(** C3.  Whatever happens before the script loads ([before]), while the
    counter is mounted ([during]: any number of count, theme and width
    changes) and after the root is unmounted ([after]): up to the unmount
    the interval was set once and never cleared, and from the unmount on
    it was set once and cleared once, the interval cleared being the one
    that was set, and none is left running. *)
Theorem interval_set_once_cleared_once (layout : string -> Z)
  (before during after : list event) :
  ~ In Unmount before -> ~ In Unmount during ->
  let mounted :=
    run (before ++ ScriptLoaded :: during) (mount (fresh_host layout)) in
  let unmounted := run (Unmount :: after) mounted in
  (count_calls is_SetInterval (host mounted) = 1%nat /\
   count_calls is_ClearInterval (host mounted) = 0%nat /\
   intervals (host mounted) = [1%nat]) /\
  (count_calls is_SetInterval (host unmounted) = 1%nat /\
   count_calls is_ClearInterval (host unmounted) = 1%nat /\
   List.filter is_SetInterval (calls (host unmounted)) = [SetInterval 1] /\
   List.filter is_ClearInterval (calls (host unmounted)) = [ClearInterval 1] /\
   intervals (host unmounted) = []).
Proof.
  intros Hb Hd mounted unmounted.
  set (p0 := mount (fresh_host layout)).
  assert (I0 : inv (run before p0)) by apply inv_run, inv_mount.
  assert (A0 : app (run before p0) <> None).
  { apply run_alive; [apply inv_mount | exact Hb | discriminate]. }
  assert (Im : inv mounted).
  { unfold mounted. apply inv_run, inv_mount. }
  assert (Rm : page_demo mounted <> None).
  { unfold mounted. rewrite run_app.
    change (run (ScriptLoaded :: during) (run before p0))
      with (run during (step ScriptLoaded (run before p0))).
    apply (run_stays_ready during (step ScriptLoaded (run before p0)));
      [apply inv_step, I0 | exact Hd |].
    apply load_ready; assumption. }
  destruct (ready_resources mounted Im Rm) as (Rr & Ri & _).
  destruct (unmount_ready mounted Im Rm) as (Ua & Ur & Ui & _).
  destruct (run_gone after (step Unmount mounted) Ua) as (_ & Gr & Gi & _).
  change (run after (step Unmount mounted)) with unmounted in Gr, Gi.
  rewrite Ur in Gr. rewrite Ui in Gi.
  rewrite !(count_calls_resources is_SetInterval)
    by apply SetInterval_is_resource.
  rewrite !(count_calls_resources is_ClearInterval)
    by apply ClearInterval_is_resource.
  rewrite (filter_calls_resources is_SetInterval)
    by apply SetInterval_is_resource.
  rewrite (filter_calls_resources is_ClearInterval)
    by apply ClearInterval_is_resource.
  rewrite Rr, Gr. repeat split; auto.
Qed.

Lemma interval_set_once_cleared_once_witness :
  ~ In Unmount [Tick; ClickFocus] /\
  ~ In Unmount [ClickIncrement; ClickToggleTheme; ClickIncrement;
                ClickToggleWidth; Tick] /\
  count_calls is_SetInterval
    (host (run (Unmount :: [Tick; ClickIncrement])
             (run ([Tick; ClickFocus] ++ ScriptLoaded ::
                   [ClickIncrement; ClickToggleTheme; ClickIncrement;
                    ClickToggleWidth; Tick])
                (mount (fresh_host layout800))))) = 1%nat /\
  count_calls is_ClearInterval
    (host (run (Unmount :: [Tick; ClickIncrement])
             (run ([Tick; ClickFocus] ++ ScriptLoaded ::
                   [ClickIncrement; ClickToggleTheme; ClickIncrement;
                    ClickToggleWidth; Tick])
                (mount (fresh_host layout800))))) = 1%nat.
Proof.
  assert (Hb : ~ In Unmount [Tick; ClickFocus]).
  { simpl. intros [F|[F|[]]]; discriminate F. }
  assert (Hd : ~ In Unmount [ClickIncrement; ClickToggleTheme; ClickIncrement;
                             ClickToggleWidth; Tick]).
  { simpl. intros [F|[F|[F|[F|[F|[]]]]]]; discriminate F. }
  destruct (interval_set_once_cleared_once layout800 _ _ [Tick; ClickIncrement]
              Hb Hd) as (_ & Hs & Hc & _).
  split; [exact Hb|]. split; [exact Hd|]. split; [exact Hs | exact Hc].
Defined.

(** ** Layout measurement *)

(** C4 fails on the code, here in a container where the full-width box is
    800px wide and the half-width box 400px.  The toggle of the width
    commits the 400px box, yet the layout effect does not run in that
    commit (the two renders are all that happens) and the stored width
    stays at 800.  The measurement catches up one render later: in the
    commit of the next increment the layout effect does run, and before
    the title effect. *)
Theorem measured_width_one_render_behind :
  let toggled := run [ClickToggleWidth] (loaded_page layout800) in
  page_width (loaded_page layout800) = Some 800 /\
  page_customWidth toggled = Some "w-1/2" /\
  offsetWidth (host toggled) = 400 /\
  page_width toggled = Some 800 /\
  calls (host toggled) =
    [Render "DomChangeTracker"; Render "DocumentTitleUpdater"] ++
    calls (host (loaded_page layout800)) /\
  page_width (run [ClickIncrement] toggled) = Some 400 /\
  trace (host (run [ClickIncrement] toggled)) =
    trace (host toggled) ++
    [Render "DocumentTitleUpdater"; Render "DomChangeTracker";
     ConsoleLog "[LAYOUT EFFECT]: Measured new width: 400px";
     SetTitle "Count: 1 | Theme: light";
     ConsoleLog "[EFFECT]: Document title updated for count 1";
     Render "DomChangeTracker"].
Proof. vm_compute. repeat split. Qed.

(** ** The focus action *)

(** C5.  A click on "Focus Button" leaves the hook state of every
    component as it is (theme, count, width class and measured width
    among it), renders nothing, and touches neither title, timers,
    scripts nor layout; with no element attached to the ref the handler
    does nothing at all, and with one attached it moves the focus there. *)
Theorem focus_changes_no_state (p : Page) :
  app (step ClickFocus p) = app p /\
  (page_theme (step ClickFocus p) = page_theme p /\
   page_count (step ClickFocus p) = page_count p /\
   page_customWidth (step ClickFocus p) = page_customWidth p /\
   page_width (step ClickFocus p) = page_width p) /\
  count_calls is_Render (host (step ClickFocus p)) =
    count_calls is_Render (host p) /\
  (title (host (step ClickFocus p)) = title (host p) /\
   intervals (host (step ClickFocus p)) = intervals (host p) /\
   head_scripts (host (step ClickFocus p)) = head_scripts (host p) /\
   wrapper_class (host (step ClickFocus p)) = wrapper_class (host p)) /\
  (forall h, handleFocus None h = h) /\
  (forall el h, activeElement (handleFocus (Some el) h) = Some el).
Proof.
  assert (A : app (step ClickFocus p) = app p).
  { destruct p as [[a|] h]; [|reflexivity].
    unfold step. simpl app. cbv beta iota.
    destruct (demo a); reflexivity. }
  split; [exact A|].
  split; [unfold page_theme, page_count, page_customWidth, page_width,
            page_demo; rewrite A; auto|].
  split; [|split; [|split; reflexivity]].
  - destruct p as [[a|] h]; [|reflexivity].
    unfold step. simpl app. cbv beta iota.
    destruct (demo a) as [d|]; [|reflexivity].
    destruct (buttonRef (themeToggle d)); reflexivity.
  - destruct p as [[a|] h]; [|repeat split].
    unfold step. simpl app. cbv beta iota.
    destruct (demo a) as [d|]; [|repeat split].
    destruct (buttonRef (themeToggle d)); repeat split.
Qed.

(** ** The gate of the application root *)

Lemma components_of_App_view a :
  components_of (App_view a) =
  if isTailwindLoaded a
  then ["App"; "ThemeProvider"; "ThemeContext.Consumer"; "ThemeToggle";
        "DocumentTitleUpdater"; "DomChangeTracker"]
  else ["App"; "ThemeProvider"].
Proof.
  unfold App_view. destruct (isTailwindLoaded a); [|reflexivity].
  destruct (demo a); reflexivity.
Qed.

Lemma step_waiting e p :
  inv p -> app p <> None -> page_demo p = None ->
  e <> ScriptLoaded -> e <> Unmount ->
  page_demo (step e p) = None.
Proof.
  intros I Ha Hr H1 H2. unfold page_demo in Hr.
  destruct p as [[a|] h]; [|simpl in Ha; congruence]. simpl in Hr.
  destruct e; try congruence; unfold step, page_demo; simpl app;
    cbv beta iota; rewrite ?Hr; simpl; rewrite ?Hr; reflexivity.
Qed.

Lemma run_waiting es : forall p,
  inv p -> app p <> None -> page_demo p = None ->
  ~ In ScriptLoaded es -> ~ In Unmount es ->
  page_demo (run es p) = None.
Proof.
  induction es as [|e es IH]; intros p I Ha Hr H1 H2; [exact Hr|].
  assert (e <> ScriptLoaded) by (intros ->; apply H1; left; reflexivity).
  assert (e <> Unmount) by (intros ->; apply H2; left; reflexivity).
  simpl. apply IH.
  - apply inv_step, I.
  - apply step_alive; assumption.
  - apply step_waiting; assumption.
  - intros Hin. apply H1. right. exact Hin.
  - intros Hin. apply H2. right. exact Hin.
Qed.

Lemma mounted_components_inv p :
  inv p -> app p <> None ->
  mounted_components p =
  match page_demo p with
  | Some _ => ["App"; "ThemeProvider"; "ThemeContext.Consumer"; "ThemeToggle";
               "DocumentTitleUpdater"; "DomChangeTracker"]
  | None => ["App"; "ThemeProvider"]
  end.
Proof.
  intros I Ha. unfold mounted_components, page_demo. unfold inv in I.
  destruct (app p) as [a|]; [|congruence].
  rewrite components_of_App_view. unfold inv_mounted in I.
  destruct (demo a) as [d|];
    destruct I as (_ & _ & _ & _ & _ & Il & _); rewrite Il; reflexivity.
Qed.

(** C6 as stated fails: while the script has not loaded the theme
    provider is mounted already, around the placeholder. *)
Lemma provider_mounted_while_loading :
  page_demo (mount (fresh_host layout800)) = None /\
  mounted_components (mount (fresh_host layout800)) = ["App"; "ThemeProvider"] /\
  trace (host (mount (fresh_host layout800))) =
    [Render "App"; Render "ThemeProvider"; AppendScript tailwind_src].
Proof. vm_compute. repeat split. Qed.

(** C6, amended.  Until the script has loaded ([before]) the root shows
    the theme provider around the placeholder and none of the demo
    components; from the load on ([during]) the Consumer, ThemeToggle,
    DocumentTitleUpdater and DomChangeTracker are mounted below the
    provider, in this order; the script element is in [document.head]
    all that time and is removed once when the root is unmounted, whether
    or not it had loaded, and never again ([after]). *)
Theorem gate_and_script_release (layout : string -> Z)
  (before during after : list event) :
  ~ In Unmount before -> ~ In ScriptLoaded before -> ~ In Unmount during ->
  let waiting := run before (mount (fresh_host layout)) in
  let ready := run (ScriptLoaded :: during) waiting in
  (mounted_components waiting = ["App"; "ThemeProvider"] /\
   page_demo waiting = None /\
   head_scripts (host waiting) = [tailwind_src] /\
   count_calls is_RemoveScript (host waiting) = 0%nat) /\
  (mounted_components ready =
     ["App"; "ThemeProvider"; "ThemeContext.Consumer"; "ThemeToggle";
      "DocumentTitleUpdater"; "DomChangeTracker"] /\
   head_scripts (host ready) = [tailwind_src] /\
   count_calls is_RemoveScript (host ready) = 0%nat) /\
  (mounted_components (run (Unmount :: after) ready) = [] /\
   head_scripts (host (run (Unmount :: after) ready)) = [] /\
   count_calls is_RemoveScript (host (run (Unmount :: after) ready)) = 1%nat) /\
  (mounted_components (run (Unmount :: after) waiting) = [] /\
   head_scripts (host (run (Unmount :: after) waiting)) = [] /\
   count_calls is_RemoveScript (host (run (Unmount :: after) waiting)) = 1%nat).
Proof.
  intros Hb Hl Hd waiting ready.
  set (p0 := mount (fresh_host layout)).
  assert (Iw : inv waiting) by apply inv_run, inv_mount.
  assert (Aw : app waiting <> None).
  { apply run_alive; [apply inv_mount | exact Hb | discriminate]. }
  assert (Rw : page_demo waiting = None).
  { apply run_waiting; auto using inv_mount; discriminate. }
  assert (Ir : inv ready) by apply inv_run, Iw.
  assert (Rr : page_demo ready <> None).
  { apply (run_stays_ready during (step ScriptLoaded waiting));
      [apply inv_step, Iw | exact Hd | apply load_ready; assumption]. }
  assert (Ar : app ready <> None).
  { unfold page_demo in Rr. destruct (app ready); congruence. }
  destruct (waiting_resources waiting Iw Aw Rw) as (Wr & _ & Ws).
  destruct (ready_resources ready Ir Rr) as (Rres & _ & Rs).
  destruct (unmount_ready ready Ir Rr) as (Ua & Ur & _ & Us).
  destruct (unmount_waiting waiting Iw Aw Rw) as (Va & Vr & _ & Vs).
  destruct (run_gone after (step Unmount ready) Ua) as (Ga & Gr & _ & Gs).
  destruct (run_gone after (step Unmount waiting) Va) as (Ka & Kr & _ & Ks).
  change (run after (step Unmount ready))
    with (run (Unmount :: after) ready) in Ga, Gr, Gs.
  change (run after (step Unmount waiting))
    with (run (Unmount :: after) waiting) in Ka, Kr, Ks.
  rewrite !(count_calls_resources is_RemoveScript)
    by apply RemoveScript_is_resource.
  rewrite (mounted_components_inv waiting Iw Aw), Rw.
  rewrite (mounted_components_inv ready Ir Ar).
  destruct (page_demo ready) as [dr|]; [|congruence].
  unfold mounted_components. rewrite Ga, Ka, Gr, Kr, Gs, Ks, Ur, Vr, Wr, Rres.
  repeat split; auto.
Qed.

Lemma gate_and_script_release_witness :
  ~ In Unmount [Tick; ClickIncrement] /\
  ~ In ScriptLoaded [Tick; ClickIncrement] /\
  ~ In Unmount [ClickToggleTheme; ClickIncrement] /\
  mounted_components
    (run [Tick; ClickIncrement] (mount (fresh_host layout800))) =
    ["App"; "ThemeProvider"] /\
  mounted_components
    (run (ScriptLoaded :: [ClickToggleTheme; ClickIncrement])
       (run [Tick; ClickIncrement] (mount (fresh_host layout800)))) =
    ["App"; "ThemeProvider"; "ThemeContext.Consumer"; "ThemeToggle";
     "DocumentTitleUpdater"; "DomChangeTracker"] /\
  count_calls is_RemoveScript
    (host (run (Unmount :: [Unmount; Tick])
             (run (ScriptLoaded :: [ClickToggleTheme; ClickIncrement])
                (run [Tick; ClickIncrement] (mount (fresh_host layout800))))))
    = 1%nat.
Proof.
  assert (Hb : ~ In Unmount [Tick; ClickIncrement]).
  { simpl. intros [F|[F|[]]]; discriminate F. }
  assert (Hl : ~ In ScriptLoaded [Tick; ClickIncrement]).
  { simpl. intros [F|[F|[]]]; discriminate F. }
  assert (Hd : ~ In Unmount [ClickToggleTheme; ClickIncrement]).
  { simpl. intros [F|[F|[]]]; discriminate F. }
  destruct (gate_and_script_release layout800 _ _ [Unmount; Tick] Hb Hl Hd)
    as ((W1 & _) & (R1 & _) & (_ & _ & U3) & _).
  split; [exact Hb|]. split; [exact Hl|]. split; [exact Hd|].
  split; [exact W1|]. split; [exact R1 | exact U3].
Defined.

(** ** The context value *)

(** C7.  On every page the events produce with the subtree mounted, the
    consumer holds the [toggleTheme] of the current context value.  A
    change of mode replaces both the context value and the function by
    newly allocated ones, so the reference is not stable; the consumers
    tolerate this, as a click does the same whichever [toggleTheme] the
    button was rendered with: neither provider's function hands a
    different updater to [setTheme] for a different render. *)
Theorem context_value_churn (layout : string -> Z) (es : list event)
  (a : AppState) (d : Demo) :
  app (run es (mount (fresh_host layout))) = Some a -> demo a = Some d ->
  (onClick (themeToggle d) = ctx_toggleTheme (contextValue a) /\
   ctx_theme (contextValue a) = theme a) /\
  (exists a' d',
     app (step ClickToggleTheme (run es (mount (fresh_host layout)))) = Some a' /\
     demo a' = Some d' /\
     theme a' <> theme a /\
     ctx_id (contextValue a') <> ctx_id (contextValue a) /\
     fn_id (ctx_toggleTheme (contextValue a')) <>
       fn_id (ctx_toggleTheme (contextValue a)) /\
     ctx_theme (contextValue a') = theme a' /\
     onClick (themeToggle d') = ctx_toggleTheme (contextValue a')) /\
  (forall (stale : closure) (h : Host),
     on_toggle_theme a
       (mkDemo (mkThemeToggle (buttonRef (themeToggle d)) stale)
               (titleUpdater d)) h =
     on_toggle_theme a d h) /\
  (forall t1 t2, fst (AppJs.toggleTheme t1) = fst (AppJs.toggleTheme t2)) /\
  (forall t1 t2,
     fst (ContextJsx.toggleTheme t1) = fst (ContextJsx.toggleTheme t2)).
Proof.
  intros Ha Hd.
  assert (I : inv (run es (mount (fresh_host layout))))
    by apply inv_run, inv_mount.
  set (p := run es (mount (fresh_host layout))) in *.
  pose proof I as I'. unfold inv in I'. rewrite Ha in I'.
  unfold inv_mounted in I'. rewrite Hd in I'.
  destruct I' as (_ & Hc & _ & Hi & Hf & _ & _ & _ & _ & Itg & _).
  split; [split; [rewrite Itg; reflexivity | exact Hc]|].
  split; [|split; [|split; reflexivity]].
  - destruct p as [oa h]. simpl in Ha. subst oa.
    unfold step. simpl app. simpl host. cbv beta iota. rewrite Hd.
    cbv beta iota. rewrite on_toggle_theme_eq. cbv zeta.
    eexists _, _. simpl. repeat split; simpl; try reflexivity; try lia.
    intros E. simpl in E.
    pose proof (toggleTheme_updater_moves (theme a)) as M.
    rewrite E, String.eqb_refl in M. discriminate.
  - intros stale h. rewrite !on_toggle_theme_eq. reflexivity.
Qed.

Lemma context_value_churn_witness :
  exists a d,
    app (run [ScriptLoaded; ClickIncrement] (mount (fresh_host layout800))) = Some a /\
    demo a = Some d /\
    onClick (themeToggle d) = ctx_toggleTheme (contextValue a).
Proof.
  eexists _, _.
  assert (Ha : app (run [ScriptLoaded; ClickIncrement]
                      (mount (fresh_host layout800))) =
               Some (default (mkApp false EmptyString
                               (mkContext 0 EmptyString (mkClosure 0 EmptyString))
                               None 0)
                       (app (run [ScriptLoaded; ClickIncrement]
                               (mount (fresh_host layout800)))))).
  { vm_compute. reflexivity. }
  split; [exact Ha|].
  assert (Hd : demo (default (mkApp false EmptyString
                               (mkContext 0 EmptyString (mkClosure 0 EmptyString))
                               None 0)
                       (app (run [ScriptLoaded; ClickIncrement]
                               (mount (fresh_host layout800))))) =
               Some (default (mkDemo (mkThemeToggle None (mkClosure 0 EmptyString))
                                (mkUpdater 0 EmptyString (0, EmptyString) 0
                                   (mkTracker None 0 None)))
                       (page_demo (run [ScriptLoaded; ClickIncrement]
                                     (mount (fresh_host layout800)))))).
  { vm_compute. reflexivity. }
  split; [exact Hd|].
  exact (proj1 (proj1 (context_value_churn layout800
                         [ScriptLoaded; ClickIncrement] _ _ Ha Hd))).
Defined.

(** ** The scaffolding script *)

Module ShFacts.
Import Sh.

Lemma seq_apply (c1 c2 : cmd) st : (c1 ;; c2)%cmd st = c2 (c1 st).
Proof. reflexivity. Qed.

Lemma echo_mk line f d o e s :
  echo line (mkState f d o e s) = mkState f d (o ++ [line]) e 0.
Proof. reflexivity. Qed.

Lemma mkdir_p_mk dir f d o e s :
  mkdir_p dir (mkState f d o e s) =
  mkState f (mkdir_dirs dir f d) o (e ++ mkdir_failures dir f d)
          (length (mkdir_failures dir f d)).
Proof.
  unfold mkdir_p, mkdir_dirs, mkdir_failures, is_dir. cbn [files dirs stdout stderr].
  destruct (bool_decide (dir ∈ d)); [rewrite app_nil_r; reflexivity|].
  destruct (f !! dir); [reflexivity | rewrite app_nil_r; reflexivity].
Qed.

Lemma cat_heredoc_mk path body f d o e s :
  cat_heredoc path body (mkState f d o e s) =
  if can_create path (mkState ∅ d [] [] 0)
  then mkState (<[path := heredoc body]> f) d o e 0
  else mkState f d o (e ++ [Redirect_failed path]) 1.
Proof. reflexivity. Qed.

(** The entry test reads one regular file and writes nothing but
    errors. *)
Lemma entry_test_eq st :
  entry_test st =
  match regular APP_FILE st with
  | Some content =>
      mkState (files st) (dirs st) (stdout st) (stderr st)
        (if existsb (contains "function App()") (lines content) then 0
         else if existsb (contains "const App =") (lines content) then 0
              else 1)
  | None =>
      mkState (files st) (dirs st) (stdout st)
        (stderr st ++ [Grep_failed APP_FILE; Grep_failed APP_FILE]) 2
  end.
Proof.
  unfold entry_test, or_, grep_q, succeeded, regular, is_dir.
  destruct (bool_decide (APP_FILE ∈ dirs st)) eqn:Ed.
  - cbn [status files dirs stdout stderr Nat.eqb]. unfold regular, is_dir.
    cbn [dirs]. rewrite Ed. cbn [files dirs stdout stderr].
    rewrite <- app_assoc. reflexivity.
  - destruct (files st !! APP_FILE) as [content|] eqn:Ef.
    + cbn [pattern_text status].
      destruct (existsb (contains "function App()") (lines content));
        cbn [Nat.eqb]; [reflexivity|].
      cbn [files dirs stdout stderr]. rewrite Ed, Ef. reflexivity.
    + cbn [status files dirs stdout stderr Nat.eqb]. rewrite Ed, Ef.
      cbn [files dirs stdout stderr]. rewrite <- app_assoc. reflexivity.
Qed.

Lemma has_app_pattern_eq st :
  has_app_pattern st =
  match regular APP_FILE st with
  | Some content =>
      existsb (contains "function App()") (lines content) ||
      existsb (contains "const App =") (lines content)
  | None => false
  end.
Proof.
  unfold has_app_pattern. rewrite entry_test_eq.
  destruct (regular APP_FILE st) as [content|]; [|reflexivity].
  unfold succeeded. cbn [status].
  destruct (existsb (contains "function App()") (lines content)); [reflexivity|].
  destruct (existsb (contains "const App =") (lines content)); reflexivity.
Qed.

Lemma has_app_pattern_regular st st' :
  regular APP_FILE st = regular APP_FILE st' ->
  has_app_pattern st = has_app_pattern st'.
Proof. intros E. rewrite !has_app_pattern_eq, E. reflexivity. Qed.

Lemma mkdir_dirs_elem d fs ds x :
  x ∈ mkdir_dirs d fs ds <-> x ∈ ds \/ (x = d /\ fs !! d = None).
Proof.
  unfold mkdir_dirs. case_bool_decide as Hd.
  - split; [auto|]. intros [H|[-> _]]; assumption.
  - destruct (fs !! d) eqn:E.
    + split; [auto|]. intros [H|[_ H]]; [assumption|discriminate].
    + rewrite elem_of_union, elem_of_singleton. tauto.
Qed.

Lemma dirs_after_elem fs ds x :
  x ∈ dirs_after fs ds <->
  x ∈ ds \/ ((x = "context" \/ x = "components") /\ fs !! x = None).
Proof.
  unfold dirs_after. rewrite !mkdir_dirs_elem. split.
  - intros [[H|[-> H]]|[-> H]]; auto.
  - intros [H|[[-> | ->] H]]; auto.
Qed.

Lemma app_file_dir fs ds :
  bool_decide (APP_FILE ∈ dirs_after fs ds) = bool_decide (APP_FILE ∈ ds).
Proof.
  apply bool_decide_ext. rewrite dirs_after_elem. split; [|auto].
  intros [H|[[H|H] _]]; [assumption|discriminate H|discriminate H].
Qed.

Lemma files_created_lookup fs ds path :
  files_created fs ds !! path =
  if decide (path = COMPONENT_FILE)
  then (if writable COMPONENT_FILE fs ds
        then Some (heredoc component_heredoc) else fs !! path)
  else if decide (path = CONTEXT_FILE)
       then (if writable CONTEXT_FILE fs ds
             then Some (heredoc context_heredoc) else fs !! path)
       else fs !! path.
Proof.
  unfold files_created.
  destruct (decide (path = COMPONENT_FILE)) as [->|Hm].
  - destruct (writable COMPONENT_FILE fs ds); [apply lookup_insert_eq|].
    destruct (writable CONTEXT_FILE fs ds); [|reflexivity].
    apply lookup_insert_ne. discriminate.
  - destruct (decide (path = CONTEXT_FILE)) as [->|Hc].
    + destruct (writable COMPONENT_FILE fs ds);
        [rewrite lookup_insert_ne by discriminate|];
        (destruct (writable CONTEXT_FILE fs ds);
         [apply lookup_insert_eq | reflexivity]).
    + destruct (writable COMPONENT_FILE fs ds);
        [rewrite lookup_insert_ne by congruence|];
        (destruct (writable CONTEXT_FILE fs ds);
         [apply lookup_insert_ne; congruence | reflexivity]).
Qed.

(** Parts 1 to 3 leave the entry file as it is. *)
Lemma regular_app_created fs ds o e s :
  regular APP_FILE (mkState (files_created fs ds) (dirs_after fs ds) o e s) =
  regular APP_FILE (mkState fs ds [] [] 0).
Proof.
  unfold regular, is_dir. cbn [files dirs]. rewrite app_file_dir.
  destruct (bool_decide (APP_FILE ∈ ds)); [reflexivity|].
  rewrite files_created_lookup.
  destruct (decide (APP_FILE = COMPONENT_FILE)) as [H|_]; [discriminate H|].
  destruct (decide (APP_FILE = CONTEXT_FILE)) as [H|_]; [discriminate H|].
  reflexivity.
Qed.

(** The state in which the script reaches part 4. *)
Lemma parts_1_to_3 sed_1i fs ds :
  run_script sed_1i fs ds =
  setup_complete
    (update_app_file sed_1i
       (mkState (files_created fs ds) (dirs_after fs ds)
                ["Creating directories: context and components...";
                 "Creating context/ThemeContext.jsx...";
                 "Creating components/ThemeToggle.jsx..."]
                (failures_created fs ds)
                (length (redirect_failures COMPONENT_FILE fs ds)))).
Proof.
  unfold run_script, script. rewrite !seq_apply. do 2 f_equal.
  unfold create_directories. rewrite !seq_apply, echo_mk, !mkdir_p_mk.
  fold (dirs_after fs ds).
  unfold create_context_file. rewrite !seq_apply, echo_mk, cat_heredoc_mk.
  fold (writable CONTEXT_FILE fs ds).
  unfold create_component_file, files_created, failures_created,
    redirect_failures.
  destruct (writable CONTEXT_FILE fs ds) eqn:W1;
    rewrite !seq_apply, echo_mk, cat_heredoc_mk;
    fold (writable COMPONENT_FILE fs ds);
    destruct (writable COMPONENT_FILE fs ds) eqn:W2;
    cbn [length app]; rewrite ?app_nil_r, <- ?app_assoc; reflexivity.
Qed.

Lemma setup_complete_mk f d o e s :
  setup_complete (mkState f d o e s) = mkState f d (o ++ closing_lines) e 0.
Proof.
  unfold setup_complete. rewrite !seq_apply, !echo_mk, <- !app_assoc.
  reflexivity.
Qed.

Lemma insert_after_sed (out : option string) (v : string)
  (f : gmap string string) :
  <[APP_FILE := v]> (match out with
                     | Some content => <[APP_FILE := content]> f
                     | None => f
                     end) = <[APP_FILE := v]> f.
Proof. destruct out; [apply insert_insert_eq | reflexivity]. Qed.

(** Part 4, in a state that has read nothing yet. *)
Lemma update_app_file_mk sed_1i f d o e s :
  update_app_file sed_1i (mkState f d o e s) =
  if has_app_pattern (mkState f d [] [] 0)
  then mkState (<[APP_FILE := heredoc app_heredoc]> f) d
         (o ++ ["Updating App.jsx to wrap the App with ThemeProvider...";
                "Successfully updated App.jsx."])
         (e ++ failures_update sed_1i f d) 0
  else mkState f d
         (o ++ ["Updating App.jsx to wrap the App with ThemeProvider...";
                warning])
         (e ++ failures_update sed_1i f d) 0.
Proof.
  unfold update_app_file. rewrite seq_apply, echo_mk. unfold if_.
  cbv zeta. fold (has_app_pattern
    (mkState f d (o ++ ["Updating " +:+ APP_FILE +:+
                        " to wrap the App with ThemeProvider..."]) e 0)).
  unfold failures_update.
  rewrite (has_app_pattern_regular _ (mkState f d [] [] 0)) by reflexivity.
  destruct (has_app_pattern (mkState f d [] [] 0)) eqn:P.
  - rewrite entry_test_eq. rewrite has_app_pattern_eq in P.
    change (regular APP_FILE (mkState f d (o ++ ["Updating " +:+ APP_FILE +:+
              " to wrap the App with ThemeProvider..."]) e 0))
      with (regular APP_FILE (mkState f d [] [] 0)).
    destruct (regular APP_FILE (mkState f d [] [] 0)) as [content|] eqn:R;
      [|discriminate P].
    cbn [files dirs stdout stderr].
    rewrite !seq_apply. unfold sed_i.
    change (regular APP_FILE _) with (regular APP_FILE (mkState f d [] [] 0)).
    rewrite R. destruct (sed_1i sed_text (Some content)) as [out code].
    cbn [files dirs stdout stderr snd]. rewrite cat_heredoc_mk.
    assert (C : can_create APP_FILE (mkState ∅ d [] [] 0) = true).
    { unfold regular, is_dir in R. cbn [dirs files] in R.
      unfold can_create, is_dir. cbn [dirs].
      destruct (bool_decide (APP_FILE ∈ d)); [discriminate R | reflexivity]. }
    rewrite C, echo_mk, insert_after_sed, <- !app_assoc. reflexivity.
  - rewrite entry_test_eq. rewrite has_app_pattern_eq in P.
    change (regular APP_FILE (mkState f d (o ++ ["Updating " +:+ APP_FILE +:+
              " to wrap the App with ThemeProvider..."]) e 0))
      with (regular APP_FILE (mkState f d [] [] 0)).
    destruct (regular APP_FILE (mkState f d [] [] 0)) as [content|] eqn:R;
      cbn [files dirs stdout stderr]; rewrite echo_mk, <- !app_assoc;
      rewrite ?app_nil_r; reflexivity.
Qed.

(** The whole run. *)
Lemma run_script_eq sed_1i fs ds :
  run_script sed_1i fs ds =
  if has_app_pattern (mkState fs ds [] [] 0)
  then mkState (<[APP_FILE := heredoc app_heredoc]> (files_created fs ds))
         (dirs_after fs ds)
         (opening_lines ++ ["Successfully updated App.jsx."] ++ closing_lines)
         (failures_created fs ds ++ failures_update sed_1i fs ds) 0
  else mkState (files_created fs ds) (dirs_after fs ds)
         (opening_lines ++ [warning] ++ closing_lines)
         (failures_created fs ds ++ failures_update sed_1i fs ds) 0.
Proof.
  rewrite parts_1_to_3, update_app_file_mk.
  assert (U : failures_update sed_1i (files_created fs ds) (dirs_after fs ds) =
              failures_update sed_1i fs ds).
  { unfold failures_update.
    rewrite (has_app_pattern_regular _ (mkState fs ds [] [] 0))
      by apply regular_app_created.
    rewrite regular_app_created. reflexivity. }
  rewrite U.
  rewrite (has_app_pattern_regular _ (mkState fs ds [] [] 0))
    by apply regular_app_created.
  destruct (has_app_pattern (mkState fs ds [] [] 0));
    rewrite setup_complete_mk; reflexivity.
Qed.

Lemma writable_context fs ds :
  writable CONTEXT_FILE fs ds = true <->
  (CONTEXT_FILE ∉ ds) /\ ("context" ∈ ds \/ fs !! "context" = None).
Proof.
  unfold writable, can_create, is_dir. cbn [dirs].
  change (dirname CONTEXT_FILE) with (Some "context").
  rewrite andb_true_iff, negb_true_iff, bool_decide_eq_false,
    bool_decide_eq_true, !dirs_after_elem.
  split.
  - intros [H1 [H2|[_ H2]]]; (split; [intros H; apply H1; auto|auto]).
  - intros [H1 H2]. split.
    + intros [H|[[H|H] _]]; [auto | discriminate H | discriminate H].
    + destruct H2; auto.
Qed.

Lemma writable_component fs ds :
  writable COMPONENT_FILE fs ds = true <->
  (COMPONENT_FILE ∉ ds) /\ ("components" ∈ ds \/ fs !! "components" = None).
Proof.
  unfold writable, can_create, is_dir. cbn [dirs].
  change (dirname COMPONENT_FILE) with (Some "components").
  rewrite andb_true_iff, negb_true_iff, bool_decide_eq_false,
    bool_decide_eq_true, !dirs_after_elem.
  split.
  - intros [H1 [H2|[_ H2]]]; (split; [intros H; apply H1; auto|auto]).
  - intros [H1 H2]. split.
    + intros [H|[[H|H] _]]; [auto | discriminate H | discriminate H].
    + destruct H2; auto.
Qed.

(** What the script leaves in the files. *)
Lemma run_script_lookups
  (sed_1i : list string -> option string -> option string * nat)
  (fs : gmap string string) (ds : gset string) (path : string) :
  files (run_script sed_1i fs ds) !! path =
  if decide (path = APP_FILE)
  then (if has_app_pattern (mkState fs ds [] [] 0)
        then Some (heredoc app_heredoc) else fs !! path)
  else files_created fs ds !! path.
Proof.
  rewrite run_script_eq.
  destruct (has_app_pattern (mkState fs ds [] [] 0)); cbn [files];
    destruct (decide (path = APP_FILE)) as [->|Hne].
  - apply lookup_insert_eq.
  - apply lookup_insert_ne. congruence.
  - rewrite files_created_lookup.
    destruct (decide (APP_FILE = COMPONENT_FILE)) as [H|_]; [discriminate H|].
    destruct (decide (APP_FILE = CONTEXT_FILE)) as [H|_]; [discriminate H|].
    reflexivity.
  - reflexivity.
Qed.

Lemma not_in_stdout_success fs ds sed_1i :
  has_app_pattern (mkState fs ds [] [] 0) = false ->
  ~ In "Successfully updated App.jsx." (stdout (run_script sed_1i fs ds)).
Proof.
  intros Hf. rewrite run_script_eq, Hf. cbn [stdout]. intros Hin.
  vm_compute in Hin.
  repeat (destruct Hin as [Hin|Hin]; [discriminate Hin|]). exact Hin.
Qed.

Lemma warning_in_stdout fs ds sed_1i :
  In warning (stdout (run_script sed_1i fs ds)) <->
  has_app_pattern (mkState fs ds [] [] 0) = false.
Proof.
  rewrite run_script_eq.
  destruct (has_app_pattern (mkState fs ds [] [] 0)); cbn [stdout]; split.
  - intros Hin. exfalso. vm_compute in Hin.
    repeat (destruct Hin as [Hin|Hin]; [discriminate Hin|]). exact Hin.
  - discriminate.
  - reflexivity.
  - intros _. apply in_or_app. right. left. reflexivity.
Qed.

Lemma run_script_dirs sed_1i fs ds :
  dirs (run_script sed_1i fs ds) = dirs_after fs ds.
Proof.
  rewrite run_script_eq.
  destruct (has_app_pattern (mkState fs ds [] [] 0)); reflexivity.
Qed.

Lemma run_script_stdout sed_1i fs ds :
  stdout (run_script sed_1i fs ds) =
  opening_lines ++
  [if has_app_pattern (mkState fs ds [] [] 0)
   then "Successfully updated App.jsx." else warning] ++
  closing_lines.
Proof.
  rewrite run_script_eq.
  destruct (has_app_pattern (mkState fs ds [] [] 0)); reflexivity.
Qed.

Lemma run_script_status sed_1i fs ds : status (run_script sed_1i fs ds) = 0%nat.
Proof.
  rewrite run_script_eq.
  destruct (has_app_pattern (mkState fs ds [] [] 0)); reflexivity.
Qed.

(** C8 as stated fails.  An entry file with the pattern is overwritten
    in full, imports spliced or not; one without it is never written, so
    that the script then writes two files, not three. *)
Lemma entry_file_overwritten_iff_pattern :
  has_app_pattern
    (mkState {[APP_FILE := "function App() { return null; }"]} ∅ [] [] 0)
    = true /\
  files (run_script sed_bsd
           {[APP_FILE := "function App() { return null; }"]} ∅) !! APP_FILE =
    Some (heredoc app_heredoc) /\
  has_app_pattern (mkState {[APP_FILE := "export default Main;"]} ∅ [] [] 0)
    = false /\
  files (run_script sed_bsd
           {[APP_FILE := "export default Main;"]} ∅) !! APP_FILE =
    Some "export default Main;".
Proof.
  assert (H1 : has_app_pattern
                 (mkState {[APP_FILE := "function App() { return null; }"]}
                          ∅ [] [] 0) = true).
  { rewrite has_app_pattern_eq. unfold regular, is_dir. cbn [files dirs].
    rewrite bool_decide_eq_false_2 by apply not_elem_of_empty.
    rewrite lookup_singleton_eq. reflexivity. }
  assert (H2 : has_app_pattern
                 (mkState {[APP_FILE := "export default Main;"]} ∅ [] [] 0)
               = false).
  { rewrite has_app_pattern_eq. unfold regular, is_dir. cbn [files dirs].
    rewrite bool_decide_eq_false_2 by apply not_elem_of_empty.
    rewrite lookup_singleton_eq. reflexivity. }
  rewrite !run_script_lookups, H1, H2.
  destruct (decide (APP_FILE = APP_FILE)) as [_|N]; [|congruence].
  rewrite lookup_singleton_eq. auto.
Qed.

(** C8, amended.  The script writes the context file and the component
    file, with the text of their here-documents, when it can open them:
    the path is not a directory, and [context] (or [components]) is a
    directory or a free name, which [mkdir -p] then makes one.  Otherwise
    the path is left as it was.  When a line of the entry file contains
    "function App()" or "const App =", the script runs sed on the entry
    file and then overwrites it with the text of the third here-document,
    whatever sed did; otherwise the entry file is left as it was,
    missing if it was missing.  No other file is touched, and the text
    handed to sed is the two import lines (nothing is exported again). *)
Theorem script_files
  (sed_1i : list string -> option string -> option string * nat)
  (fs : gmap string string) (ds : gset string) :
  files (run_script sed_1i fs ds) !! CONTEXT_FILE =
    (if writable CONTEXT_FILE fs ds
     then Some (heredoc context_heredoc) else fs !! CONTEXT_FILE) /\
  files (run_script sed_1i fs ds) !! COMPONENT_FILE =
    (if writable COMPONENT_FILE fs ds
     then Some (heredoc component_heredoc) else fs !! COMPONENT_FILE) /\
  (writable CONTEXT_FILE fs ds = true <->
   (CONTEXT_FILE ∉ ds) /\ ("context" ∈ ds \/ fs !! "context" = None)) /\
  (writable COMPONENT_FILE fs ds = true <->
   (COMPONENT_FILE ∉ ds) /\ ("components" ∈ ds \/ fs !! "components" = None)) /\
  files (run_script sed_1i fs ds) !! APP_FILE =
    (if has_app_pattern (mkState fs ds [] [] 0)
     then Some (heredoc app_heredoc) else fs !! APP_FILE) /\
  (forall path,
     path <> CONTEXT_FILE -> path <> COMPONENT_FILE -> path <> APP_FILE ->
     files (run_script sed_1i fs ds) !! path = fs !! path) /\
  sed_text =
    ["import { ThemeProvider } from " +:+ dq +:+ "./context/ThemeContext" +:+ dq +:+ ";";
     "import ThemeToggle from " +:+ dq +:+ "./components/ThemeToggle" +:+ dq +:+ ";";
     EmptyString].
Proof.
  split; [|split; [|split; [|split; [|split; [|split]]]]].
  - rewrite run_script_lookups, files_created_lookup.
    destruct (decide (CONTEXT_FILE = APP_FILE)) as [H|_]; [discriminate H|].
    destruct (decide (CONTEXT_FILE = COMPONENT_FILE)) as [H|_]; [discriminate H|].
    destruct (decide (CONTEXT_FILE = CONTEXT_FILE)) as [_|N]; [|congruence].
    reflexivity.
  - rewrite run_script_lookups, files_created_lookup.
    destruct (decide (COMPONENT_FILE = APP_FILE)) as [H|_]; [discriminate H|].
    destruct (decide (COMPONENT_FILE = COMPONENT_FILE)) as [_|N]; [|congruence].
    reflexivity.
  - apply writable_context.
  - apply writable_component.
  - rewrite run_script_lookups.
    destruct (decide (APP_FILE = APP_FILE)) as [_|N]; [|congruence].
    reflexivity.
  - intros path H1 H2 H3. rewrite run_script_lookups, files_created_lookup.
    destruct (decide (path = APP_FILE)) as [E|_]; [congruence|].
    destruct (decide (path = COMPONENT_FILE)) as [E|_]; [congruence|].
    destruct (decide (path = CONTEXT_FILE)) as [E|_]; [congruence|].
    reflexivity.
  - reflexivity.
Qed.

Lemma script_files_witness :
  "README.md" <> CONTEXT_FILE /\ "README.md" <> COMPONENT_FILE /\
  "README.md" <> APP_FILE /\
  files (run_script sed_gnu {["README.md" := "demo"]} ∅) !! "README.md" =
    Some "demo" /\
  files (run_script sed_gnu {["README.md" := "demo"]} ∅) !! CONTEXT_FILE =
    Some (heredoc context_heredoc).
Proof.
  assert (H1 : "README.md" <> CONTEXT_FILE) by discriminate.
  assert (H2 : "README.md" <> COMPONENT_FILE) by discriminate.
  assert (H3 : "README.md" <> APP_FILE) by discriminate.
  split; [exact H1|]. split; [exact H2|]. split; [exact H3|].
  destruct (script_files sed_gnu {["README.md" := "demo"]} ∅)
    as (Hc & _ & Hw & _ & _ & Hp & _).
  split.
  - rewrite (Hp "README.md" H1 H2 H3). apply lookup_singleton_eq.
  - rewrite Hc.
    replace (writable CONTEXT_FILE {["README.md" := "demo"]} ∅) with true;
      [reflexivity|].
    symmetry. apply Hw. split; [apply not_elem_of_empty|]. right.
    apply lookup_singleton_ne. discriminate.
Defined.

(** C9 as stated fails: the script has other ways to fail, and none of
    them prints the warning.  With a regular file named [context] in the
    way, [mkdir -p context] and the redirection to
    [context/ThemeContext.jsx] fail and the context file is not written,
    yet the run goes on and reports success.  With GNU sed,
    the sed step fails on every entry file that has the pattern. *)
Lemma failures_without_warning :
  has_app_pattern (mkState name_taken ∅ [] [] 0) = true /\
  stderr (run_script sed_bsd name_taken ∅) =
    [Mkdir_failed "context"; Redirect_failed CONTEXT_FILE] /\
  files (run_script sed_bsd name_taken ∅) !! CONTEXT_FILE = None /\
  ~ In warning (stdout (run_script sed_bsd name_taken ∅)) /\
  In "Successfully updated App.jsx."
     (stdout (run_script sed_bsd name_taken ∅)) /\
  stderr (run_script sed_gnu
            {[APP_FILE := "function App() { return null; }"]} ∅) =
    [Sed_failed 2] /\
  ~ In warning
      (stdout (run_script sed_gnu
                 {[APP_FILE := "function App() { return null; }"]} ∅)).
Proof.
  assert (H1 : has_app_pattern (mkState name_taken ∅ [] [] 0) = true)
    by (vm_compute; reflexivity).
  assert (H2 : has_app_pattern
                 (mkState {[APP_FILE := "function App() { return null; }"]}
                          ∅ [] [] 0) = true)
    by (vm_compute; reflexivity).
  split; [exact H1|].
  split; [rewrite run_script_eq, H1; vm_compute; reflexivity|].
  split; [rewrite run_script_eq, H1; vm_compute; reflexivity|].
  split; [rewrite warning_in_stdout, H1; discriminate|].
  split; [rewrite run_script_eq, H1; vm_compute; tauto|].
  split; [rewrite run_script_eq, H2; vm_compute; reflexivity|].
  rewrite warning_in_stdout, H2. discriminate.
Qed.

(** C9, amended.  The missing pattern is the one condition the script
    checks and reports: it prints its warning exactly when no line of a
    regular entry file contains "function App()" or "const App =" (no
    such file among these cases), and then it does not write the entry
    file and does not report success.  The other failures of a run go to
    the standard error only, whether the warning is printed or not: a
    [mkdir -p] or a redirection that a path is in the way of, grep
    without an entry file to read, sed with a status other than 0.  The
    script goes on after each of them. *)
Theorem script_warning
  (sed_1i : list string -> option string -> option string * nat)
  (fs : gmap string string) (ds : gset string) :
  (In warning (stdout (run_script sed_1i fs ds)) <->
   has_app_pattern (mkState fs ds [] [] 0) = false) /\
  (has_app_pattern (mkState fs ds [] [] 0) = false ->
   files (run_script sed_1i fs ds) !! APP_FILE = fs !! APP_FILE /\
   ~ In "Successfully updated App.jsx." (stdout (run_script sed_1i fs ds))) /\
  (fs !! APP_FILE = None -> has_app_pattern (mkState fs ds [] [] 0) = false) /\
  has_app_pattern (mkState fs ds [] [] 0) =
    match regular APP_FILE (mkState fs ds [] [] 0) with
    | Some content =>
        existsb (contains "function App()") (lines content) ||
        existsb (contains "const App =") (lines content)
    | None => false
    end /\
  stderr (run_script sed_1i fs ds) =
    failures_created fs ds ++ failures_update sed_1i fs ds.
Proof.
  split; [apply warning_in_stdout|].
  split; [|split; [|split; [apply has_app_pattern_eq|]]].
  - intros Hf. split; [|apply not_in_stdout_success, Hf].
    rewrite run_script_lookups, Hf.
    destruct (decide (APP_FILE = APP_FILE)) as [_|N]; [|congruence].
    reflexivity.
  - intros Hn. rewrite has_app_pattern_eq. unfold regular. cbn [files].
    rewrite Hn. destruct (is_dir APP_FILE _); reflexivity.
  - rewrite run_script_eq.
    destruct (has_app_pattern (mkState fs ds [] [] 0)); reflexivity.
Qed.

Lemma script_warning_witness :
  has_app_pattern (mkState {[APP_FILE := "export default Main;"]} ∅ [] [] 0)
    = false /\
  files (run_script sed_bsd {[APP_FILE := "export default Main;"]} ∅) !! APP_FILE =
    Some "export default Main;" /\
  In warning
    (stdout (run_script sed_bsd {[APP_FILE := "export default Main;"]} ∅)).
Proof.
  assert (Hf : has_app_pattern
                 (mkState {[APP_FILE := "export default Main;"]} ∅ [] [] 0)
               = false) by (vm_compute; reflexivity).
  destruct (script_warning sed_bsd {[APP_FILE := "export default Main;"]} ∅)
    as (Hw & Hu & _).
  destruct (Hu Hf) as (Hfile & _).
  split; [exact Hf|]. split.
  - rewrite Hfile. apply lookup_singleton_eq.
  - apply Hw. exact Hf.
Defined.


(** ** The two providers, and the files the script generates *)




End ShFacts.

(** * Further properties *)

(** ** Calls of the renders, whatever the layout *)

Section Filtered.

Variable f : call -> bool.
Hypothesis f_tracker_render : f (Render "DomChangeTracker") = false.
Hypothesis f_layout_log : forall w,
  f (ConsoleLog ("[LAYOUT EFFECT]: Measured new width: " +:+ w +:+ "px")) = false.

Lemma filter_layout_effect r h :
  List.filter f (calls (snd (layout_effect r h))) = List.filter f (calls h).
Proof.
  destruct r; [|reflexivity]. simpl. rewrite f_layout_log. reflexivity.
Qed.

Lemma filter_tracker_commit b deps t h :
  List.filter f (calls (snd (tracker_commit b deps t h))) =
  List.filter f (calls h).
Proof.
  unfold tracker_commit. destruct b; [|reflexivity].
  pose proof (filter_layout_effect (boxRef t) h) as Q.
  destruct (layout_effect (boxRef t) h). exact Q.
Qed.

Lemma filter_tracker_rerender t h :
  List.filter f (calls (snd (tracker_rerender t h))) = List.filter f (calls h).
Proof.
  unfold tracker_rerender. rewrite filter_tracker_commit. simpl.
  rewrite f_tracker_render. reflexivity.
Qed.

Lemma filter_flush_sync fuel : forall w t h,
  List.filter f (calls (snd (flush_sync fuel w t h))) = List.filter f (calls h).
Proof.
  induction fuel as [|fuel IH]; intros w t h; simpl; [reflexivity|].
  destruct (width t =? w); [reflexivity|].
  pose proof (filter_tracker_rerender t h) as Q.
  destruct (tracker_rerender t h) as [t' h']. simpl in Q.
  rewrite IH. exact Q.
Qed.

Lemma filter_rerender theme c cw s h :
  List.filter f (calls (snd (rerender_DocumentTitleUpdater theme c cw s h))) =
  List.filter f
    ((if title_deps_differ (c, theme) (title_deps s)
      then title_effect_calls c theme else []) ++
     [Render "DocumentTitleUpdater"]) ++
  List.filter f (calls h).
Proof.
  unfold rerender_DocumentTitleUpdater.
  set (h1 := record (Render "DomChangeTracker")
               (record (Render "DocumentTitleUpdater") h)).
  set (deps := layout_deps_of (boxRef (tracker s)) h1).
  set (h2 := commit_wrapper (Some cw) h1).
  pose proof (filter_tracker_commit
                (layout_deps_differ deps (layout_deps (tracker s)))
                deps (tracker s) h2) as Q3.
  destruct (tracker_commit _ deps (tracker s) h2) as [t3 h3].
  cbn [snd] in Q3.
  set (h4 := if title_deps_differ (c, theme) (title_deps s)
             then title_effect c theme h3 else h3).
  pose proof (filter_flush_sync NESTED_UPDATE_LIMIT (width (tracker s)) t3 h4)
    as Q5.
  destruct (flush_sync NESTED_UPDATE_LIMIT (width (tracker s)) t3 h4)
    as [t5 h5].
  cbn [snd] in Q5. cbv zeta. cbn [snd]. rewrite Q5.
  assert (E4 : List.filter f (calls h4) =
               List.filter f
                 (if title_deps_differ (c, theme) (title_deps s)
                  then title_effect_calls c theme else []) ++
               List.filter f (calls h3)).
  { unfold h4. destruct (title_deps_differ (c, theme) (title_deps s));
      [|reflexivity].
    unfold title_effect, console_log, set_title, record, title_effect_calls,
      title_for. cbn [calls].
    change (?x :: ?y :: calls h3) with ([x; y] ++ calls h3).
    apply List.filter_app. }
  rewrite E4, Q3. unfold h2, h1, commit_wrapper, record. cbn [calls].
  change (?x :: ?y :: calls h) with ([x] ++ [y] ++ calls h).
  rewrite !List.filter_app. cbn [List.filter]. rewrite f_tracker_render.
  rewrite <- !app_assoc. reflexivity.
Qed.

Lemma filter_mount_demo ctx h :
  List.filter f (calls (snd (mount_demo ctx h))) =
  List.filter f (mount_demo_calls (ctx_theme ctx) (next_interval h)) ++
  List.filter f (calls h).
Proof.
  unfold mount_demo.
  set (h1 := record (Render "DomChangeTracker")
               (record (Render "DocumentTitleUpdater")
                  (record (Render "ThemeToggle") h))).
  set (deps := layout_deps_of None h1).
  set (h2 := commit_wrapper (Some "w-full") h1).
  pose proof (filter_tracker_commit true deps
                (mkTracker (Some TrackedBox) 0 deps) h2) as Q3.
  destruct (quiet_tracker_commit true deps
              (mkTracker (Some TrackedBox) 0 deps) h2)
    as (_ & _ & N3 & _).
  destruct (tracker_commit true deps _ h2) as [t3 h3].
  cbn [snd] in Q3, N3.
  unfold interval_effect, setInterval. cbv zeta.
  match goal with
  | |- context [flush_sync ?fu ?w ?t ?hh] =>
      pose proof (filter_flush_sync fu w t hh) as Q5;
      destruct (flush_sync fu w t hh) as [t5 h5]
  end.
  cbn [snd] in Q5. cbn [snd]. rewrite Q5. clear Q5.
  unfold title_effect, console_log, set_title, record, mount_demo_calls,
    title_effect_calls, title_for.
  cbn [calls next_interval]. rewrite N3.
  unfold h2, h1, commit_wrapper, record in *. cbn [calls next_interval] in *.
  change (?a :: ?b :: ?c :: ?d :: calls h3)
    with ([a; b; c; d] ++ calls h3).
  rewrite List.filter_app, Q3.
  change (?a :: ?b :: ?c :: calls h) with ([a] ++ [b; c] ++ calls h).
  rewrite !List.filter_app.
  replace (List.filter f [Render "DomChangeTracker"]) with (@nil call)
    by (cbn [List.filter]; rewrite f_tracker_render; reflexivity).
  cbn [app]. rewrite <- !app_assoc.
  change [?a; ?b; ?c; ?d] with ([a; b] ++ [c; d]).
  rewrite List.filter_app, <- !app_assoc. reflexivity.
Qed.

End Filtered.

Section FilteredSteps.

Variable f : call -> bool.
Hypothesis f_tracker_render : f (Render "DomChangeTracker") = false.
Hypothesis f_layout_log : forall w,
  f (ConsoleLog ("[LAYOUT EFFECT]: Measured new width: " +:+ w +:+ "px")) = false.

(** What an event adds while the subtree is mounted. *)
Lemma step_filter e p a d :
  inv p -> app p = Some a -> demo a = Some d ->
  List.filter f (calls (host (step e p))) =
  List.filter f (event_calls e a d) ++ List.filter f (calls (host p)).
Proof.
  intros I Ha Hd. destruct p as [oa h]. simpl in Ha. subst oa.
  unfold inv, inv_mounted in I. simpl in I. rewrite Hd in I.
  destruct I as (Hs & _ & _ & _ & _ & Il & _ & Ii & Iid & Itg & _ & Itd & _).
  destruct e; unfold step; simpl app; simpl host; cbv beta iota;
    rewrite ?Hd; cbv beta iota; unfold event_calls; cbv zeta.
  - unfold on_script_loaded. simpl app. cbv beta iota. rewrite Il.
    apply (List.filter_app f [_] (calls h)).
  - rewrite on_toggle_theme_eq. cbv zeta. cbn [host].
    rewrite (filter_rerender f f_tracker_render f_layout_log).
    rewrite Itd, title_deps_differ_theme by apply toggleTheme_updater_moves.
    unfold record. cbn [calls].
    change (?x :: ?y :: calls h) with ([x; y] ++ calls h).
    rewrite (List.filter_app f [_; _] (calls h)), app_assoc.
    rewrite <- List.filter_app, <- app_assoc. reflexivity.
  - rewrite Itg. apply (List.filter_app f [_] (calls h)).
  - rewrite on_increment_eq. cbv zeta.
    destruct (JS.add1 (count (titleUpdater d)) =? count (titleUpdater d))
      eqn:E; [reflexivity|].
    cbn [host]. rewrite (filter_rerender f f_tracker_render f_layout_log).
    rewrite Itd, title_deps_differ_count by exact E. reflexivity.
  - rewrite on_toggle_width_eq. cbv zeta. cbn [host].
    rewrite (filter_rerender f f_tracker_render f_layout_log).
    rewrite Itd, title_deps_differ_same. reflexivity.
  - unfold on_tick. rewrite Ii. apply (List.filter_app f [_] (calls h)).
  - unfold on_unmount. rewrite ?Hd, Iid.
    apply (List.filter_app f [_; _; _] (calls h)).
Qed.

(** The load of the script, seen from the page that waits for it. *)
Lemma load_filter p a :
  inv p -> app p = Some a -> demo a = None ->
  List.filter f (calls (host (step ScriptLoaded p))) =
  List.filter f
    (mount_demo_calls (theme a) 1 ++
     [Render "ThemeProvider"; Render "App";
      ConsoleLog "Tailwind CSS script loaded successfully."]) ++
  List.filter f (calls (host p)).
Proof.
  intros I Ha Hd. unfold inv in I. rewrite Ha in I.
  unfold inv_mounted in I. rewrite Hd in I.
  destruct I as (_ & _ & _ & _ & _ & Il & _ & _ & In1 & _).
  unfold step. rewrite (on_script_loaded_eq p a Ha Il). cbv zeta. cbn [host].
  rewrite (filter_mount_demo f f_tracker_render f_layout_log).
  cbn [ctx_theme]. unfold record, console_log at 1. cbn [next_interval calls].
  unfold console_log, record. cbn [next_interval calls]. rewrite In1.
  change (?x :: ?y :: ?z :: calls (host p)) with ([x; y; z] ++ calls (host p)).
  rewrite !List.filter_app, app_assoc. reflexivity.
Qed.

End FilteredSteps.

(** Before the script has loaded, clicks and ticks leave the host as it
    is. *)
Lemma step_waiting_host e p :
  inv p -> app p <> None -> page_demo p = None ->
  e <> ScriptLoaded -> e <> Unmount -> host (step e p) = host p.
Proof.
  intros I Ha Hr H1 H2. unfold page_demo in Hr.
  destruct p as [[a|] h]; [|simpl in Ha; congruence]. simpl in Hr.
  unfold inv, inv_mounted in I. simpl in I. rewrite Hr in I.
  destruct I as (_ & _ & _ & _ & _ & _ & _ & Ii & _).
  destruct e; try congruence; unfold step; simpl app; simpl host;
    cbv beta iota; rewrite ?Hr; try reflexivity.
  simpl. unfold on_tick. rewrite Ii. reflexivity.
Qed.

Lemma run_waiting_host es : forall p,
  inv p -> app p <> None -> page_demo p = None ->
  ~ In ScriptLoaded es -> ~ In Unmount es -> host (run es p) = host p.
Proof.
  induction es as [|e es IH]; intros p I Ha Hr H1 H2; [reflexivity|].
  assert (e <> ScriptLoaded) by (intros ->; apply H1; left; reflexivity).
  assert (e <> Unmount) by (intros ->; apply H2; left; reflexivity).
  simpl. rewrite IH.
  - apply step_waiting_host; assumption.
  - apply inv_step, I.
  - apply step_alive; assumption.
  - apply step_waiting; assumption.
  - intros Hin. apply H1. right. exact Hin.
  - intros Hin. apply H2. right. exact Hin.
Qed.

(** After the unmount only a late load of the script still logs. *)
Lemma step_gone_calls e p :
  inv p -> app p = None ->
  calls (host (step e p)) =
  (if event_eqb e ScriptLoaded
   then [ConsoleLog "Tailwind CSS script loaded successfully."] else []) ++
  calls (host p) /\
  title (host (step e p)) = title (host p) /\
  activeElement (host (step e p)) = activeElement (host p).
Proof.
  intros I Ha. destruct p as [oa h]. simpl in Ha. subst oa.
  unfold inv, inv_gone in I. simpl in I. destruct I as (_ & Ii & _).
  destruct e; unfold step; simpl; auto.
  unfold on_tick. rewrite Ii. auto.
Qed.

(** ** Effects and renders, counted *)

Lemma loaded_page_filter f layout :
  f (Render "DomChangeTracker") = false ->
  (forall w, f (ConsoleLog ("[LAYOUT EFFECT]: Measured new width: " +:+
                            w +:+ "px")) = false) ->
  List.filter f (calls (host (loaded_page layout))) =
  List.filter f
    (mount_demo_calls "light" 1 ++
     [Render "ThemeProvider"; Render "App";
      ConsoleLog "Tailwind CSS script loaded successfully.";
      AppendScript tailwind_src; Render "ThemeProvider"; Render "App"]).
Proof.
  intros H1 H2. unfold loaded_page.
  change (run [ScriptLoaded] (mount (fresh_host layout)))
    with (step ScriptLoaded (mount (fresh_host layout))).
  rewrite (load_filter f H1 H2 (mount (fresh_host layout)) _
             (inv_mount layout) eq_refl eq_refl).
  cbn [theme]. rewrite <- List.filter_app, <- app_assoc. reflexivity.
Qed.

(** One more event on a page that the events led to from the loaded
    page. *)
Lemma count_snoc f layout es e :
  f (Render "DomChangeTracker") = false ->
  (forall w, f (ConsoleLog ("[LAYOUT EFFECT]: Measured new width: " +:+
                            w +:+ "px")) = false) ->
  ~ In Unmount es ->
  exists a d,
    count (titleUpdater d) =
      Z.min (Z.of_nat (occurrences ClickIncrement es)) JS.MAX_EXACT /\
    count_calls f (host (run (es ++ [e]) (loaded_page layout))) =
      (length (List.filter f (event_calls e a d)) +
       count_calls f (host (run es (loaded_page layout))))%nat.
Proof.
  intros H1 H2 Hn.
  destruct (title_after_events layout es Hn) as (a & d & Ha & Hd & Hc & _).
  exists a, d. split; [exact Hc|].
  assert (I : inv (run es (loaded_page layout))).
  { apply inv_run. unfold loaded_page. apply inv_run, inv_mount. }
  rewrite run_snoc. unfold count_calls.
  rewrite (step_filter f H1 H2 e _ a d I Ha Hd), length_app. reflexivity.
Qed.

Lemma not_in_snoc (x y : event) es :
  ~ In x (es ++ [y]) -> ~ In x es /\ x <> y.
Proof.
  intros Hn. split.
  - intros Hin. apply Hn, in_or_app. left. exact Hin.
  - intros ->. apply Hn, in_or_app. right. left. reflexivity.
Qed.

Lemma add1_moves c : 0 <= c < JS.MAX_EXACT -> (JS.add1 c =? c) = false.
Proof.
  intros Hc. unfold JS.add1.
  destruct (c <? JS.MAX_EXACT) eqn:E; [apply Z.eqb_neq; lia|].
  apply Z.ltb_ge in E. lia.
Qed.

(** X2.  From the loaded page on, the title effect has written the
    document title once at the mount and once for every click that
    changed the theme or the count, and for nothing else: not for a
    toggle of the width, a focus click, a tick or a second load event.
    (The count is taken within the range where an increment changes
    it.) *)
Theorem title_written_per_change (layout : string -> Z) (es : list event) :
  ~ In Unmount es ->
  Z.of_nat (occurrences ClickIncrement es) <= JS.MAX_EXACT ->
  count_calls is_SetTitle (host (run es (loaded_page layout))) =
  (1 + occurrences ClickToggleTheme es + occurrences ClickIncrement es)%nat.
Proof.
  induction es as [|e es IH] using rev_ind; intros Hn HK.
  - rewrite run_nil. unfold count_calls.
    rewrite loaded_page_filter by reflexivity. reflexivity.
  - apply not_in_snoc in Hn. destruct Hn as [Hn He].
    rewrite !occurrences_snoc in *.
    destruct (count_snoc is_SetTitle layout es e eq_refl (fun _ => eq_refl) Hn)
      as (a & d & Hc & Hs).
    rewrite Hs. clear Hs.
    destruct e; try congruence; cbn [event_eqb] in *;
      rewrite (IH Hn) by lia; unfold event_calls; cbv zeta;
      try (cbn; lia).
    rewrite add1_moves by lia. cbn. lia.
Qed.

Lemma title_written_per_change_witness :
  ~ In Unmount [ClickToggleWidth; ClickIncrement; Tick; ClickToggleTheme;
                ClickFocus; ClickToggleWidth] /\
  count_calls is_SetTitle
    (host (run [ClickToggleWidth; ClickIncrement; Tick; ClickToggleTheme;
                ClickFocus; ClickToggleWidth] (loaded_page layout800))) = 3%nat.
Proof.
  assert (Hn : ~ In Unmount [ClickToggleWidth; ClickIncrement; Tick;
                             ClickToggleTheme; ClickFocus; ClickToggleWidth]).
  { simpl. intros [F|[F|[F|[F|[F|[F|[]]]]]]]; discriminate F. }
  split; [exact Hn|].
  apply (title_written_per_change layout800 _ Hn).
  vm_compute. discriminate.
Defined.

(** X15.  Renders are not wasted.  From the loaded page on, App has
    rendered twice (mount and load) and never again; ThemeProvider and
    ThemeToggle render again only when the theme is toggled;
    DocumentTitleUpdater renders again when the theme, the count or the
    width class changes.  Focus clicks and ticks render nothing. *)
Theorem renders_per_change (layout : string -> Z) (es : list event) :
  ~ In Unmount es ->
  Z.of_nat (occurrences ClickIncrement es) <= JS.MAX_EXACT ->
  count_calls (is_render_of "App") (host (run es (loaded_page layout))) = 2%nat /\
  count_calls (is_render_of "ThemeProvider")
    (host (run es (loaded_page layout))) =
    (2 + occurrences ClickToggleTheme es)%nat /\
  count_calls (is_render_of "ThemeToggle")
    (host (run es (loaded_page layout))) =
    (1 + occurrences ClickToggleTheme es)%nat /\
  count_calls (is_render_of "DocumentTitleUpdater")
    (host (run es (loaded_page layout))) =
    (1 + occurrences ClickToggleTheme es + occurrences ClickIncrement es +
     occurrences ClickToggleWidth es)%nat.
Proof.
  induction es as [|e es IH] using rev_ind; intros Hn HK.
  - rewrite run_nil. unfold count_calls.
    rewrite !loaded_page_filter by reflexivity. repeat split.
  - apply not_in_snoc in Hn. destruct Hn as [Hn He].
    rewrite !occurrences_snoc in *.
    destruct (count_snoc (is_render_of "App") layout es e
                eq_refl (fun _ => eq_refl) Hn) as (a1 & d1 & Hc1 & Hs1).
    destruct (count_snoc (is_render_of "ThemeProvider") layout es e
                eq_refl (fun _ => eq_refl) Hn) as (a2 & d2 & Hc2 & Hs2).
    destruct (count_snoc (is_render_of "ThemeToggle") layout es e
                eq_refl (fun _ => eq_refl) Hn) as (a3 & d3 & Hc3 & Hs3).
    destruct (count_snoc (is_render_of "DocumentTitleUpdater") layout es e
                eq_refl (fun _ => eq_refl) Hn) as (a4 & d4 & Hc4 & Hs4).
    rewrite Hs1, Hs2, Hs3, Hs4. clear Hs1 Hs2 Hs3 Hs4.
    destruct e; try congruence; cbn [event_eqb] in *;
      (destruct IH as (I1 & I2 & I3 & I4); [exact Hn | lia |]);
      rewrite I1, I2, I3, I4; unfold event_calls; cbv zeta;
      rewrite ?add1_moves by lia; cbn; repeat split; lia.
Qed.

Lemma renders_per_change_witness :
  ~ In Unmount [ClickToggleWidth; ClickIncrement; ClickToggleTheme; ClickFocus] /\
  count_calls (is_render_of "ThemeToggle")
    (host (run [ClickToggleWidth; ClickIncrement; ClickToggleTheme; ClickFocus]
             (loaded_page layout800))) = 2%nat /\
  count_calls (is_render_of "DocumentTitleUpdater")
    (host (run [ClickToggleWidth; ClickIncrement; ClickToggleTheme; ClickFocus]
             (loaded_page layout800))) = 4%nat.
Proof.
  assert (Hn : ~ In Unmount [ClickToggleWidth; ClickIncrement;
                             ClickToggleTheme; ClickFocus]).
  { simpl. intros [F|[F|[F|[F|[]]]]]; discriminate F. }
  assert (HK : Z.of_nat (occurrences ClickIncrement
                 [ClickToggleWidth; ClickIncrement; ClickToggleTheme; ClickFocus])
               <= JS.MAX_EXACT).
  { vm_compute. discriminate. }
  destruct (renders_per_change layout800 _ Hn HK) as (_ & _ & H3 & H4).
  split; [exact Hn|]. split; [exact H3 | exact H4].
Defined.

(** ** The interval callback *)

Lemma interval_log_not_title_effect c t :
  List.filter is_interval_log (title_effect_calls c t) = [].
Proof. reflexivity. Qed.

Lemma interval_logs_ready es : forall p,
  inv p -> page_demo p <> None -> ~ In Unmount es ->
  count_calls is_interval_log (host (run es p)) =
  (occurrences Tick es + count_calls is_interval_log (host p))%nat.
Proof.
  induction es as [|e es IH]; intros p I Hr Hn; [reflexivity|].
  assert (He : e <> Unmount) by (intros ->; apply Hn; left; reflexivity).
  assert (Hn' : ~ In Unmount es) by (intros Hin; apply Hn; right; exact Hin).
  unfold page_demo in Hr.
  destruct (app p) as [a|] eqn:Ha; [|congruence].
  destruct (demo a) as [d|] eqn:Hd; [|congruence].
  destruct (step_ready e p a d I Ha Hd He) as (a' & d' & Ha' & Hd' & _).
  change (run (e :: es) p) with (run es (step e p)).
  rewrite IH; [|apply inv_step, I | unfold page_demo; rewrite Ha', Hd';
                 discriminate | exact Hn'].
  unfold count_calls at 1.
  rewrite (step_filter is_interval_log eq_refl (fun _ => eq_refl) e p a d I Ha Hd).
  rewrite length_app. fold (count_calls is_interval_log (host p)).
  unfold occurrences. cbn [List.filter].
  destruct e; try congruence; unfold event_calls; cbv zeta;
    cbn [event_eqb length];
    try destruct (JS.add1 (count (titleUpdater d)) =? count (titleUpdater d));
    rewrite ?List.filter_app, ?interval_log_not_title_effect; cbn; lia.
Qed.

Lemma gone_run es : forall p,
  inv p -> app p = None ->
  app (run es p) = None /\
  title (host (run es p)) = title (host p) /\
  count_calls is_interval_log (host (run es p)) =
    count_calls is_interval_log (host p).
Proof.
  induction es as [|e es IH]; intros p I Ha; [auto|].
  change (run (e :: es) p) with (run es (step e p)).
  destruct (step_gone e p Ha) as (Ha' & _).
  destruct (step_gone_calls e p I Ha) as (Hc & Ht & _).
  destruct (IH (step e p) (inv_step e p I) Ha') as (Ha'' & Ht' & Hl').
  repeat split; [exact Ha'' | congruence |].
  rewrite Hl'. unfold count_calls. rewrite Hc, List.filter_app, length_app.
  destruct (event_eqb e ScriptLoaded); reflexivity.
Qed.

(** X4.  The interval callback logs its line once per tick while the
    counter is mounted, and at no other time: no tick before the script
    has loaded and no tick after the root is unmounted logs anything. *)
Theorem interval_logs_while_mounted (layout : string -> Z)
  (before during after : list event) :
  ~ In Unmount before -> ~ In ScriptLoaded before -> ~ In Unmount during ->
  count_calls is_interval_log
    (host (run (before ++ ScriptLoaded :: during ++ Unmount :: after)
             (mount (fresh_host layout)))) =
  occurrences Tick during.
Proof.
  intros Hb Hl Hd.
  set (p0 := mount (fresh_host layout)).
  assert (I0 : inv p0) by apply inv_mount.
  assert (Iw : inv (run before p0)) by apply inv_run, I0.
  assert (Aw : app (run before p0) <> None).
  { apply run_alive; [exact I0 | exact Hb | discriminate]. }
  assert (Rw : page_demo (run before p0) = None).
  { apply run_waiting; auto; discriminate. }
  assert (Hw : host (run before p0) = host p0).
  { apply run_waiting_host; auto; discriminate. }
  set (pl := step ScriptLoaded (run before p0)).
  assert (Il : inv pl) by apply inv_step, Iw.
  assert (Rl : page_demo pl <> None) by (apply load_ready; assumption).
  assert (Cl : count_calls is_interval_log (host pl) = 0%nat).
  { unfold page_demo in Rw.
    destruct (app (run before p0)) as [a|] eqn:Ha; [|congruence].
    unfold count_calls, pl.
    rewrite (load_filter is_interval_log eq_refl (fun _ => eq_refl)
               _ a Iw Ha Rw), Hw.
    reflexivity. }
  set (pd := run during pl).
  assert (Id : inv pd) by apply inv_run, Il.
  assert (Rd : page_demo pd <> None) by (apply run_stays_ready; assumption).
  assert (Cd : count_calls is_interval_log (host pd) = occurrences Tick during).
  { unfold pd. rewrite interval_logs_ready by assumption. lia. }
  assert (Cu : count_calls is_interval_log (host (step Unmount pd)) =
               occurrences Tick during).
  { unfold page_demo in Rd.
    destruct (app pd) as [a|] eqn:Ha; [|congruence].
    destruct (demo a) as [d|] eqn:Hdm; [|congruence].
    unfold count_calls.
    rewrite (step_filter is_interval_log eq_refl (fun _ => eq_refl)
               Unmount pd a d Id Ha Hdm).
    rewrite length_app. fold (count_calls is_interval_log (host pd)).
    rewrite Cd. reflexivity. }
  destruct (unmount_ready pd Id Rd) as (Ua & _).
  destruct (gone_run after (step Unmount pd) (inv_step _ _ Id) Ua)
    as (_ & _ & Cg).
  replace (run (before ++ ScriptLoaded :: during ++ Unmount :: after) p0)
    with (run after (step Unmount pd)).
  - rewrite Cg. exact Cu.
  - unfold pd, pl. rewrite run_app.
    change (run (ScriptLoaded :: during ++ Unmount :: after) (run before p0))
      with (run (during ++ Unmount :: after)
              (step ScriptLoaded (run before p0))).
    rewrite run_app. reflexivity.
Qed.

Lemma interval_logs_while_mounted_witness :
  ~ In Unmount [Tick; Tick] /\ ~ In ScriptLoaded [Tick; Tick] /\
  ~ In Unmount [Tick; ClickIncrement; Tick; Tick] /\
  count_calls is_interval_log
    (host (run ([Tick; Tick] ++ ScriptLoaded ::
                [Tick; ClickIncrement; Tick; Tick] ++ Unmount :: [Tick; Tick])
             (mount (fresh_host layout800)))) = 3%nat.
Proof.
  assert (Hb : ~ In Unmount [Tick; Tick]).
  { simpl. intros [F|[F|[]]]; discriminate F. }
  assert (Hl : ~ In ScriptLoaded [Tick; Tick]).
  { simpl. intros [F|[F|[]]]; discriminate F. }
  assert (Hd : ~ In Unmount [Tick; ClickIncrement; Tick; Tick]).
  { simpl. intros [F|[F|[F|[F|[]]]]]; discriminate F. }
  split; [exact Hb|]. split; [exact Hl|]. split; [exact Hd|].
  exact (interval_logs_while_mounted layout800 _ _ [Tick; Tick] Hb Hl Hd).
Defined.

(** ** The document title after the unmount *)

(** X13.  No cleanup restores the document title: after the root is
    unmounted, and whatever happens then, the title is still the one the
    title effect wrote last. *)
Theorem title_survives_unmount (layout : string -> Z)
  (es after : list event) :
  ~ In Unmount es ->
  exists count mode,
    page_count (run es (loaded_page layout)) = Some count /\
    page_theme (run es (loaded_page layout)) = Some mode /\
    mounted_components (run (es ++ Unmount :: after) (loaded_page layout)) = [] /\
    title (host (run (es ++ Unmount :: after) (loaded_page layout))) =
      "Count: " +:+ JS.number_to_string count +:+ " | Theme: " +:+ mode.
Proof.
  intros Hn.
  destruct (title_after_events layout es Hn) as (a & d & Ha & Hd & _ & Ht).
  set (p := run es (loaded_page layout)) in *.
  assert (I : inv p).
  { unfold p. apply inv_run. unfold loaded_page. apply inv_run, inv_mount. }
  assert (R : page_demo p <> None).
  { unfold page_demo. rewrite Ha, Hd. discriminate. }
  destruct (unmount_ready p I R) as (Ua & _).
  destruct (gone_run after (step Unmount p) (inv_step _ _ I) Ua)
    as (Ga & Gt & _).
  exists (count (titleUpdater d)), (theme a).
  rewrite run_app. fold p.
  change (run (Unmount :: after) p) with (run after (step Unmount p)).
  unfold page_count, page_theme, page_demo, mounted_components.
  rewrite Ha, Hd, Ga, Gt. repeat split.
  transitivity (title (host p)); [|exact Ht].
  clearbody p. destruct p as [oa h]. simpl in Ha. subst oa.
  unfold step. simpl app. cbv beta iota. unfold on_unmount. rewrite Hd.
  reflexivity.
Qed.

Lemma title_survives_unmount_witness :
  ~ In Unmount [ClickIncrement; ClickToggleTheme] /\
  title (host (run ([ClickIncrement; ClickToggleTheme] ++
                    Unmount :: [Tick; ScriptLoaded])
                 (loaded_page layout800))) = "Count: 1 | Theme: dark".
Proof.
  assert (Hn : ~ In Unmount [ClickIncrement; ClickToggleTheme]).
  { simpl. intros [F|[F|[]]]; discriminate F. }
  split; [exact Hn|].
  destruct (title_survives_unmount layout800 _ [Tick; ScriptLoaded] Hn)
    as (c & m & Hc & Hm & _ & Ht).
  vm_compute in Hc. vm_compute in Hm.
  injection Hc as <-. injection Hm as <-. exact Ht.
Defined.

(** ** The measured width *)

Lemma layout_deps_differ_false a old :
  layout_deps_differ (Some a) old = false <-> old = Some a.
Proof.
  unfold layout_deps_differ. destruct old as [b|]; [|split; discriminate].
  destruct (a =? b) eqn:E; simpl.
  - apply Z.eqb_eq in E. subst. split; reflexivity.
  - apply Z.eqb_neq in E. split; [discriminate|]. intros F. congruence.
Qed.

Lemma offsetWidth_quiet h h' : quiet h h' -> offsetWidth h' = offsetWidth h.
Proof.
  intros (_ & _ & _ & _ & _ & Hw & Hb & _). unfold offsetWidth.
  rewrite Hw, Hb. reflexivity.
Qed.

Lemma flush_sync_same fuel w t h :
  width t = w -> flush_sync fuel w t h = (t, h).
Proof.
  intros E. destruct fuel; [reflexivity|]. simpl.
  rewrite E, Z.eqb_refl. reflexivity.
Qed.

Lemma tracker_rerender_width t h el :
  boxRef t = Some el -> width t = offsetWidth h ->
  width (fst (tracker_rerender t h)) = offsetWidth h.
Proof.
  intros Hb Hw. unfold tracker_rerender, tracker_commit.
  destruct (layout_deps_differ _ _); [|exact Hw].
  rewrite Hb. reflexivity.
Qed.

(** Once the stored width is that of the box, the re-renders that
    [setWidth] asks for leave it there. *)
Lemma flush_sync_width fuel : forall w t h el,
  boxRef t = Some el -> width t = offsetWidth h ->
  width (fst (flush_sync fuel w t h)) = offsetWidth h.
Proof.
  induction fuel as [|fuel IH]; intros w t h el Hb Hw; simpl; [exact Hw|].
  destruct (width t =? w); [exact Hw|].
  pose proof (tracker_rerender_width t h el Hb Hw) as W.
  pose proof (boxRef_tracker_rerender t h) as B.
  pose proof (offsetWidth_quiet _ _ (quiet_tracker_rerender t h)) as O.
  destruct (tracker_rerender t h) as [t' h']. simpl in W, B, O.
  rewrite (IH (width t) t' h' el); congruence.
Qed.

(** The tracker after a re-render of DocumentTitleUpdater that moves the
    wrapper from class [cls] to class [cw]: either the layout effect ran
    and stored the width of the new box, or the dependency list was the
    one of the previous commit and nothing was measured. *)
Lemma rerender_width theme c cw s h cls :
  boxRef (tracker s) = Some TrackedBox -> wrapper_class h = Some cls ->
  let r := rerender_DocumentTitleUpdater theme c cw s h in
  offsetWidth (snd r) = box_width h cw /\
  ((layout_deps (tracker s) <> Some (box_width h cls) /\
    width (tracker (fst r)) = box_width h cw) \/
   (layout_deps (tracker s) = Some (box_width h cls) /\
    width (tracker (fst r)) = width (tracker s) /\
    layout_deps (tracker (fst r)) = Some (box_width h cls))).
Proof.
  intros Hb Hw r.
  destruct (rerender_spec theme c cw s h) as (_ & (_ & _ & _ & _ & Fb & _) & Fw & _).
  fold r in Fb, Fw.
  split; [unfold offsetWidth; rewrite Fw, Fb; reflexivity|].
  unfold r, rerender_DocumentTitleUpdater. rewrite Hb.
  set (h1 := record (Render "DomChangeTracker")
               (record (Render "DocumentTitleUpdater") h)).
  assert (D : layout_deps_of (Some TrackedBox) h1 = Some (box_width h cls)).
  { unfold layout_deps_of, offsetWidth, h1. simpl. rewrite Hw. reflexivity. }
  rewrite D.
  set (h2 := commit_wrapper (Some cw) h1).
  assert (O2 : offsetWidth h2 = box_width h cw) by reflexivity.
  destruct (layout_deps_differ (Some (box_width h cls))
              (layout_deps (tracker s))) eqn:E.
  - left. split.
    { intros F. apply layout_deps_differ_false in F. congruence. }
    unfold tracker_commit. rewrite Hb. cbn [layout_effect default].
    set (h3 := console_log _ h2).
    set (h4 := if title_deps_differ (c, theme) (title_deps s)
               then title_effect c theme h3 else h3).
    assert (O4 : offsetWidth h4 = box_width h cw).
    { unfold h4. destruct (title_deps_differ _ _); exact O2. }
    pose proof (flush_sync_width NESTED_UPDATE_LIMIT (width (tracker s))
                  (mkTracker (Some TrackedBox) (offsetWidth h2)
                     (Some (box_width h cls))) h4 TrackedBox eq_refl) as W.
    cbn [width] in W. rewrite O2, O4 in W. specialize (W eq_refl).
    rewrite O2. destruct (flush_sync _ _ _ h4) as [t5 h5]. exact W.
  - right. apply layout_deps_differ_false in E. split; [exact E|].
    unfold tracker_commit.
    match goal with
    | |- context [flush_sync ?fu ?w ?t ?hh] =>
        rewrite (flush_sync_same fu w t hh) by reflexivity
    end.
    split; reflexivity.
Qed.

Lemma mount_demo_width ctx h :
  width (tracker (titleUpdater (fst (mount_demo ctx h)))) =
    box_width h "w-full" /\
  offsetWidth (snd (mount_demo ctx h)) = box_width h "w-full".
Proof.
  destruct (mount_demo_spec ctx h) as (_ & (_ & _ & _ & _ & Fb & _) & Fw & _).
  split; [|unfold offsetWidth; rewrite Fw, Fb; reflexivity].
  clear Fb Fw. unfold mount_demo.
  set (h1 := record (Render "DomChangeTracker")
               (record (Render "DocumentTitleUpdater")
                  (record (Render "ThemeToggle") h))).
  set (h2 := commit_wrapper (Some "w-full") h1).
  assert (O2 : offsetWidth h2 = box_width h "w-full") by reflexivity.
  unfold tracker_commit. cbn [boxRef layout_effect default width].
  set (h3 := console_log _ h2).
  unfold interval_effect, setInterval. cbv zeta.
  match goal with
  | |- context [flush_sync ?fu ?w ?t ?hh] =>
      pose proof (flush_sync_width fu w t hh TrackedBox eq_refl) as W;
      destruct (flush_sync fu w t hh) as [t5 h5]
  end.
  cbn [width fst] in W. cbn [fst titleUpdater tracker].
  rewrite W by reflexivity. exact O2.
Qed.

(** The tracker of a page whose subtree is mounted, after one more
    event. *)
Lemma step_tracker e p a d :
  inv p -> inv_tracker p -> app p = Some a -> demo a = Some d ->
  e <> Unmount ->
  inv_tracker (step e p) /\
  (e = ClickToggleTheme \/
   (e = ClickIncrement /\
    (JS.add1 (count (titleUpdater d)) =? count (titleUpdater d)) = false) ->
   page_width (step e p) = Some (offsetWidth (host (step e p)))).
Proof.
  intros I T Ha Hd He. destruct p as [oa h]. simpl in Ha. subst oa.
  unfold inv_tracker, page_demo in T. simpl in T. rewrite Hd in T.
  unfold inv, inv_mounted in I. simpl in I. rewrite Hd in I.
  destruct I as (_ & _ & _ & _ & _ & Il & _ & _ & _ & _ & Ib & _ & _ & Iw).
  assert (O : offsetWidth h = box_width h (customWidth (titleUpdater d))).
  { unfold offsetWidth. rewrite Iw. reflexivity. }
  assert (Same : forall theme c h0,
            wrapper_class h0 = wrapper_class h -> box_width h0 = box_width h ->
            let r := rerender_DocumentTitleUpdater theme c
                       (customWidth (titleUpdater d)) (titleUpdater d) h0 in
            width (tracker (fst r)) = offsetWidth (snd r)).
  { intros theme c h0 E1 E2 r.
    destruct (rerender_width theme c (customWidth (titleUpdater d))
                (titleUpdater d) h0 (customWidth (titleUpdater d)) Ib)
      as (Or & [(_ & W)|(D & W & _)]); [congruence | | ]; fold r in Or, W |- *.
    - congruence.
    - rewrite W, Or. rewrite E2 in D |- *.
      destruct T as [T|T]; [congruence | rewrite O in T; congruence]. }
  destruct e; try congruence; unfold step; simpl app; simpl host;
    cbv beta iota; rewrite ?Hd; cbv beta iota.
  - (* ScriptLoaded *)
    unfold on_script_loaded. simpl app. cbv beta iota. rewrite Il.
    split; [|intros [F|[F _]]; discriminate F].
    unfold inv_tracker, page_demo. simpl. rewrite Hd. exact T.
  - (* ClickToggleTheme *)
    rewrite on_toggle_theme_eq. cbv zeta.
    pose proof (Same (AppJs.toggleTheme_updater (theme a))
                  (count (titleUpdater d))
                  (record (Render "ThemeToggle")
                     (record (Render "ThemeProvider") h))
                  eq_refl eq_refl) as W.
    cbv zeta in W.
    split; [|intros _]; unfold inv_tracker, page_width, page_demo,
      tracker_settles; cbn [app demo host titleUpdater];
      [left; exact W | f_equal; exact W].
  - (* ClickFocus *)
    split; [|intros [F|[F _]]; discriminate F].
    unfold inv_tracker, page_demo. simpl. rewrite Hd.
    destruct (buttonRef (themeToggle d)); exact T.
  - (* ClickIncrement *)
    rewrite on_increment_eq. cbv zeta.
    destruct (JS.add1 (count (titleUpdater d)) =? count (titleUpdater d))
      eqn:E.
    + split; [|intros [F|[_ F]]; discriminate F].
      unfold inv_tracker, page_demo. simpl. rewrite Hd. exact T.
    + pose proof (Same (theme a) (JS.add1 (count (titleUpdater d))) h
                    eq_refl eq_refl) as W.
      cbv zeta in W.
      split; [|intros _]; unfold inv_tracker, page_width, page_demo,
        tracker_settles; cbn [app demo host titleUpdater];
        [left; exact W | f_equal; exact W].
  - (* ClickToggleWidth *)
    split; [|intros [F|[F _]]; discriminate F].
    rewrite on_toggle_width_eq. cbv zeta.
    destruct (rerender_width (theme a) (count (titleUpdater d))
                (toggleWidth_updater (customWidth (titleUpdater d)))
                (titleUpdater d) h (customWidth (titleUpdater d)) Ib Iw)
      as (Or & [(_ & W)|(D & W & D')]);
      unfold inv_tracker, page_demo, tracker_settles;
      cbn [app demo host titleUpdater]; rewrite Or.
    + left. exact W.
    + rewrite W, D'.
      destruct T as [T|T]; [|rewrite O in T; congruence].
      rewrite T, O.
      destruct (Z.eq_dec (box_width h (customWidth (titleUpdater d)))
                  (box_width h (toggleWidth_updater
                                  (customWidth (titleUpdater d)))))
        as [Eq|Ne]; [left; exact Eq | right; congruence].
  - (* Tick *)
    split; [|intros [F|[F _]]; discriminate F].
    unfold inv_tracker, page_demo. simpl. rewrite Hd.
    unfold tracker_settles.
    rewrite (offsetWidth_quiet _ _ (quiet_on_tick h)). exact T.
Qed.

Lemma inv_tracker_run layout es :
  ~ In Unmount es -> inv_tracker (run es (loaded_page layout)).
Proof.
  induction es as [|e es IH] using rev_ind; intros Hn.
  - rewrite run_nil. unfold loaded_page.
    change (run [ScriptLoaded] (mount (fresh_host layout)))
      with (step ScriptLoaded (mount (fresh_host layout))).
    unfold step.
    rewrite (on_script_loaded_eq (mount (fresh_host layout)) _ eq_refl eq_refl).
    cbv zeta. unfold inv_tracker, page_demo, tracker_settles.
    cbn [app demo host].
    match goal with
    | |- context [mount_demo ?c ?hh] =>
        destruct (mount_demo_width c hh) as (W & O)
    end.
    left. congruence.
  - apply not_in_snoc in Hn. destruct Hn as [Hn He].
    destruct (run_ready layout es Hn) as (a & d & Ha & Hd & _).
    rewrite run_snoc.
    apply (step_tracker e _ a d); auto.
    apply inv_run. unfold loaded_page. apply inv_run, inv_mount.
Qed.

(** X3.  The measured width lags by one render at most.  After the load,
    and after every click that toggles the theme or changes the count,
    the stored width is the width of the committed box, whatever the
    layout and whatever happened before, toggles of the width
    included. *)
Theorem width_fresh_after_theme_or_count (layout : string -> Z)
  (es : list event) :
  ~ In Unmount es ->
  page_width (loaded_page layout) = Some (layout "w-full") /\
  page_width (run (es ++ [ClickToggleTheme]) (loaded_page layout)) =
    Some (offsetWidth (host (run (es ++ [ClickToggleTheme])
                               (loaded_page layout)))) /\
  (Z.of_nat (occurrences ClickIncrement es) < JS.MAX_EXACT ->
   page_width (run (es ++ [ClickIncrement]) (loaded_page layout)) =
     Some (offsetWidth (host (run (es ++ [ClickIncrement])
                                (loaded_page layout))))).
Proof.
  intros Hn.
  assert (I : inv (run es (loaded_page layout))).
  { apply inv_run. unfold loaded_page. apply inv_run, inv_mount. }
  pose proof (inv_tracker_run layout es Hn) as T.
  destruct (title_after_events layout es Hn) as (a & d & Ha & Hd & Hc & _).
  split; [|split].
  - unfold loaded_page.
    change (run [ScriptLoaded] (mount (fresh_host layout)))
      with (step ScriptLoaded (mount (fresh_host layout))).
    unfold step.
    rewrite (on_script_loaded_eq (mount (fresh_host layout)) _ eq_refl eq_refl).
    cbv zeta. unfold page_width, page_demo. cbn [app demo].
    match goal with
    | |- context [mount_demo ?c ?hh] =>
        destruct (mount_demo_width c hh) as (W & _)
    end.
    rewrite W. reflexivity.
  - rewrite run_snoc.
    apply (step_tracker ClickToggleTheme _ a d I T Ha Hd); [discriminate|].
    left. reflexivity.
  - intros HK. rewrite run_snoc.
    apply (step_tracker ClickIncrement _ a d I T Ha Hd); [discriminate|].
    right. split; [reflexivity|]. apply add1_moves. lia.
Qed.

Lemma width_fresh_after_theme_or_count_witness :
  ~ In Unmount [ClickToggleWidth] /\
  page_width (run [ClickToggleWidth] (loaded_page layout800)) = Some 800 /\
  page_width (run ([ClickToggleWidth] ++ [ClickToggleTheme])
                (loaded_page layout800)) = Some 400 /\
  page_width (run ([ClickToggleWidth] ++ [ClickIncrement])
                (loaded_page layout800)) = Some 400.
Proof.
  assert (Hn : ~ In Unmount [ClickToggleWidth]).
  { simpl. intros [F|[]]; discriminate F. }
  destruct (width_fresh_after_theme_or_count layout800 _ Hn) as (_ & Ht & Hi).
  split; [exact Hn|]. split; [vm_compute; reflexivity|].
  split.
  - rewrite Ht. vm_compute. reflexivity.
  - rewrite Hi; [vm_compute; reflexivity | vm_compute; reflexivity].
Defined.

(** ** Focus, double toggles, the width class and the counter *)

(** X5.  Wherever the events have led, a click on "Focus Button" lands on
    the toggle button whenever the button is there to be clicked: its ref
    is attached as long as the subtree is mounted, so the guard of
    [handleFocus] never fails then.  While only the placeholder is shown,
    and after the unmount, the click does nothing. *)
Theorem focus_click_reaches_button (layout : string -> Z) (es : list event) :
  host (step ClickFocus (run es (mount (fresh_host layout)))) =
    match page_demo (run es (mount (fresh_host layout))) with
    | Some _ => focus ToggleThemeButton (host (run es (mount (fresh_host layout))))
    | None => host (run es (mount (fresh_host layout)))
    end /\
  app (step ClickFocus (run es (mount (fresh_host layout)))) =
    app (run es (mount (fresh_host layout))).
Proof.
  assert (I : inv (run es (mount (fresh_host layout))))
    by apply inv_run, inv_mount.
  destruct (run es (mount (fresh_host layout))) as [[a|] h];
    [|split; reflexivity].
  unfold page_demo, step. simpl app. simpl host. cbv beta iota.
  unfold inv, inv_mounted in I. simpl in I.
  destruct (demo a) as [d|]; [|split; reflexivity].
  destruct I as (_ & _ & _ & _ & _ & _ & _ & _ & _ & Itg & _).
  rewrite Itg. split; reflexivity.
Qed.

Lemma toggle_twice_theme t :
  t = "light" \/ t = "dark" ->
  AppJs.toggleTheme_updater (AppJs.toggleTheme_updater t) = t.
Proof. intros [-> | ->]; reflexivity. Qed.

Lemma iter_two_valued n :
  Nat.iter n AppJs.toggleTheme_updater AppJs.initial_theme = "light" \/
  Nat.iter n AppJs.toggleTheme_updater AppJs.initial_theme = "dark".
Proof.
  unfold AppJs.initial_theme. rewrite toggle_iter_from_light.
  destruct (Nat.even n); auto.
Qed.

Lemma toggleWidth_iter (n : nat) :
  Nat.iter n toggleWidth_updater "w-full" =
  if Nat.even n then "w-full" else "w-1/2".
Proof.
  induction n as [|n IH]; [reflexivity|].
  rewrite Nat.even_succ, <- Nat.negb_even. simpl Nat.iter. rewrite IH.
  destruct (Nat.even n); reflexivity.
Qed.

Lemma occurrences_app e es es' :
  occurrences e (es ++ es') = (occurrences e es + occurrences e es')%nat.
Proof. unfold occurrences. rewrite List.filter_app, length_app. reflexivity. Qed.

(** X1.  Two clicks in a row on "Toggle Theme" bring back the theme and
    the document title that were there before, and two clicks in a row
    on "Toggle Width" the width class; the count is not touched by
    either. *)
Theorem double_toggle_restores (layout : string -> Z) (es : list event) :
  ~ In Unmount es ->
  (page_theme (run (es ++ [ClickToggleTheme; ClickToggleTheme])
                 (loaded_page layout)) =
     page_theme (run es (loaded_page layout)) /\
   title (host (run (es ++ [ClickToggleTheme; ClickToggleTheme])
                  (loaded_page layout))) =
     title (host (run es (loaded_page layout))) /\
   page_count (run (es ++ [ClickToggleTheme; ClickToggleTheme])
                 (loaded_page layout)) =
     page_count (run es (loaded_page layout))) /\
  (page_customWidth (run (es ++ [ClickToggleWidth; ClickToggleWidth])
                       (loaded_page layout)) =
     page_customWidth (run es (loaded_page layout)) /\
   page_count (run (es ++ [ClickToggleWidth; ClickToggleWidth])
                 (loaded_page layout)) =
     page_count (run es (loaded_page layout))).
Proof.
  intros Hn.
  assert (Hn1 : ~ In Unmount (es ++ [ClickToggleTheme; ClickToggleTheme])).
  { intros Hin. apply in_app_or in Hin. destruct Hin as [Hin|Hin];
      [exact (Hn Hin)|]. simpl in Hin. destruct Hin as [F|[F|[]]]; discriminate F. }
  assert (Hn2 : ~ In Unmount (es ++ [ClickToggleWidth; ClickToggleWidth])).
  { intros Hin. apply in_app_or in Hin. destruct Hin as [Hin|Hin];
      [exact (Hn Hin)|]. simpl in Hin. destruct Hin as [F|[F|[]]]; discriminate F. }
  destruct (run_ready layout es Hn) as (a & d & Ha & Hd & Ht & Hc & Hw).
  destruct (run_ready layout _ Hn1) as (a1 & d1 & Ha1 & Hd1 & Ht1 & Hc1 & _).
  destruct (run_ready layout _ Hn2) as (a2 & d2 & Ha2 & Hd2 & _ & Hc2 & Hw2).
  destruct (title_after_events layout es Hn) as (a' & d' & Ha' & Hd' & _ & Hti).
  destruct (title_after_events layout _ Hn1)
    as (a1' & d1' & Ha1' & Hd1' & _ & Hti1).
  rewrite Ha in Ha'. injection Ha' as <-. rewrite Hd in Hd'. injection Hd' as <-.
  rewrite Ha1 in Ha1'. injection Ha1' as <-.
  rewrite Hd1 in Hd1'. injection Hd1' as <-.
  rewrite !occurrences_app in *. cbn [occurrences List.filter event_eqb length]
    in *. rewrite !Nat.add_0_r in *.
  assert (E1 : theme a1 = theme a).
  { rewrite Ht1, Ht, Nat.add_comm. simpl Nat.iter.
    apply toggle_twice_theme, iter_two_valued. }
  assert (E2 : count (titleUpdater d1) = count (titleUpdater d))
    by congruence.
  assert (E3 : customWidth (titleUpdater d2) = customWidth (titleUpdater d)).
  { rewrite Hw2, Hw, !toggleWidth_iter, Nat.add_comm.
    change (Nat.even (2 + occurrences ClickToggleWidth es))
      with (Nat.even (occurrences ClickToggleWidth es)). reflexivity. }
  unfold page_theme, page_count, page_customWidth, page_demo.
  rewrite Ha, Ha1, Ha2, Hd, Hd1, Hd2, Hti, Hti1, E1, E2, E3.
  repeat split; congruence.
Qed.

Lemma double_toggle_restores_witness :
  ~ In Unmount [ClickToggleTheme; ClickIncrement] /\
  page_theme (run ([ClickToggleTheme; ClickIncrement] ++
                   [ClickToggleTheme; ClickToggleTheme])
                (loaded_page layout800)) = Some "dark" /\
  title (host (run ([ClickToggleTheme; ClickIncrement] ++
                    [ClickToggleTheme; ClickToggleTheme])
                 (loaded_page layout800))) = "Count: 1 | Theme: dark".
Proof.
  assert (Hn : ~ In Unmount [ClickToggleTheme; ClickIncrement]).
  { simpl. intros [F|[F|[]]]; discriminate F. }
  destruct (double_toggle_restores layout800 _ Hn) as ((Ht & Hti & _) & _).
  split; [exact Hn|]. split.
  - rewrite Ht. vm_compute. reflexivity.
  - rewrite Hti. vm_compute. reflexivity.
Defined.

Lemma step_box_width e p : box_width (host (step e p)) = box_width (host p).
Proof.
  assert (R : forall t c w s hh,
            box_width (snd (rerender_DocumentTitleUpdater t c w s hh)) =
            box_width hh).
  { intros t c w s hh.
    destruct (rerender_spec t c w s hh) as (_ & (_ & _ & _ & _ & F & _) & _).
    exact F. }
  assert (L : forall q, box_width (host (on_script_loaded q)) =
                        box_width (host q)).
  { intros [[a|] h]; unfold on_script_loaded; simpl app; cbv beta iota;
      [|reflexivity].
    destruct (isTailwindLoaded a); [reflexivity|].
    unfold ThemeProvider.
    match goal with
    | |- context [mount_demo ?c ?hh] =>
        destruct (mount_demo_spec c hh) as (_ & (_ & _ & _ & _ & F & _) & _);
        destruct (mount_demo c hh)
    end.
    exact F. }
  assert (K : forall h, box_width (on_tick h) = box_width h).
  { intros h. destruct (quiet_on_tick h) as (_ & _ & _ & _ & _ & _ & Q & _).
    exact Q. }
  destruct e; unfold step; try apply L; try apply K.
  all: destruct p as [[a|] h]; simpl app; simpl host; cbv beta iota;
    try reflexivity.
  all: try (unfold on_unmount; destruct (demo a); reflexivity).
  all: destruct (demo a) as [d|]; try reflexivity.
  - rewrite on_toggle_theme_eq. cbv zeta. cbn [host]. rewrite R. reflexivity.
  - destruct (buttonRef (themeToggle d)); reflexivity.
  - rewrite on_increment_eq. cbv zeta.
    destruct (JS.add1 _ =? _); [reflexivity | cbn [host]; apply R].
  - rewrite on_toggle_width_eq. cbv zeta. cbn [host]. apply R.
Qed.

Lemma run_box_width es : forall p,
  box_width (host (run es p)) = box_width (host p).
Proof.
  induction es as [|e es IH]; intros p; [reflexivity|].
  simpl. rewrite IH. apply step_box_width.
Qed.

(** X6.  The width class is 'w-full' after an even number of clicks on
    "Toggle Width" and 'w-1/2' after an odd number, whatever else was
    clicked in between; the committed wrapper carries that class, so the
    tracked box always has the width the layout gives to the current
    class. *)
Theorem width_class_parity (layout : string -> Z) (es : list event) :
  ~ In Unmount es ->
  page_customWidth (run es (loaded_page layout)) =
    Some (if Nat.even (occurrences ClickToggleWidth es)
          then "w-full" else "w-1/2") /\
  wrapper_class (host (run es (loaded_page layout))) =
    page_customWidth (run es (loaded_page layout)) /\
  offsetWidth (host (run es (loaded_page layout))) =
    layout (if Nat.even (occurrences ClickToggleWidth es)
            then "w-full" else "w-1/2").
Proof.
  intros Hn.
  destruct (run_ready layout es Hn) as (a & d & Ha & Hd & _ & _ & Hw).
  assert (I : inv (run es (loaded_page layout))).
  { apply inv_run. unfold loaded_page. apply inv_run, inv_mount. }
  unfold inv in I. rewrite Ha in I. unfold inv_mounted in I. rewrite Hd in I.
  destruct I as (_ & _ & _ & _ & _ & _ & _ & _ & _ & _ & _ & _ & _ & Iw).
  rewrite toggleWidth_iter in Hw.
  unfold page_customWidth, page_demo, offsetWidth.
  rewrite Ha, Hd, Iw, Hw.
  unfold loaded_page. rewrite !run_box_width.
  repeat split.
Qed.

Lemma width_class_parity_witness :
  ~ In Unmount [ClickToggleWidth; ClickIncrement; ClickToggleWidth;
                ClickToggleWidth] /\
  page_customWidth
    (run [ClickToggleWidth; ClickIncrement; ClickToggleWidth; ClickToggleWidth]
       (loaded_page layout800)) = Some "w-1/2" /\
  offsetWidth
    (host (run [ClickToggleWidth; ClickIncrement; ClickToggleWidth;
                ClickToggleWidth] (loaded_page layout800))) = 400.
Proof.
  assert (Hn : ~ In Unmount [ClickToggleWidth; ClickIncrement;
                             ClickToggleWidth; ClickToggleWidth]).
  { simpl. intros [F|[F|[F|[F|[]]]]]; discriminate F. }
  destruct (width_class_parity layout800 _ Hn) as (Hc & _ & Ho).
  split; [exact Hn|]. split; [exact Hc | exact Ho].
Defined.

(** X14.  The count never goes down and never leaves the range from 0 to
    2^53: further events raise it by at most the number of clicks on
    "Increment Count" among them, and by exactly that number while the
    total stays within 2^53. *)
Theorem count_monotone_and_bounded (layout : string -> Z)
  (es more : list event) :
  ~ In Unmount (es ++ more) ->
  exists c c',
    page_count (run es (loaded_page layout)) = Some c /\
    page_count (run (es ++ more) (loaded_page layout)) = Some c' /\
    0 <= c <= c' /\ c' <= JS.MAX_EXACT /\
    c' - c <= Z.of_nat (occurrences ClickIncrement more) /\
    (Z.of_nat (occurrences ClickIncrement (es ++ more)) <= JS.MAX_EXACT ->
     c' - c = Z.of_nat (occurrences ClickIncrement more)).
Proof.
  intros Hn.
  assert (Hn1 : ~ In Unmount es).
  { intros Hin. apply Hn, in_or_app. left. exact Hin. }
  destruct (title_after_events layout es Hn1) as (a & d & Ha & Hd & Hc & _).
  destruct (title_after_events layout _ Hn) as (a' & d' & Ha' & Hd' & Hc' & _).
  exists (count (titleUpdater d)), (count (titleUpdater d')).
  unfold page_count, page_demo. rewrite Ha, Hd, Ha', Hd'.
  rewrite occurrences_app in Hc' |- *.
  assert (HM : 0 <= JS.MAX_EXACT) by (vm_compute; discriminate).
  repeat split; try lia.
Qed.

Lemma count_monotone_and_bounded_witness :
  ~ In Unmount ([ClickIncrement] ++ [ClickToggleTheme; ClickIncrement]) /\
  page_count (run ([ClickIncrement] ++ [ClickToggleTheme; ClickIncrement])
                (loaded_page layout800)) = Some 2.
Proof.
  assert (Hn : ~ In Unmount
                 ([ClickIncrement] ++ [ClickToggleTheme; ClickIncrement])).
  { simpl. intros [F|[F|[F|[]]]]; discriminate F. }
  split; [exact Hn|].
  destruct (count_monotone_and_bounded layout800 _ _ Hn)
    as (c & c' & Hc & Hc' & _ & _ & _ & He).
  rewrite Hc'. f_equal.
  vm_compute in Hc. injection Hc as <-.
  assert (HK : Z.of_nat (occurrences ClickIncrement
                 ([ClickIncrement] ++ [ClickToggleTheme; ClickIncrement]))
               <= JS.MAX_EXACT) by (vm_compute; discriminate).
  specialize (He HK). vm_compute in He. 
  change (c' - 1 = 1) in He. lia.
Defined.

(** ** More on the scaffolding script *)

Module ShExtraFacts.
Import Sh ShExtra ShFacts.

Lemma failures_created_not_by_sed fs ds :
  List.filter (fun f => negb (by_sed f)) (failures_created fs ds) =
  failures_created fs ds.
Proof.
  unfold failures_created, mkdir_failures, redirect_failures.
  repeat case_bool_decide; repeat case_match; reflexivity.
Qed.

Lemma stderr_but_sed_eq sed_1i fs ds :
  stderr_but_sed (run_script sed_1i fs ds) =
  failures_created fs ds ++
  match regular APP_FILE (mkState fs ds [] [] 0) with
  | None => [Grep_failed APP_FILE; Grep_failed APP_FILE]
  | Some _ => []
  end.
Proof.
  unfold stderr_but_sed.
  replace (stderr (run_script sed_1i fs ds))
    with (failures_created fs ds ++ failures_update sed_1i fs ds)
    by (rewrite run_script_eq;
        destruct (has_app_pattern (mkState fs ds [] [] 0)); reflexivity).
  rewrite List.filter_app, failures_created_not_by_sed. f_equal.
  unfold failures_update.
  destruct (regular APP_FILE (mkState fs ds [] [] 0)); [|reflexivity].
  destruct (has_app_pattern (mkState fs ds [] [] 0)); [|reflexivity].
  cbv zeta. destruct (Nat.eqb _ 0); reflexivity.
Qed.

(** X8.  The sed step has no effect on the outcome: whatever sed does to
    the entry file (BSD sed inserts the imports, GNU sed reads the
    command line differently), files, directories and output of the run
    are the same, since the file is overwritten right after; so are the
    exit status and what the other commands report on the standard
    error. *)
Theorem sed_step_is_dead
  (sed1 sed2 : list string -> option string -> option string * nat)
  (fs : gmap string string) (ds : gset string) :
  files (run_script sed1 fs ds) = files (run_script sed2 fs ds) /\
  dirs (run_script sed1 fs ds) = dirs (run_script sed2 fs ds) /\
  stdout (run_script sed1 fs ds) = stdout (run_script sed2 fs ds) /\
  status (run_script sed1 fs ds) = status (run_script sed2 fs ds) /\
  stderr_but_sed (run_script sed1 fs ds) =
    stderr_but_sed (run_script sed2 fs ds).
Proof.
  rewrite !stderr_but_sed_eq, !run_script_eq.
  destruct (has_app_pattern (mkState fs ds [] [] 0)); repeat split.
Qed.

Lemma generated_entry_has_pattern fs ds :
  APP_FILE ∉ ds ->
  fs !! APP_FILE = Some (heredoc app_heredoc) ->
  has_app_pattern (mkState fs ds [] [] 0) = true.
Proof.
  intros Hd E. rewrite has_app_pattern_eq. unfold regular, is_dir.
  cbn [files dirs]. rewrite bool_decide_eq_false_2 by exact Hd.
  rewrite E. vm_compute. reflexivity.
Qed.

Lemma pattern_not_dir fs ds :
  has_app_pattern (mkState fs ds [] [] 0) = true -> APP_FILE ∉ ds.
Proof.
  rewrite has_app_pattern_eq. unfold regular, is_dir. cbn [files dirs].
  case_bool_decide; [discriminate | auto].
Qed.

(** A second run finds the directories of the first one. *)
Lemma dirs_after_again f' fs ds :
  f' !! "context" = fs !! "context" ->
  f' !! "components" = fs !! "components" ->
  dirs_after f' (dirs_after fs ds) = dirs_after fs ds.
Proof.
  intros Hc Hm. apply set_eq. intros x. rewrite !dirs_after_elem.
  split; [|auto].
  intros [H|[[-> | ->] H]]; [exact H| |]; right; split; auto; congruence.
Qed.

Lemma mkdir_failures_eq d f D :
  mkdir_failures d f D =
  if bool_decide (d ∈ mkdir_dirs d f D) then [] else [Mkdir_failed d].
Proof.
  unfold mkdir_failures, mkdir_dirs. case_bool_decide as Hd.
  - rewrite bool_decide_eq_true_2 by exact Hd. reflexivity.
  - destruct (f !! d).
    + rewrite bool_decide_eq_false_2 by exact Hd. reflexivity.
    + rewrite bool_decide_eq_true_2; [reflexivity|].
      apply elem_of_union_l, elem_of_singleton. reflexivity.
Qed.

Lemma failures_created_again f' fs ds :
  f' !! "context" = fs !! "context" ->
  f' !! "components" = fs !! "components" ->
  failures_created f' (dirs_after fs ds) = failures_created fs ds.
Proof.
  intros Hc Hm. unfold failures_created, redirect_failures, writable.
  rewrite (dirs_after_again f' fs ds Hc Hm).
  rewrite !mkdir_failures_eq.
  assert (E1 : bool_decide ("context" ∈
                 mkdir_dirs "context" f' (dirs_after fs ds)) =
               bool_decide ("context" ∈ mkdir_dirs "context" fs ds)).
  { apply bool_decide_ext.
    rewrite !mkdir_dirs_elem, dirs_after_elem. rewrite Hc. tauto. }
  assert (E2 : bool_decide ("components" ∈
                 mkdir_dirs "components" f'
                   (mkdir_dirs "context" f' (dirs_after fs ds))) =
               bool_decide ("components" ∈
                 mkdir_dirs "components" fs (mkdir_dirs "context" fs ds))).
  { apply bool_decide_ext.
    rewrite !mkdir_dirs_elem, dirs_after_elem. rewrite Hm, Hc. split.
    - intros [[H|[H _]]|H]; [|discriminate H|tauto].
      destruct H as [H|[[H|H] H']]; [tauto|discriminate H|tauto].
    - intros [[H|[H _]]|H]; [|discriminate H|tauto]. auto. }
  rewrite E1, E2. reflexivity.
Qed.

Lemma files_created_again f' fs ds :
  f' !! "context" = fs !! "context" ->
  f' !! "components" = fs !! "components" ->
  forall path,
    f' !! path = files_created fs ds !! path ->
    files_created f' (dirs_after fs ds) !! path = files_created fs ds !! path.
Proof.
  intros Hc Hm path Hp. rewrite files_created_lookup. unfold writable.
  rewrite (dirs_after_again f' fs ds Hc Hm).
  fold (writable COMPONENT_FILE fs ds). fold (writable CONTEXT_FILE fs ds).
  rewrite Hp. rewrite files_created_lookup.
  destruct (decide (path = COMPONENT_FILE));
    [destruct (writable COMPONENT_FILE fs ds); reflexivity|].
  destruct (decide (path = CONTEXT_FILE));
    [destruct (writable CONTEXT_FILE fs ds); reflexivity|].
  reflexivity.
Qed.

(** X7.  The script is idempotent: run again in the directory it has just
    left, it leaves the same files and directories and prints the same
    lines; it ends with the same status, and the commands other than sed
    report the same failures.  An entry file it has rewritten matches
    its pattern and is rewritten with the same text; one it has refused
    is refused again. *)
Theorem script_idempotent
  (sed_1i : list string -> option string -> option string * nat)
  (fs : gmap string string) (ds : gset string) :
  files (run_script sed_1i (files (run_script sed_1i fs ds))
                           (dirs (run_script sed_1i fs ds))) =
    files (run_script sed_1i fs ds) /\
  dirs (run_script sed_1i (files (run_script sed_1i fs ds))
                          (dirs (run_script sed_1i fs ds))) =
    dirs (run_script sed_1i fs ds) /\
  stdout (run_script sed_1i (files (run_script sed_1i fs ds))
                            (dirs (run_script sed_1i fs ds))) =
    stdout (run_script sed_1i fs ds) /\
  status (run_script sed_1i (files (run_script sed_1i fs ds))
                            (dirs (run_script sed_1i fs ds))) =
    status (run_script sed_1i fs ds) /\
  stderr_but_sed (run_script sed_1i (files (run_script sed_1i fs ds))
                                    (dirs (run_script sed_1i fs ds))) =
    stderr_but_sed (run_script sed_1i fs ds).
Proof.
  pose proof (run_script_dirs sed_1i fs ds) as Hd.
  pose proof (run_script_lookups sed_1i fs ds) as Hl.
  pose proof (stderr_but_sed_eq sed_1i fs ds) as He.
  pose proof (run_script_stdout sed_1i fs ds) as Ho.
  pose proof (run_script_status sed_1i fs ds) as Hs.
  set (st := run_script sed_1i fs ds) in *. clearbody st.
  assert (Hc : files st !! "context" = fs !! "context").
  { rewrite Hl, files_created_lookup.
    repeat (destruct (decide _) as [H|_]; [discriminate H|]). reflexivity. }
  assert (Hm : files st !! "components" = fs !! "components").
  { rewrite Hl, files_created_lookup.
    repeat (destruct (decide _) as [H|_]; [discriminate H|]). reflexivity. }
  assert (Hr : regular APP_FILE (mkState (files st) (dirs st) [] [] 0) =
               if has_app_pattern (mkState fs ds [] [] 0)
               then Some (heredoc app_heredoc)
               else regular APP_FILE (mkState fs ds [] [] 0)).
  { unfold regular, is_dir. cbn [files dirs]. rewrite Hd, app_file_dir, Hl.
    destruct (decide (APP_FILE = APP_FILE)) as [_|N]; [|congruence].
    destruct (has_app_pattern (mkState fs ds [] [] 0)) eqn:P.
    - rewrite bool_decide_eq_false_2 by (apply (pattern_not_dir fs), P).
      reflexivity.
    - destruct (bool_decide (APP_FILE ∈ ds)); reflexivity. }
  assert (Hp : has_app_pattern (mkState (files st) (dirs st) [] [] 0) =
               has_app_pattern (mkState fs ds [] [] 0)).
  { rewrite (has_app_pattern_eq (mkState (files st) _ _ _ _)), Hr.
    destruct (has_app_pattern (mkState fs ds [] [] 0)) eqn:P;
      [vm_compute; reflexivity|].
    rewrite has_app_pattern_eq in P. exact P. }
  split; [|split; [|split; [|split]]].
  - apply map_eq. intros path. rewrite run_script_lookups, Hp, Hd.
    destruct (decide (path = APP_FILE)) as [->|Hne].
    + rewrite Hl.
      destruct (decide (APP_FILE = APP_FILE)) as [_|N]; [|congruence].
      destruct (has_app_pattern (mkState fs ds [] [] 0)); reflexivity.
    + rewrite (files_created_again _ fs ds Hc Hm).
      * rewrite Hl. destruct (decide (path = APP_FILE)); [congruence|].
        reflexivity.
      * rewrite Hl. destruct (decide (path = APP_FILE)); [congruence|].
        reflexivity.
  - rewrite run_script_dirs, Hd. apply dirs_after_again; assumption.
  - rewrite run_script_stdout, Hp, Ho. reflexivity.
  - rewrite run_script_status, Hs. reflexivity.
  - rewrite stderr_but_sed_eq, Hr, He, Hd.
    rewrite (failures_created_again _ fs ds Hc Hm). f_equal.
    destruct (has_app_pattern (mkState fs ds [] [] 0)) eqn:P; [|reflexivity].
    rewrite has_app_pattern_eq in P.
    destruct (regular APP_FILE (mkState fs ds [] [] 0));
      [reflexivity|discriminate].
Qed.

(** X9.  What a run reports and creates.  It prints eleven lines: four
    opening lines, then either the success line or the warning, then six
    closing lines, which name App.jsx among the files created or updated
    even when the warning says it was not.  A
    directory is there afterwards when it was there before, or when it
    is [context] or [components] and no regular file has that name; no
    directory is removed. *)
Theorem script_report
  (sed_1i : list string -> option string -> option string * nat)
  (fs : gmap string string) (ds : gset string) :
  stdout (run_script sed_1i fs ds) =
    opening_lines ++
    [if has_app_pattern (mkState fs ds [] [] 0)
     then "Successfully updated App.jsx." else warning] ++
    closing_lines /\
  length (stdout (run_script sed_1i fs ds)) = 11%nat /\
  In "- App.jsx (Wraps application with ThemeProvider)"
     (stdout (run_script sed_1i fs ds)) /\
  (forall d, d ∈ dirs (run_script sed_1i fs ds) <->
             d ∈ ds \/ ((d = "context" \/ d = "components") /\ fs !! d = None)).
Proof.
  rewrite run_script_eq.
  destruct (has_app_pattern (mkState fs ds [] [] 0)); cbn [stdout dirs];
    (split; [reflexivity|]; split; [reflexivity|]; split;
     [vm_compute; tauto |];
     intros d; apply dirs_after_elem).
Qed.

Lemma lines_nil s : lines s = [] -> s = EmptyString.
Proof.
  destruct s as [|c r]; [reflexivity|]. simpl.
  destruct (Ascii.eqb c nl); [discriminate|].
  destruct (lines r); discriminate.
Qed.

Lemma prefix_first_line pat : newline_free pat = true ->
  forall r l ls, lines r = l :: ls -> String.prefix pat r = String.prefix pat l.
Proof.
  induction pat as [|a pat IH]; intros Hp r l ls Hl;
    [destruct r, l; reflexivity|].
  simpl in Hp. apply andb_prop in Hp. destruct Hp as [Ha Hp].
  destruct r as [|c r]; simpl in Hl; [discriminate Hl|].
  destruct (Ascii.eqb c nl) eqn:Ec.
  - injection Hl as <- _. apply Ascii.eqb_eq in Ec. subst c. simpl.
    destruct (ascii_dec a nl) as [->|_]; [|reflexivity].
    rewrite Ascii.eqb_refl in Ha. discriminate.
  - destruct (lines r) as [|l' ls'] eqn:Hr.
    + injection Hl as <- _. apply lines_nil in Hr. subst r. reflexivity.
    + injection Hl as <- <-. simpl.
      destruct (ascii_dec a c); [|reflexivity].
      apply (IH Hp r l' ls' Hr).
Qed.

(** For a pattern of one character or more, none of them a newline, a
    match on some line is a match somewhere in the text. *)
Lemma contains_lines pat : newline_free pat = true -> pat <> EmptyString ->
  forall s, existsb (contains pat) (lines s) = contains pat s.
Proof.
  intros Hp Hne.
  assert (Hnl : forall r, String.prefix pat (String nl r) = false).
  { intros r. destruct pat as [|a pat]; [congruence|]. simpl.
    simpl in Hp. apply andb_prop in Hp. destruct Hp as [Ha _].
    destruct (ascii_dec a nl) as [->|_]; [|reflexivity].
    rewrite Ascii.eqb_refl in Ha. discriminate. }
  assert (He : contains pat EmptyString = false).
  { destruct pat; [congruence | reflexivity]. }
  induction s as [|c r IH]; [symmetry; exact He|].
  cbn [lines]. destruct (Ascii.eqb c nl) eqn:Ec.
  - apply Ascii.eqb_eq in Ec. subst c. cbn [existsb].
    rewrite IH, He. cbn [contains]. rewrite Hnl. reflexivity.
  - assert (Hl : forall l ls, lines (String c r) = l :: ls ->
                   String.prefix pat (String c r) = String.prefix pat l)
      by (intros l ls; apply (prefix_first_line pat Hp)).
    cbn [lines] in Hl. rewrite Ec in Hl.
    destruct (lines r) as [|l ls] eqn:Hr.
    + apply lines_nil in Hr. subst r. cbn [existsb]. apply orb_false_r.
    + cbn [existsb contains] in *.
      rewrite <- IH, orb_assoc. f_equal.
      rewrite (Hl _ _ eq_refl). reflexivity.
Qed.

(** X10.  The test of the entry file is a plain substring test: each of
    the two patterns matches a line of a file exactly when its text
    occurs anywhere in the file.  So the script takes an entry file for
    a standard one as soon as "function App()" or "const App =" occurs
    in it, be it in a comment or in the middle of a longer line. *)
Theorem entry_test_is_substring_test (p : entry_pattern) (path : string)
  (st : state) :
  succeeded (grep_q p path st) =
    match regular path st with
    | Some content => contains (pattern_text p) content
    | None => false
    end /\
  has_app_pattern st =
    match regular APP_FILE st with
    | Some content =>
        contains "function App()" content || contains "const App =" content
    | None => false
    end /\
  has_app_pattern
    (mkState {[APP_FILE := "// was: const App = () => null;"]} ∅ [] [] 0) = true.
Proof.
  split; [|split; [|vm_compute; reflexivity]].
  - unfold grep_q, succeeded.
    destruct (regular path st) as [content|]; [|reflexivity]. cbn [status].
    rewrite contains_lines by (destruct p; (reflexivity || discriminate)).
    destruct (contains (pattern_text p) content); reflexivity.
  - rewrite has_app_pattern_eq.
    destruct (regular APP_FILE st); [|reflexivity].
    rewrite !contains_lines by (reflexivity || discriminate). reflexivity.
Qed.

End ShExtraFacts.

(** ** The generated application *)

Lemma scaffold_click_fresh (p : Scaffold.Page) :
  Scaffold.captured p = Scaffold.theme p ->
  Scaffold.click p =
  Scaffold.mkPage (ContextJsx.toggleTheme_updater (Scaffold.theme p))
                  (ContextJsx.toggleTheme_updater (Scaffold.theme p))
                  (("Theme toggled to: " +:+
                    ContextJsx.toggleTheme_updater (Scaffold.theme p))
                   :: Scaffold.console p).
Proof.
  intros E. unfold Scaffold.click, Scaffold.call_toggleTheme,
    ContextJsx.toggleTheme. rewrite E.
  change (ContextJsx.toggleTheme_updater (Scaffold.theme p))
    with (AppJs.toggleTheme_updater (Scaffold.theme p)).
  rewrite toggleTheme_updater_moves. reflexivity.
Qed.

Lemma scaffold_fresh (N : nat) :
  Scaffold.captured (Nat.iter N Scaffold.click Scaffold.mount) =
  Scaffold.theme (Nat.iter N Scaffold.click Scaffold.mount) /\
  Scaffold.theme (Nat.iter N Scaffold.click Scaffold.mount) =
  Nat.iter N ContextJsx.toggleTheme_updater ContextJsx.initial_theme.
Proof.
  induction N as [|N [IH1 IH2]]; [split; reflexivity|].
  simpl Nat.iter. rewrite (scaffold_click_fresh _ IH1). simpl.
  rewrite IH2. split; reflexivity.
Qed.

(** X11.  In the generated application every click on the button logs
    the theme the page shows from then on, N clicks from the mount leave
    N log lines and the theme 'light' for an even N and 'dark' for an odd
    one, and the label of the button always names the theme the next
    click will bring. *)
Theorem scaffold_log_matches_theme (N : nat) :
  Scaffold.theme (Nat.iter N Scaffold.click Scaffold.mount) =
    (if Nat.even N then "light" else "dark") /\
  Scaffold.console (Nat.iter (S N) Scaffold.click Scaffold.mount) =
    ("Theme toggled to: " +:+
     Scaffold.theme (Nat.iter (S N) Scaffold.click Scaffold.mount)) ::
    Scaffold.console (Nat.iter N Scaffold.click Scaffold.mount) /\
  length (Scaffold.console (Nat.iter N Scaffold.click Scaffold.mount)) = N /\
  Scaffold.button_label
    (Scaffold.view (Nat.iter N Scaffold.click Scaffold.mount)) =
    (if String.eqb
          (Scaffold.theme (Nat.iter (S N) Scaffold.click Scaffold.mount))
          "dark"
     then "Toggle to Dark Mode" else "Toggle to Light Mode").
Proof.
  destruct (scaffold_fresh N) as (F & T).
  assert (P : Scaffold.theme (Nat.iter N Scaffold.click Scaffold.mount) =
              if Nat.even N then "light" else "dark").
  { rewrite T. apply toggle_iter_from_light. }
  split; [exact P|].
  split; [simpl Nat.iter; rewrite (scaffold_click_fresh _ F); reflexivity|].
  split.
  - clear. induction N as [|N IH]; [reflexivity|].
    destruct (scaffold_fresh N) as (F & _).
    simpl Nat.iter. rewrite (scaffold_click_fresh _ F). simpl. congruence.
  - simpl Nat.iter. rewrite (scaffold_click_fresh _ F).
    unfold Scaffold.view. simpl Scaffold.theme. rewrite P.
    destruct (Nat.even N); reflexivity.
Qed.

(** X12.  The log line of [toggleTheme] in context/ThemeContext.jsx is
    computed from the [theme] of the render that created the function,
    while the new theme is computed from the current state: on the two
    themes, the line names the theme the call produces exactly when the
    function comes from the latest render.  The updater itself never
    depends on the render. *)
Theorem toggleTheme_log_right_iff_fresh (closure_theme : string)
  (p : Scaffold.Page) :
  (closure_theme = "light" \/ closure_theme = "dark") ->
  (Scaffold.theme p = "light" \/ Scaffold.theme p = "dark") ->
  Scaffold.theme (Scaffold.call_toggleTheme closure_theme p) =
    ContextJsx.toggleTheme_updater (Scaffold.theme p) /\
  (Scaffold.console (Scaffold.call_toggleTheme closure_theme p) =
     ("Theme toggled to: " +:+
      Scaffold.theme (Scaffold.call_toggleTheme closure_theme p)) ::
     Scaffold.console p
   <-> closure_theme = Scaffold.theme p).
Proof.
  intros Hc Ht. destruct p as [t c l]. simpl in *.
  destruct Hc as [-> | ->], Ht as [-> | ->]; simpl;
    (split; [reflexivity|]); split; intros H;
    try reflexivity; try discriminate H; try (injection H as H; discriminate H).
Qed.

Lemma toggleTheme_log_right_iff_fresh_witness :
  Scaffold.theme (Scaffold.call_toggleTheme "light"
                    (Scaffold.mkPage "dark" "dark" [])) = "light" /\
  Scaffold.console (Scaffold.call_toggleTheme "light"
                      (Scaffold.mkPage "dark" "dark" [])) =
    ["Theme toggled to: dark"].
Proof.
  destruct (toggleTheme_log_right_iff_fresh "light"
              (Scaffold.mkPage "dark" "dark" [])
              (or_introl eq_refl) (or_intror eq_refl)) as (Ht & _).
  split; [exact Ht | reflexivity].
Defined.
